(** * add_files_to_xcode.py: registering Swift files in an Xcode manifest

    A shallow embedding of [src/add_files_to_xcode.py] and the properties
    of its specification.

    The script reads [project.pbxproj] into one Python [str], draws two
    identifiers per file name, performs four find-and-insert edits on the
    text and writes the text back.  Python strings are modelled as lists of
    characters, the two dictionaries as finite maps, the random source as
    an explicit sequence of 128-bit draws, [str.index] as a search that can
    raise, and the file system as the content of the one path the script
    touches, read and written in text mode. *)

From Stdlib Require Import ZArith Ascii String List Lia Bool DecimalString.
From stdpp Require Import base tactics option list gmap strings.

Local Open Scope nat_scope.

(** ** Python strings *)

(** A [str] is a sequence of characters.  Every literal of the script is
    ASCII, and a search for an ASCII needle finds the same occurrences in a
    text whether its other characters are read as code points or as UTF-8
    bytes, so one [ascii] per element is enough. *)
Abbreviation str := (list ascii).

Definition lit (s : string) : str := list_ascii_of_string s.

(** The escapes [\t], [\n] and [\r]. *)
Definition TAB : ascii := ascii_of_nat 9.
Definition NL : ascii := ascii_of_nat 10.
Definition CR : ascii := ascii_of_nat 13.

(** [s.startswith(m)], the test at the heart of the substring search. *)
Fixpoint startswith (m s : str) : bool :=
  match m, s with
  | [], _ => true
  | _ :: _, [] => false
  | a :: m', b :: s' => Ascii.eqb a b && startswith m' s'
  end.

(** [s.find(m)]: the lowest index at which [m] occurs in [s]. *)
Fixpoint find (m s : str) : option nat :=
  if startswith m s then Some 0
  else match s with
       | [] => None
       | _ :: s' => S <$> find m s'
       end.

(** [m in s]. *)
Definition contains (m s : str) : bool := bool_decide (is_Some (find m s)).

(** The exceptions that the statements of the function itself can raise,
    none of which it catches: [ValueError] from [str.index], [KeyError]
    from a subscript of a dictionary.  What [open], [read] and [write] can
    raise on a path that is no readable and writable text file is not
    part of the model. *)
Inductive exn := ValueError | KeyError.

Inductive result (A : Type) :=
| Ok (a : A)
| Raise (e : exn).
Arguments Ok {A} a.
Arguments Raise {A} e.

(** Sequencing: an exception ends the computation. *)
#[global] Instance result_bind : MBind result := fun A B k r =>
  match r with
  | Ok a => k a
  | Raise e => Raise e
  end.
#[global] Instance result_ret : MRet result := fun A a => Ok a.

(** [s.index(m)] raises [ValueError] where [s.find(m)] returns -1. *)
Definition index (m s : str) : result nat :=
  match find m s with
  | Some i => Ok i
  | None => Raise ValueError
  end.

(** [s.index(m, start)] for [0 <= start]: the search runs on [s[start:]]
    and the result counts from the beginning of [s]. *)
Definition index_from (m s : str) (start : nat) : result nat :=
  match find m (drop start s) with
  | Some i => Ok (start + i)
  | None => Raise ValueError
  end.

(** [s[a:b]] for [0 <= a] and [0 <= b]; empty when [b <= a]. *)
Definition slice (s : str) (a b : nat) : str := take (b - a) (drop a s).

(** ["".join(l)]. *)
Definition join (l : list str) : str := concat l.

(** ** Identifiers: [uuid.uuid4().hex[:24].upper()] *)

(** [uuid.uuid4()] of the standard library reads 16 bytes of [os.urandom]
    as a big-endian integer [r] below [2^128] and stamps the variant and
    the version on it. *)
Definition uuid4 (r : N) : Z :=
  let i := Z.of_N r in
  let i := Z.land i (Z.lnot (Z.shiftl 0xc000 48)) in
  let i := Z.lor i (Z.shiftl 0x8000 48) in
  let i := Z.land i (Z.lnot (Z.shiftl 0xf000 64)) in
  Z.lor i (Z.shiftl 4 76).

Definition hexdigit (d : Z) : ascii :=
  nth (Z.to_nat d) (lit "0123456789abcdef") "0"%char.

(** The [k] low-order hexadecimal digits of [n], most significant first. *)
Fixpoint hex_digits (k : nat) (n : Z) : str :=
  match k with
  | O => []
  | S k' => hex_digits k' (n / 16) ++ [hexdigit (n mod 16)]
  end.

(** Number of hexadecimal digits of ['%x' % n] for [0 <= n]. *)
Definition hex_width (n : Z) : nat :=
  if (n =? 0)%Z then 1 else S (Z.to_nat (Z.log2 n / 4)).

(** ['%032x' % n]: at least 32 characters, zero padded, sign first. *)
Definition format_032x (n : Z) : str :=
  if (n <? 0)%Z
  then "-"%char :: hex_digits (Nat.max 31 (hex_width (- n))) (- n)
  else hex_digits (Nat.max 32 (hex_width n)) n.

(** [UUID.hex]. *)
Definition hex (u : Z) : str := format_032x u.

(** [str.upper] on ASCII text. *)
Definition upper_char (c : ascii) : ascii :=
  let n := nat_of_ascii c in
  if (97 <=? n) && (n <=? 122) then ascii_of_nat (n - 32) else c.

Definition upper (s : str) : str := map upper_char s.

(** [generate_uuid()], given the random integer its call draws. *)
Definition generate_uuid (r : N) : str := upper (take 24 (hex (uuid4 r))).

(** ** The script *)

(** The path of the manifest, a constant of the module. *)
Definition project_path : str :=
  lit "/Users/leomanderico/Library/Mobile Documents/com~apple~CloudDocs/DEV/CoolClockPresence/CoolClockPresence.xcodeproj/project.pbxproj".

(** The literal anchors of [add_files_to_project]. *)
Definition file_ref_marker : str := lit "/* Begin PBXFileReference section */".
Definition file_ref_end_marker : str := lit "/* End PBXFileReference section */".
Definition build_file_marker : str := lit "/* Begin PBXBuildFile section */".
Definition build_file_end_marker : str := lit "/* End PBXBuildFile section */".
Definition main_group_marker : str := lit "CoolClockPresence */ = {".
Definition children_marker : str := lit "children = (".
Definition sources_phase_marker : str := lit "/* Sources */ = {".
Definition files_marker : str := lit "files = (".
(** The token [");"] that closes a parenthesised list. *)
Definition list_end : str := lit ");".

Definition DQ : ascii := ascii_of_nat 34.

(** The f-strings of the four loops. *)
Definition file_ref_entry (ref filename : str) : str :=
  [TAB; TAB] ++ ref ++ lit " /* " ++ filename
  ++ lit " */ = {isa = PBXFileReference; lastKnownFileType = sourcecode.swift; path = "
  ++ filename ++ lit "; sourceTree = " ++ [DQ] ++ lit "<group>" ++ [DQ]
  ++ lit "; };" ++ [NL].

Definition build_file_entry (build ref filename : str) : str :=
  [TAB; TAB] ++ build ++ lit " /* " ++ filename
  ++ lit " in Sources */ = {isa = PBXBuildFile; fileRef = " ++ ref
  ++ lit " /* " ++ filename ++ lit " */; };" ++ [NL].

Definition child_entry (ref filename : str) : str :=
  [TAB; TAB; TAB; TAB] ++ ref ++ lit " /* " ++ filename ++ lit " */," ++ [NL].

Definition source_entry (build filename : str) : str :=
  [TAB; TAB; TAB; TAB] ++ build ++ lit " /* " ++ filename
  ++ lit " in Sources */," ++ [NL].

(** [d[k]]: a missing key raises [KeyError]. *)
Definition getitem (d : gmap str str) (k : str) : result str :=
  match d !! k with
  | Some v => Ok v
  | None => Raise KeyError
  end.

(** [for x in l: acc.append(f(x))] where [f] may raise. *)
Fixpoint for_each {A B} (f : A -> result B) (l : list A) : result (list B) :=
  match l with
  | [] => Ok []
  | x :: l' => y ← f x; ys ← for_each f l'; Ok (y :: ys)
  end.

(** What the script sees of the world: the characters stored in the file
    at [project_path], as its encoding gives them ([None] when no file is
    there), and the lines printed. *)
Record world := World { disk : option str; stdout : list str }.

Definition print (line : str) (w : world) : world :=
  World (disk w) (stdout w ++ [line]).

(** The script opens the file with [open(project_path, 'r')] and
    [open(project_path, 'w')]: text mode with the default [newline=None].
    On input, universal newlines: [\r\n] and a lone [\r] are read as
    [\n]. *)
Fixpoint universal_newlines (s : str) : str :=
  match s with
  | [] => []
  | c :: s' =>
      if Ascii.eqb c CR then
        NL :: match s' with
              | [] => []
              | c' :: s'' =>
                  if Ascii.eqb c' NL then universal_newlines s''
                  else universal_newlines s'
              end
      else c :: universal_newlines s'
  end.

(** Lines 34 and 35: [f.read()], the text that the edits work on. *)
Definition read (w : world) : option str := universal_newlines <$> disk w.

(** [os.linesep] on the systems where Xcode projects live. *)
Definition linesep : str := [NL].

(** On output every [\n] is stored as [os.linesep]. *)
Definition write_newlines (s : str) : str :=
  flat_map (fun c => if Ascii.eqb c NL then linesep else [c]) s.

(** Lines 140 and 141: [f.write(content)] on the truncated file. *)
Definition write (content : str) (w : world) : world :=
  World (Some (write_newlines content)) (stdout w).

(** How a call of [add_files_to_project] ends. *)
Inductive outcome := Returned (b : bool) | Raised (e : exn).

Section Script.

(** The module-level list [new_files] and the values that the successive
    calls of [uuid.uuid4] draw from [os.urandom]. *)
Variable new_files : list str.
Variable draws : nat -> N.

(** Lines 38 to 42: two identifiers per name; [k] counts the draws made
    so far.  A name listed twice keeps the identifiers drawn last. *)
Fixpoint generate_ids (names : list str) (k : nat)
    (file_refs build_files : gmap str str) : gmap str str * gmap str str :=
  match names with
  | [] => (file_refs, build_files)
  | filename :: names' =>
      let file_refs := <[filename := generate_uuid (draws k)]> file_refs in
      let build_files := <[filename := generate_uuid (draws (S k))]> build_files in
      generate_ids names' (S (S k)) file_refs build_files
  end.

Variable file_refs build_files : gmap str str.

(** Lines 53 to 56. *)
Definition file_ref_entries : result (list str) :=
  for_each (fun filename =>
              ref ← getitem file_refs filename;
              Ok (file_ref_entry ref filename)) new_files.

(** Lines 58 to 68. *)
Definition insert_file_references (content : str) : result str :=
  file_ref_entries ← file_ref_entries;
  i ← index file_ref_marker content;
  let file_ref_section_start := i + length file_ref_marker in
  file_ref_section_end ← index file_ref_end_marker content;
  Ok (take file_ref_section_start content
      ++ ([NL] ++ join file_ref_entries)
      ++ slice content file_ref_section_start file_ref_section_end
      ++ drop file_ref_section_end content).

(** Lines 75 to 78. *)
Definition build_file_entries : result (list str) :=
  for_each (fun filename =>
              build ← getitem build_files filename;
              ref ← getitem file_refs filename;
              Ok (build_file_entry build ref filename)) new_files.

(** Lines 80 to 90. *)
Definition insert_build_files (content : str) : result str :=
  build_file_entries ← build_file_entries;
  i ← index build_file_marker content;
  let build_file_section_start := i + length build_file_marker in
  build_file_section_end ← index build_file_end_marker content;
  Ok (take build_file_section_start content
      ++ ([NL] ++ join build_file_entries)
      ++ slice content build_file_section_start build_file_section_end
      ++ drop build_file_section_end content).

(** Lines 104 to 107. *)
Definition file_ref_in_children : result (list str) :=
  for_each (fun filename =>
              ref ← getitem file_refs filename;
              Ok (child_entry ref filename)) new_files.

(** Lines 92 to 114. *)
Definition add_to_children (content : str) : result str :=
  if contains main_group_marker content then
    main_group_pos ← index main_group_marker content;
    children_pos ← index_from children_marker content main_group_pos;
    children_end_pos ← index_from list_end content children_pos;
    file_ref_in_children ← file_ref_in_children;
    Ok (take children_end_pos content
        ++ join file_ref_in_children
        ++ drop children_end_pos content)
  else Ok content.

(** Lines 127 to 130. *)
Definition build_file_in_sources : result (list str) :=
  for_each (fun filename =>
              build ← getitem build_files filename;
              Ok (source_entry build filename)) new_files.

(** Lines 116 to 137. *)
Definition add_to_sources (content : str) : result str :=
  if contains sources_phase_marker content then
    sources_pos ← index sources_phase_marker content;
    files_pos ← index_from files_marker content sources_pos;
    files_end_pos ← index_from list_end content files_pos;
    build_file_in_sources ← build_file_in_sources;
    Ok (take files_end_pos content
        ++ join build_file_in_sources
        ++ drop files_end_pos content)
  else Ok content.

(** Lines 52 to 137: the four edits of the text, in order. *)
Definition edit (content : str) : result str :=
  content ← insert_file_references content;
  content ← insert_build_files content;
  content ← add_to_children content;
  add_to_sources content.

End Script.

(** [str(n)] for a length. *)
Definition str_of_nat (n : nat) : str :=
  lit (NilEmpty.string_of_uint (Nat.to_uint n)).

(** Lines 143 to 145. *)
Definition report (new_files : list str) (w : world) : world :=
  fold_left (fun w filename => print (lit "  - " ++ filename) w) new_files
    (print (lit "Successfully added " ++ str_of_nat (length new_files)
            ++ lit " files to the Xcode project:") w).

(** [add_files_to_project()], lines 26 to 147.  The file is read and
    written through [open] on a path that is assumed to be, whenever it
    exists, a text file that can be decoded, read and written: the
    exceptions of [open], [read] and [write] themselves are outside the
    model. *)
Definition add_files_to_project (new_files : list str) (draws : nat -> N)
    (w : world) : outcome * world :=
  match disk w with
  | None =>
      (Returned false,
       print (lit "Error: Project file not found at " ++ project_path) w)
  | Some stored =>
      let content := universal_newlines stored in
      let '(file_refs, build_files) := generate_ids draws new_files 0 ∅ ∅ in
      if negb (contains file_ref_marker content) then
        (Returned false,
         print (lit "Error: Could not find PBXFileReference section") w)
      else
        match edit new_files file_refs build_files content with
        | Raise e => (Raised e, w)
        | Ok content => (Returned true, report new_files (write content w))
        end
  end.

(** The list of the script. *)
Definition new_files : list str :=
  [ lit "WorldClockLocation.swift";
    lit "WorldClockManager.swift";
    lit "WorldClockView.swift";
    lit "WorldClockPickerView.swift" ].

(** Lines 149 to 151: the exit status of the process.  An exception that
    nothing catches ends the interpreter with status 1. *)
Definition main (draws : nat -> N) (w : world) : Z * world :=
  let '(o, w') := add_files_to_project new_files draws w in
  (match o with
   | Returned true => 0%Z
   | Returned false => 1%Z
   | Raised _ => 1%Z
   end, w').

(** * The vocabulary of the statements *)

(** ** Occurrences, splices and sections *)

(** [m] occurs in [s] at index [q]. *)
Definition occurs_at (m s : str) (q : nat) : Prop :=
  take (length m) (drop q s) = m.

(** [m] is a substring of [s]. *)
Definition occurs (m s : str) : Prop := exists q, occurs_at m s q.

(** [m] has no newline character. *)
Definition no_newline (m : str) : bool :=
  forallb (fun c => negb (Ascii.eqb c CR) && negb (Ascii.eqb c NL)) m.

(** The text is kept whole around the point of insertion. *)
Definition additive (c out : str) : Prop :=
  exists p B, p <= length c /\ out = take p c ++ B ++ drop p c.

(** [out] is [c] with the block [B] put in at a border of an occurrence of
    the token [t]; what follows the block resumes at or before that
    border. *)
Definition spliced (t B c out : str) : Prop :=
  exists p m,
    m <= p <= length c /\ (B = [] -> m = p) /\
    (exists q, occurs_at t c q /\ (p = q \/ p = q + length t)) /\
    out = take p c ++ B ++ drop m c.

(** What each of the four edits has put into the text: the two section
    steps always insert, the two list steps only when their marker is
    found. *)
Definition block_of (found : bool) (lines : list str) : str :=
  if found then join lines else [].

(** The content of a section, as lines 59-60 and 81-82 delimit it: the text
    from the end of the first start marker up to the first end marker. *)
Definition section (start_marker end_marker c : str) : option str :=
  i ← find start_marker c;
  e ← find end_marker c;
  Some (slice c (i + length start_marker) e).

(** The section opened by [ts] at index [i] holds exactly [B]. *)
Definition section_at (ts te B c : str) (i : nat) : Prop :=
  find ts c = Some i /\
  find te c = Some (i + length ts + length B) /\
  occurs_at (ts ++ B ++ te) c i.

(** ** Outcomes *)

(** The run reports failure: it returns [False] or raises, and the process
    ends with a non-zero status. *)
Definition failed (o : outcome) : Prop := o <> Returned true.

(** ** Identifiers *)

Definition is_upper_hex (c : ascii) : bool :=
  let n := nat_of_ascii c in
  ((48 <=? n) && (n <=? 57)) || ((65 <=? n) && (n <=? 70)).

(** A well-formed identifier: 24 uppercase hexadecimal digits. *)
Definition is_id (u : str) : Prop :=
  length u = 24 /\ Forall (fun c => is_upper_hex c = true) u.

(** The identifiers that every later lookup relies on: each listed name has
    a well-formed identifier in the dictionary. *)
Definition ids_ok (files : list str) (d : gmap str str) : Prop :=
  forall f, f ∈ files -> exists u, d !! f = Some u /\ is_id u.

(** The position of the last occurrence of a name in the list: the
    assignment that a dictionary keeps. *)
Fixpoint last_pos (f : str) (names : list str) : option nat :=
  match names with
  | [] => None
  | g :: names' =>
      match last_pos f names' with
      | Some j => Some (S j)
      | None => if decide (g = f) then Some 0 else None
      end
  end.

(** The bits of a draw that an identifier keeps: the 96 leading bits of
    the 128-bit UUID, the 32 trailing ones being cut off by [[:24]]. *)
Definition retained (r : N) : Z := Z.shiftr (uuid4 r) 32.

(** The six bits of a draw that [uuid4] overwrites: bits 62 and 63 with
    the variant, bits 76 to 79 with the version. *)
Definition stamped : Z := Z.lor (Z.shiftl 0xc000 48) (Z.shiftl 0xf000 64).

(** What an identifier takes from the draw itself: its bits 32 to 127
    other than the six overwritten ones, 90 bits in all. *)
Definition random_bits (r : N) : Z :=
  Z.shiftr (Z.land (Z.of_N r) (Z.lnot stamped)) 32.

(** The identifiers of a run are pairwise distinct: the two of a name
    differ, and so do the identifiers of different names. *)
Definition tokens_distinct (files : list str) (ids : gmap str str * gmap str str)
  : Prop :=
  forall f g u v, f ∈ files -> g ∈ files ->
    (ids.1 !! f = Some u -> ids.2 !! g = Some v -> u <> v) /\
    (f <> g -> ids.1 !! f = Some u -> ids.1 !! g = Some v -> u <> v) /\
    (f <> g -> ids.2 !! f = Some u -> ids.2 !! g = Some v -> u <> v).

(** ** File types *)

(** [s.endswith(suffix)]. *)
Definition endswith (suffix s : str) : bool :=
  (length suffix <=? length s)
  && startswith suffix (drop (length s - length suffix) s).

(** The table of the specification, in its words and not in the script:
    the Swift extension maps to the source-code type, anything else to the
    generic text type. *)
Definition spec_type_for_extension (filename : str) : str :=
  if endswith (lit ".swift") filename then lit "sourcecode.swift" else lit "text".

(** The value of the first [key = value;] field of a line. *)
Definition field (key line : str) : option str :=
  match find (key ++ lit " = ") line with
  | Some i =>
      let rest := drop (i + length key + 3) line in
      match find (lit ";") rest with
      | Some j => Some (take j rest)
      | None => None
      end
  | None => None
  end.

(** ** Blocks and the tokens they keep out *)

(** Every inserted block begins and ends with a tab or a line feed, and no
    anchor of the script contains either: an occurrence of an anchor can
    therefore not lie across the border of a block. *)
Definition is_ws (c : ascii) : bool := Ascii.eqb c NL || Ascii.eqb c TAB.

(** A token without tabs and line feeds. *)
Definition plain (t : str) : bool := forallb (fun c => negb (is_ws c)) t.

(** A block that begins and ends with a tab or a line feed. *)
Definition framed (B : str) : Prop :=
  exists a b, head B = Some a /\ last B = Some b /\
              is_ws a = true /\ is_ws b = true.

(** More generally: the first and the last character of the block are not
    in the token. *)
Definition fenced (t B : str) : Prop :=
  exists a b, head B = Some a /\ last B = Some b /\ (a ∉ t) /\ (b ∉ t).

(** What a list step needs of a section in order to leave it alone: the
    closing token [");"] neither occurs in the section nor can lie across
    its borders. *)
Definition guarded (ts te B : str) : Prop :=
  ts <> [] /\ te <> [] /\ plain ts = true /\ plain te = true /\
  fenced list_end (ts ++ B ++ te) /\ ~ occurs list_end (ts ++ B ++ te).

(** ** Templates: entries up to the value of their identifiers *)

(** A position of a template is a fixed character or some uppercase
    hexadecimal digit. *)
Inductive sym := Ch (c : ascii) | Hex.

Definition fits (p : sym) (c : ascii) : bool :=
  match p with
  | Ch d => Ascii.eqb d c
  | Hex => is_upper_hex c
  end.

(** The texts that a template stands for. *)
Definition instance_of (T : list sym) (s : str) : Prop :=
  Forall2 (fun p c => fits p c = true) T s.

(** Whether [m] is the beginning of some instance of [T]. *)
Fixpoint may_start (m : str) (T : list sym) : bool :=
  match m, T with
  | [], _ => true
  | _ :: _, [] => false
  | c :: m', p :: T' => fits p c && may_start m' T'
  end.

(** Whether [m] occurs in some instance of [T]. *)
Fixpoint may_occur (m : str) (T : list sym) : bool :=
  may_start m T ||
  match T with
  | [] => false
  | _ :: T' => may_occur m T'
  end.

(** The template of an identifier and of the four kinds of entries. *)
Definition id_t : list sym := replicate 24 Hex.

Definition file_ref_entry_t (filename : str) : list sym :=
  (Ch <$> [TAB; TAB]) ++ id_t
  ++ (Ch <$> (lit " /* " ++ filename
              ++ lit " */ = {isa = PBXFileReference; lastKnownFileType = sourcecode.swift; path = "
              ++ filename ++ lit "; sourceTree = " ++ [DQ] ++ lit "<group>"
              ++ [DQ] ++ lit "; };" ++ [NL])).

Definition build_file_entry_t (filename : str) : list sym :=
  (Ch <$> [TAB; TAB]) ++ id_t
  ++ (Ch <$> (lit " /* " ++ filename
              ++ lit " in Sources */ = {isa = PBXBuildFile; fileRef = "))
  ++ id_t
  ++ (Ch <$> (lit " /* " ++ filename ++ lit " */; };" ++ [NL])).

Definition child_entry_t (filename : str) : list sym :=
  (Ch <$> [TAB; TAB; TAB; TAB]) ++ id_t
  ++ (Ch <$> (lit " /* " ++ filename ++ lit " */," ++ [NL])).

Definition source_entry_t (filename : str) : list sym :=
  (Ch <$> [TAB; TAB; TAB; TAB]) ++ id_t
  ++ (Ch <$> (lit " /* " ++ filename ++ lit " in Sources */," ++ [NL])).

(** The templates of the four inserted blocks. *)
Definition refs_block_t (files : list str) : list sym :=
  Ch NL :: concat (file_ref_entry_t <$> files).

Definition builds_block_t (files : list str) : list sym :=
  Ch NL :: concat (build_file_entry_t <$> files).

Definition children_block_t (files : list str) : list sym :=
  concat (child_entry_t <$> files).

Definition sources_block_t (files : list str) : list sym :=
  concat (source_entry_t <$> files).

(** A section between its markers, as a template. *)
Definition region_t (ts te : str) (T : list sym) : list sym :=
  (Ch <$> ts) ++ T ++ (Ch <$> te).

Definition ws_sym (p : sym) : bool :=
  match p with
  | Ch c => is_ws c
  | Hex => false
  end.

Definition framed_t (T : list sym) : bool :=
  match T with
  | [] => true
  | p :: _ => ws_sym p && from_option ws_sym false (last T)
  end.

(** No instance of the template [T] lets the token [t] in or across. *)
Definition sealed (t : str) (T : list sym) : bool :=
  plain t && framed_t T && negb (may_occur t T).

Definition sealed_all (ts : list str) (T : list sym) : bool :=
  forallb (fun t => sealed t T) ts.

(** The anchors of the later steps cannot enter the blocks of the earlier
    ones, for any value of the identifiers. *)
Definition insertion_safe (files : list str) : bool :=
  sealed build_file_marker (refs_block_t files)
  && sealed list_end (refs_block_t files)
  && sealed list_end (builds_block_t files)
  && sealed list_end (children_block_t files).

(** No entry of any of the four kinds can hold a carriage return. *)
Definition entries_without_CR (files : list str) : bool :=
  negb (may_occur [CR] (refs_block_t files))
  && negb (may_occur [CR] (builds_block_t files))
  && negb (may_occur [CR] (children_block_t files))
  && negb (may_occur [CR] (sources_block_t files)).

(** The group marker cannot come into being through the two section
    steps. *)
Definition group_safe (files : list str) : bool :=
  sealed main_group_marker (refs_block_t files)
  && sealed main_group_marker (builds_block_t files).

(** Everything the scenario of two adjacent sections needs of the names. *)
Definition scenario_safe (files : list str) : bool :=
  sealed_all [file_ref_end_marker; build_file_marker; build_file_end_marker]
    (refs_block_t files)
  && sealed_all [file_ref_marker; file_ref_end_marker; build_file_end_marker]
       (builds_block_t files)
  && sealed_all [file_ref_marker; file_ref_end_marker;
                 build_file_marker; build_file_end_marker]
       (children_block_t files)
  && sealed_all [file_ref_marker; file_ref_end_marker;
                 build_file_marker; build_file_end_marker]
       (sources_block_t files)
  && negb (may_occur list_end
             (region_t file_ref_marker file_ref_end_marker (refs_block_t files)))
  && negb (may_occur list_end
             (region_t build_file_marker build_file_end_marker
                (builds_block_t files))).

(** ** Examples *)

(** Two sequences of draws: [0, 1, 2, ...], which differ only in the bits
    that an identifier drops, and their multiples of [2^32], which differ
    in the bits it retains. *)
Definition counting : nat -> N := fun k => N.of_nat k.

Definition spread : nat -> N := fun k => (N.of_nat k * 2 ^ 32)%N.

(** The list of the scenario in the specification. *)
Definition two_names : list str := [lit "A.swift"; lit "B.swift"].

(** The text of a result and the lines of a loop, for examples where they
    succeed. *)
Definition text_of (r : result str) : str :=
  match r with
  | Ok c => c
  | Raise _ => []
  end.

Definition lines_of (r : result (list str)) : list str :=
  match r with
  | Ok l => l
  | Raise _ => []
  end.

(** A small manifest with every anchor. *)
Definition sample_manifest : str :=
  lit "/* Begin PBXBuildFile section */" ++ [NL]
  ++ lit "/* End PBXBuildFile section */" ++ [NL]
  ++ lit "/* Begin PBXFileReference section */" ++ [NL]
  ++ lit "/* End PBXFileReference section */" ++ [NL]
  ++ lit "AA /* CoolClockPresence */ = {" ++ [NL]
  ++ lit "children = (" ++ [NL]
  ++ lit ");" ++ [NL]
  ++ lit "BB /* Sources */ = {" ++ [NL]
  ++ lit "files = (" ++ [NL]
  ++ lit ");" ++ [NL].

(** The four texts of the run on the sample manifest. *)
Definition sample_c1 : str :=
  text_of (insert_file_references new_files
             (generate_ids counting new_files 0 ∅ ∅).1 sample_manifest).

Definition sample_c2 : str :=
  text_of (insert_build_files new_files
             (generate_ids counting new_files 0 ∅ ∅).1
             (generate_ids counting new_files 0 ∅ ∅).2 sample_c1).

Definition sample_c3 : str :=
  text_of (add_to_children new_files
             (generate_ids counting new_files 0 ∅ ∅).1 sample_c2).

Definition sample_out : str :=
  text_of (add_to_sources new_files
             (generate_ids counting new_files 0 ∅ ∅).2 sample_c3).

(** A manifest whose build-file section is never closed. *)
Definition manifest_without_build_end : str :=
  lit "/* Begin PBXBuildFile section */" ++ [NL]
  ++ lit "/* Begin PBXFileReference section */" ++ [NL]
  ++ lit "/* End PBXFileReference section */" ++ [NL].

(** A manifest whose group has no list of children. *)
Definition manifest_without_children : str :=
  lit "/* Begin PBXBuildFile section */" ++ [NL]
  ++ lit "/* End PBXBuildFile section */" ++ [NL]
  ++ lit "/* Begin PBXFileReference section */" ++ [NL]
  ++ lit "/* End PBXFileReference section */" ++ [NL]
  ++ lit "AA /* CoolClockPresence */ = {" ++ [NL]
  ++ lit "};" ++ [NL].

(** Both section pairs, no group marker, and a Sources phase that has no
    list of files. *)
Definition manifest_sources_without_files : str :=
  lit "/* Begin PBXBuildFile section */" ++ [NL]
  ++ lit "/* End PBXBuildFile section */" ++ [NL]
  ++ lit "/* Begin PBXFileReference section */" ++ [NL]
  ++ lit "/* End PBXFileReference section */" ++ [NL]
  ++ lit "BB /* Sources */ = {" ++ [NL]
  ++ lit "};" ++ [NL].

(** A manifest whose group opens a list of children that is not closed. *)
Definition manifest_unclosed_children : str :=
  lit "/* Begin PBXBuildFile section */" ++ [NL]
  ++ lit "/* End PBXBuildFile section */" ++ [NL]
  ++ lit "/* Begin PBXFileReference section */" ++ [NL]
  ++ lit "/* End PBXFileReference section */" ++ [NL]
  ++ lit "AA /* CoolClockPresence */ = {" ++ [NL]
  ++ lit "children = (" ++ [NL]
  ++ lit "};" ++ [NL].

Definition unclosed_c1 : str :=
  text_of (insert_file_references new_files
             (generate_ids counting new_files 0 ∅ ∅).1
             manifest_unclosed_children).

Definition unclosed_c2 : str :=
  text_of (insert_build_files new_files
             (generate_ids counting new_files 0 ∅ ∅).1
             (generate_ids counting new_files 0 ∅ ∅).2 unclosed_c1).

Definition bare_sources_c1 : str :=
  text_of (insert_file_references new_files
             (generate_ids counting new_files 0 ∅ ∅).1
             manifest_sources_without_files).

Definition bare_sources_c2 : str :=
  text_of (insert_build_files new_files
             (generate_ids counting new_files 0 ∅ ∅).1
             (generate_ids counting new_files 0 ∅ ∅).2 bare_sources_c1).

(** The sample manifest with the line ends of Windows. *)
Definition crlf_manifest : str :=
  lit "/* Begin PBXBuildFile section */" ++ [CR; NL]
  ++ lit "/* End PBXBuildFile section */" ++ [CR; NL]
  ++ lit "/* Begin PBXFileReference section */" ++ [CR; NL]
  ++ lit "/* End PBXFileReference section */" ++ [CR; NL]
  ++ lit "AA /* CoolClockPresence */ = {" ++ [CR; NL]
  ++ lit "children = (" ++ [CR; NL]
  ++ lit ");" ++ [CR; NL]
  ++ lit "BB /* Sources */ = {" ++ [CR; NL]
  ++ lit "files = (" ++ [CR; NL]
  ++ lit ");" ++ [CR; NL].

(** A manifest with both sections and a Sources phase, without a group,
    and the texts of the run on it. *)
Definition manifest_without_group : str :=
  lit "/* Begin PBXBuildFile section */" ++ [NL]
  ++ lit "/* End PBXBuildFile section */" ++ [NL]
  ++ lit "/* Begin PBXFileReference section */" ++ [NL]
  ++ lit "/* End PBXFileReference section */" ++ [NL]
  ++ lit "BB /* Sources */ = {" ++ [NL]
  ++ lit "files = (" ++ [NL]
  ++ lit ");" ++ [NL].

Definition group_c1 : str :=
  text_of (insert_file_references new_files
             (generate_ids counting new_files 0 ∅ ∅).1 manifest_without_group).

Definition group_c2 : str :=
  text_of (insert_build_files new_files
             (generate_ids counting new_files 0 ∅ ∅).1
             (generate_ids counting new_files 0 ∅ ∅).2 group_c1).

Definition group_out : str :=
  text_of (add_to_sources new_files
             (generate_ids counting new_files 0 ∅ ∅).2 group_c2).

(** Two empty sections next to each other. *)
Definition adjacent_manifest : str :=
  lit "/* Begin PBXBuildFile section */" ++ lit "/* End PBXBuildFile section */"
  ++ [NL]
  ++ lit "/* Begin PBXFileReference section */"
  ++ lit "/* End PBXFileReference section */" ++ [NL].

(** * Properties *)

(** ** Properties of the identifier generator *)

Lemma length_hex_digits k n : length (hex_digits k n) = k.
Proof.
  revert n; induction k as [|k IH]; intros n; simpl; [done|].
  rewrite length_app, IH; simpl; lia.
Qed.

Lemma hexdigit_upper d : is_upper_hex (upper_char (hexdigit (d mod 16))) = true.
Proof.
  assert (H : (0 <= d mod 16 < 16)%Z) by (apply Z.mod_pos_bound; lia).
  assert (Hn : Z.to_nat (d mod 16) < 16) by lia.
  unfold hexdigit.
  revert Hn; generalize (Z.to_nat (d mod 16)); intros n Hn.
  do 16 (destruct n as [|n]; [vm_compute; reflexivity|]); lia.
Qed.

Lemma hex_digits_upper k n :
  Forall (fun c => is_upper_hex c = true) (upper (hex_digits k n)).
Proof.
  revert n; induction k as [|k IH]; intros n; simpl; [constructor|].
  unfold upper; rewrite map_app; apply Forall_app; split; [apply IH|].
  repeat constructor; apply hexdigit_upper.
Qed.

Lemma uuid4_nonneg r : (0 <= uuid4 r)%Z.
Proof.
  unfold uuid4.
  apply Z.lor_nonneg; split; [|vm_compute; discriminate].
  apply Z.land_nonneg; left.
  apply Z.lor_nonneg; split; [|vm_compute; discriminate].
  apply Z.land_nonneg; left; lia.
Qed.

Lemma hex_uuid4 r :
  exists k, 32 <= k /\ hex (uuid4 r) = hex_digits k (uuid4 r).
Proof.
  unfold hex, format_032x.
  pose proof (uuid4_nonneg r) as H.
  destruct (Z.ltb_spec (uuid4 r) 0) as [Hlt|_]; [lia|].
  eexists; split; [|reflexivity]; lia.
Qed.

Lemma take_hex_digits k j n :
  j <= k -> take j (hex_digits k n) = hex_digits j (n / 16 ^ Z.of_nat (k - j)).
Proof.
  revert n; induction k as [|k IH]; intros n Hj.
  - assert (j = 0) as -> by lia; done.
  - destruct (decide (j = S k)) as [->|Hne].
    + rewrite Nat.sub_diag, Z.pow_0_r, Z.div_1_r.
      rewrite firstn_all2; [done|]. rewrite length_hex_digits; lia.
    + simpl hex_digits. rewrite take_app_le by (rewrite length_hex_digits; lia).
      rewrite IH by lia. f_equal.
      replace (S k - j) with (S (k - j)) by lia.
      rewrite Nat2Z.inj_succ, Z.pow_succ_r by lia.
      rewrite Z.div_div by lia. done.
Qed.

(** [C8] Every identifier produced by [generate_uuid] is exactly 24
    characters long and consists only of the uppercase hexadecimal digits
    0-9 and A-F, whatever the random draw. *)
Theorem generate_uuid_format (r : N) :
  length (generate_uuid r) = 24 /\
  Forall (fun c => is_upper_hex c = true) (generate_uuid r).
Proof.
  unfold generate_uuid.
  destruct (hex_uuid4 r) as (k & Hk & ->).
  rewrite take_hex_digits by lia. split.
  - unfold upper; rewrite length_map; apply length_hex_digits.
  - apply hex_digits_upper.
Qed.

(** ** Occurrences of a token in a text *)

Lemma startswith_spec m s : startswith m s = true <-> take (length m) s = m.
Proof.
  revert s; induction m as [|a m IH]; intros [|b s]; simpl; try done.
  rewrite andb_true_iff, IH, Ascii.eqb_eq. split.
  - intros [-> ->]; done.
  - intros [= -> ->]; done.
Qed.

Lemma occurs_at_0 m s : occurs_at m s 0 <-> startswith m s = true.
Proof. unfold occurs_at; rewrite drop_0; symmetry; apply startswith_spec. Qed.

Lemma occurs_at_S m c s q : occurs_at m (c :: s) (S q) <-> occurs_at m s q.
Proof. done. Qed.

Lemma occurs_at_nil m j : occurs_at m [] j <-> startswith m [] = true.
Proof.
  unfold occurs_at. rewrite drop_nil, startswith_spec. done.
Qed.

Lemma find_None_1 m s : find m s = None -> forall j, ~ occurs_at m s j.
Proof.
  induction s as [|c s IH]; simpl.
  - destruct (startswith m []) eqn:E; [done|]. intros _ j.
    rewrite occurs_at_nil. congruence.
  - destruct (startswith m (c :: s)) eqn:E; [done|].
    destruct (find m s) as [k|] eqn:F; [done|]. intros _ [|j].
    + rewrite occurs_at_0. congruence.
    + rewrite occurs_at_S. by apply IH.
Qed.

Lemma find_Some_1 m s i :
  find m s = Some i ->
  occurs_at m s i /\ forall j, j < i -> ~ occurs_at m s j.
Proof.
  revert i; induction s as [|c s IH]; intros i; simpl.
  - destruct (startswith m []) eqn:E; [|done].
    intros [= <-]; split; [by apply occurs_at_0|lia].
  - destruct (startswith m (c :: s)) eqn:E.
    + intros [= <-]; split; [by apply occurs_at_0|lia].
    + destruct (find m s) as [k|] eqn:F; [|done]. simpl. intros [= <-].
      destruct (IH k eq_refl) as [Hk Hmin]. split; [done|].
      intros [|j] Hj.
      * rewrite occurs_at_0. congruence.
      * rewrite occurs_at_S. apply Hmin. lia.
Qed.

Lemma find_Some m s i :
  find m s = Some i <->
  occurs_at m s i /\ forall j, j < i -> ~ occurs_at m s j.
Proof.
  split; [apply find_Some_1|]. intros [Hi Hmin].
  destruct (find m s) as [k|] eqn:F.
  - apply find_Some_1 in F as [Hk Hmin']. f_equal.
    destruct (Nat.lt_trichotomy k i) as [Hki|[->|Hik]]; [|done|].
    + destruct (Hmin k); done.
    + destruct (Hmin' i); done.
  - destruct (find_None_1 _ _ F i); done.
Qed.

Lemma find_None m s : find m s = None <-> ~ occurs m s.
Proof.
  split.
  - intros F [j Hj]. by destruct (find_None_1 _ _ F j).
  - intros H. destruct (find m s) as [k|] eqn:F; [|done].
    apply find_Some_1 in F as [Hk _]. destruct H. by exists k.
Qed.

Lemma find_is_Some m s : is_Some (find m s) <-> occurs m s.
Proof.
  rewrite <- not_eq_None_Some, find_None.
  split; [|tauto]. intros H.
  destruct (find m s) as [k|] eqn:F.
  - apply find_Some_1 in F as [Hk _]. by exists k.
  - apply find_None in F. tauto.
Qed.

Lemma contains_true m s : contains m s = true <-> occurs m s.
Proof. unfold contains. rewrite bool_decide_eq_true. apply find_is_Some. Qed.

Lemma contains_false m s : contains m s = false <-> ~ occurs m s.
Proof. rewrite <- contains_true. symmetry. apply not_true_iff_false. Qed.

(** An occurrence of a non-empty token lies inside the text. *)
Lemma occurs_at_bound m s q : m <> [] -> occurs_at m s q -> q + length m <= length s.
Proof.
  unfold occurs_at. intros Hm H.
  assert (L : length (take (length m) (drop q s)) = length m) by congruence.
  rewrite length_take, length_drop in L.
  destruct m; [done|]. cbn [length] in *. lia.
Qed.

Lemma occurs_at_lookup m s q j :
  occurs_at m s q -> j < length m -> s !! (q + j) = m !! j.
Proof.
  unfold occurs_at. intros H Hj.
  transitivity (take (length m) (drop q s) !! j); [|by rewrite H].
  rewrite lookup_take_lt by done. by rewrite lookup_drop.
Qed.

Lemma occurs_at_app_l m X Y q :
  q + length m <= length X -> occurs_at m (X ++ Y) q <-> occurs_at m X q.
Proof.
  unfold occurs_at. intros H.
  rewrite drop_app_le by lia.
  rewrite take_app_le by (rewrite length_drop; lia). done.
Qed.

Lemma occurs_at_app_r m X Y q :
  length X <= q -> occurs_at m (X ++ Y) q <-> occurs_at m Y (q - length X).
Proof.
  unfold occurs_at. intros H. by rewrite drop_app_ge.
Qed.

Lemma occurs_app_l m X Y : occurs m X -> occurs m (X ++ Y).
Proof.
  intros [q H]. destruct (decide (m = [])) as [->|Hm]; [by exists 0|].
  exists q. apply occurs_at_app_l; [|done]. by apply occurs_at_bound.
Qed.

Lemma occurs_app_r m X Y : occurs m Y -> occurs m (X ++ Y).
Proof.
  intros [q H]. exists (length X + q).
  apply occurs_at_app_r; [lia|]. by replace (length X + q - length X) with q by lia.
Qed.

Lemma occurs_take m s p : occurs m (take p s) -> occurs m s.
Proof. intros H. rewrite <- (take_drop p s). by apply occurs_app_l. Qed.

Lemma occurs_drop m s p : occurs m (drop p s) -> occurs m s.
Proof. intros H. rewrite <- (take_drop p s). by apply occurs_app_r. Qed.

(** ** Blocks that a token cannot enter *)

Lemma plain_lookup t j c : plain t = true -> t !! j = Some c -> is_ws c = false.
Proof.
  unfold plain. rewrite forallb_forall. intros H Hj.
  apply negb_true_iff, H, list_elem_of_In. by eapply list_elem_of_lookup_2.
Qed.

Lemma no_straddle t X B Y q :
  t <> [] -> plain t = true -> framed B -> ~ occurs t B ->
  occurs_at t (X ++ B ++ Y) q ->
  q + length t <= length X \/ length X + length B <= q.
Proof.
  intros Ht Hp (a & b & Ha & Hb & Wa & Wb) HB Hq.
  destruct (decide (q + length t <= length X)) as [|H1]; [by left|].
  destruct (decide (length X + length B <= q)) as [|H2]; [by right|].
  exfalso.
  assert (LB : 0 < length B) by (destruct B; [done|simpl; lia]).
  destruct (decide (q <= length X)) as [H3|H3].
  - pose proof (occurs_at_lookup t _ q (length X - q) Hq ltac:(lia)) as L.
    replace (q + (length X - q)) with (length X + 0) in L by lia.
    rewrite lookup_app_r, Nat.add_comm, Nat.add_sub in L by lia.
    rewrite lookup_app_l, <- head_lookup, Ha in L by lia.
    symmetry in L. apply (plain_lookup _ _ _ Hp) in L. congruence.
  - destruct (decide (q + length t <= length X + length B)) as [H4|H4].
    + apply HB. exists (q - length X).
      rewrite occurs_at_app_r in Hq by lia.
      rewrite occurs_at_app_l in Hq by lia. done.
    + pose proof (occurs_at_lookup t _ q (length X + length B - 1 - q) Hq
                    ltac:(lia)) as L.
      replace (q + (length X + length B - 1 - q))
        with (length X + pred (length B)) in L by lia.
      rewrite lookup_app_r, Nat.add_comm, Nat.add_sub in L by lia.
      rewrite lookup_app_l, <- last_lookup, Hb in L by lia.
      symmetry in L. apply (plain_lookup _ _ _ Hp) in L. congruence.
Qed.

(** A token that is found after an insertion was there before it. *)
Lemma occurs_around t X B Y :
  t <> [] -> plain t = true -> framed B -> ~ occurs t B ->
  occurs t (X ++ B ++ Y) -> occurs t X \/ occurs t Y.
Proof.
  intros Ht Hp HF HB [q Hq].
  destruct (no_straddle t X B Y q Ht Hp HF HB Hq) as [H|H].
  - left. exists q. by rewrite occurs_at_app_l in Hq.
  - right. exists (q - length X - length B).
    rewrite occurs_at_app_r in Hq by lia.
    rewrite occurs_at_app_r in Hq by lia. done.
Qed.

(** ** Templates: entries up to the value of their identifiers *)

Lemma may_start_sound m T s :
  instance_of T s -> startswith m s = true -> may_start m T = true.
Proof.
  intros H; revert m; induction H as [|p c T s Hpc H IH]; intros [|a m]; simpl;
    try done.
  rewrite !andb_true_iff, Ascii.eqb_eq. intros [-> Hm]. auto.
Qed.

Lemma may_occur_sound m T s :
  instance_of T s -> occurs m s -> may_occur m T = true.
Proof.
  intros H [q Hq]; revert q Hq; induction H as [|p c T s Hpc H IH]; intros q Hq.
  - apply occurs_at_nil in Hq. simpl. destruct m; [done|discriminate].
  - cbn [may_occur]. apply orb_true_iff. destruct q as [|q].
    + left. apply occurs_at_0 in Hq.
      eapply (may_start_sound _ (p :: T)); [by constructor|done].
    + right. by apply (IH q).
Qed.

Lemma instance_lit s : instance_of (Ch <$> s) s.
Proof.
  induction s as [|c s IH]; [constructor|].
  constructor; [apply Ascii.eqb_refl|done].
Qed.

Lemma instance_id u : is_id u -> instance_of id_t u.
Proof.
  intros [L F]. unfold id_t. rewrite <- L. clear L.
  induction F; constructor; done.
Qed.

Lemma generate_uuid_is_id r : is_id (generate_uuid r).
Proof.
  unfold is_id, generate_uuid.
  destruct (hex_uuid4 r) as (k & Hk & ->).
  rewrite take_hex_digits by lia. split.
  - unfold upper; rewrite length_map; apply length_hex_digits.
  - apply hex_digits_upper.
Qed.

Ltac instance_of_entry :=
  rewrite ?fmap_app, <- ?app_assoc;
  repeat (apply Forall2_app;
          [first [apply instance_lit | by apply instance_id]|]);
  apply instance_lit.

Lemma file_ref_entry_instance u f :
  is_id u -> instance_of (file_ref_entry_t f) (file_ref_entry u f).
Proof.
  intros Hu. unfold file_ref_entry_t, file_ref_entry, instance_of.
  instance_of_entry.
Qed.

Lemma build_file_entry_instance b u f :
  is_id b -> is_id u -> instance_of (build_file_entry_t f) (build_file_entry b u f).
Proof.
  intros Hb Hu. unfold build_file_entry_t, build_file_entry, instance_of.
  instance_of_entry.
Qed.

Lemma child_entry_instance u f :
  is_id u -> instance_of (child_entry_t f) (child_entry u f).
Proof.
  intros Hu. unfold child_entry_t, child_entry, instance_of.
  instance_of_entry.
Qed.

Lemma source_entry_instance b f :
  is_id b -> instance_of (source_entry_t f) (source_entry b f).
Proof.
  intros Hb. unfold source_entry_t, source_entry, instance_of.
  instance_of_entry.
Qed.

(** ** The loops *)

Lemma for_each_Ok {A B} (f : A -> result B) l ys :
  for_each f l = Ok ys <-> Forall2 (fun x y => f x = Ok y) l ys.
Proof.
  revert ys; induction l as [|x l IH]; intros ys; simpl.
  - split; [intros [= <-]; constructor|by inversion 1].
  - destruct (f x) as [y|e] eqn:E; simpl.
    + destruct (for_each f l) as [ys'|e] eqn:F; simpl.
      * split.
        -- intros [= <-]. constructor; [done|by apply IH].
        -- inversion 1 as [|? y' ? ys'' Hy Hys]; subst.
           apply IH in Hys. congruence.
      * split; [done|]. inversion 1 as [|? y' ? ys'' Hy Hys]; subst.
        apply IH in Hys. done.
    + split; [done|]. inversion 1; congruence.
Qed.

Lemma last_pos_lookup f names j : last_pos f names = Some j -> names !! j = Some f.
Proof.
  revert j; induction names as [|g names IH]; intros j; simpl; [done|].
  destruct (last_pos f names) as [i|].
  - intros [= <-]. by apply IH.
  - case_decide; [|done]. intros [= <-]. by subst.
Qed.

Lemma last_pos_elem f names : f ∈ names -> is_Some (last_pos f names).
Proof.
  induction names as [|g names IH]; [by inversion 1|]. simpl.
  intros H. destruct (last_pos f names) as [i|] eqn:E; [by eexists|].
  case_decide; [by eexists|].
  apply elem_of_cons in H as [->|H]; [done|]. by destruct (IH H).
Qed.

Lemma generate_ids_lookup draws names k fr0 bf0 f :
  let '(fr, bf) := generate_ids draws names k fr0 bf0 in
  fr !! f = match last_pos f names with
            | Some j => Some (generate_uuid (draws (k + 2 * j)))
            | None => fr0 !! f
            end /\
  bf !! f = match last_pos f names with
            | Some j => Some (generate_uuid (draws (k + 2 * j + 1)))
            | None => bf0 !! f
            end.
Proof.
  revert k fr0 bf0; induction names as [|g names IH]; intros k fr0 bf0.
  - done.
  - cbn [generate_ids last_pos].
    specialize (IH (S (S k)) (<[g:=generate_uuid (draws k)]> fr0)
                   (<[g:=generate_uuid (draws (S k))]> bf0)).
    destruct (generate_ids _ _ _ _ _) as [fr bf]. destruct IH as [-> ->].
    destruct (last_pos f names) as [j|].
    + split; do 2 f_equal; f_equal; lia.
    + case_decide as Hg.
      * subst g. rewrite !lookup_insert_eq.
        split; do 2 f_equal; f_equal; lia.
      * by rewrite !lookup_insert_ne.
Qed.

Lemma generate_ids_ok draws names k fr0 bf0 :
  ids_ok names (generate_ids draws names k fr0 bf0).1 /\
  ids_ok names (generate_ids draws names k fr0 bf0).2.
Proof.
  split; intros f Hf;
    pose proof (generate_ids_lookup draws names k fr0 bf0 f) as H;
    destruct (generate_ids _ _ _ _ _) as [fr bf]; destruct H as [H1 H2];
    destruct (last_pos_elem _ _ Hf) as [j Hj]; rewrite Hj in H1, H2; simpl;
    eexists; (split; [done|apply generate_uuid_is_id]).
Qed.

(** A loop over the listed names never raises and produces an instance
    of the concatenated templates. *)
Lemma loop_instance (entry : str -> result str) (t : str -> list sym) files :
  (forall f, f ∈ files -> exists e, entry f = Ok e /\ instance_of (t f) e) ->
  exists es, for_each entry files = Ok es /\
             length es = length files /\
             instance_of (concat (t <$> files)) (join es).
Proof.
  induction files as [|f l IH]; intros H.
  - exists []. repeat split. constructor.
  - destruct (H f) as (e & He & Ie); [by left|].
    destruct IH as (es & Hes & Les & Ies);
      [intros g Hg; apply H; by right|].
    exists (e :: es). simpl. rewrite He, Hes. simpl. repeat split.
    + by rewrite Les.
    + by apply Forall2_app.
Qed.

Section Loops.

Variable files : list str.
Variable file_refs build_files : gmap str str.
Hypothesis refs_ok : ids_ok files file_refs.
Hypothesis builds_ok : ids_ok files build_files.

Lemma getitem_ok d f :
  ids_ok files d -> f ∈ files -> exists u, getitem d f = Ok u /\ is_id u.
Proof.
  intros Hd Hf. destruct (Hd f Hf) as (u & Hu & Hid).
  exists u. unfold getitem. by rewrite Hu.
Qed.

Lemma file_ref_entries_ok :
  exists es, file_ref_entries files file_refs = Ok es /\
             length es = length files /\
             instance_of (concat (file_ref_entry_t <$> files)) (join es).
Proof.
  apply loop_instance. intros f Hf.
  destruct (getitem_ok _ _ refs_ok Hf) as (u & -> & Hu).
  eexists; split; [done|]. by apply file_ref_entry_instance.
Qed.

Lemma build_file_entries_ok :
  exists es, build_file_entries files file_refs build_files = Ok es /\
             length es = length files /\
             instance_of (concat (build_file_entry_t <$> files)) (join es).
Proof.
  apply loop_instance. intros f Hf.
  destruct (getitem_ok _ _ builds_ok Hf) as (b & -> & Hb).
  destruct (getitem_ok _ _ refs_ok Hf) as (u & -> & Hu).
  eexists; split; [done|]. by apply build_file_entry_instance.
Qed.

Lemma file_ref_in_children_ok :
  exists es, file_ref_in_children files file_refs = Ok es /\
             length es = length files /\
             instance_of (concat (child_entry_t <$> files)) (join es).
Proof.
  apply loop_instance. intros f Hf.
  destruct (getitem_ok _ _ refs_ok Hf) as (u & -> & Hu).
  eexists; split; [done|]. by apply child_entry_instance.
Qed.

Lemma build_file_in_sources_ok :
  exists es, build_file_in_sources files build_files = Ok es /\
             length es = length files /\
             instance_of (concat (source_entry_t <$> files)) (join es).
Proof.
  apply loop_instance. intros f Hf.
  destruct (getitem_ok _ _ builds_ok Hf) as (b & -> & Hb).
  eexists; split; [done|]. by apply source_entry_instance.
Qed.

End Loops.

(** ** Splicing a block into a text *)

Lemma slice_drop (c : str) p e : slice c p e ++ drop e c = drop (p `min` e) c.
Proof.
  unfold slice. destruct (decide (p <= e)) as [H|H].
  - rewrite Nat.min_l by done.
    replace (drop e c) with (drop (e - p) (drop p c)).
    + apply take_drop.
    + rewrite drop_drop. f_equal. lia.
  - rewrite Nat.min_r by lia. replace (e - p) with 0 by lia. done.
Qed.

Lemma additive_refl c : additive c c.
Proof. exists 0, []. split; [lia|]. by rewrite take_0, drop_0. Qed.

Lemma additive_splice (c : str) p m B :
  m <= p <= length c -> additive c (take p c ++ B ++ drop m c).
Proof.
  intros H. exists p, (B ++ slice c m p). split; [lia|].
  rewrite <- app_assoc. do 2 f_equal.
  rewrite slice_drop. f_equal. lia.
Qed.

Lemma occurs_at_drop t (c : str) k j : occurs_at t (drop k c) j <-> occurs_at t c (k + j).
Proof. unfold occurs_at. by rewrite drop_drop. Qed.

Lemma occurs_split B (c : str) : occurs B c <-> exists X Y, c = X ++ B ++ Y.
Proof.
  split.
  - intros [q H]. exists (take q c), (drop (length B) (drop q c)).
    rewrite <- H at 1. by rewrite !take_drop.
  - intros (X & Y & ->). exists (length X). unfold occurs_at.
    rewrite drop_app_length. by rewrite take_app_length.
Qed.

(** A block that was in the text is still there after a splice at the
    border of an occurrence of a token the block is sealed against. *)
Lemma splice_keeps t (c : str) B0 p m B :
  t <> [] -> plain t = true -> B0 = [] \/ framed B0 -> ~ occurs t B0 ->
  occurs B0 c ->
  (exists q, occurs_at t c q /\ (p = q \/ p = q + length t)) ->
  m <= p ->
  occurs B0 (take p c ++ B ++ drop m c).
Proof.
  intros Ht Hp [->|HF] Hno Hc (q & Hq & Hpq) Hm; [by exists 0|].
  assert (HB0 : B0 <> []).
  { destruct HF as (a & _ & Ha & _). by destruct B0. }
  destruct Hc as [x Hx].
  pose proof (occurs_at_bound _ _ _ HB0 Hx) as Lx.
  pose proof (occurs_at_bound _ _ _ Ht Hq) as Lq.
  assert (E : c = take x c ++ B0 ++ drop (length B0) (drop x c)).
  { rewrite <- Hx at 1. by rewrite !take_drop. }
  rewrite E in Hq.
  apply no_straddle in Hq; [|done..].
  rewrite length_take in Hq.
  destruct (decide (p <= x)) as [Hpx|Hpx].
  - apply occurs_app_r, occurs_app_r. exists (x - m).
    apply occurs_at_drop. by replace (m + (x - m)) with x by lia.
  - apply occurs_app_l. exists x.
    rewrite <- (take_drop p c) in Hx.
    rewrite occurs_at_app_l in Hx; [done|]. rewrite length_take. lia.
Qed.

(** ** What a block may contain *)

Lemma ws_sym_fits p c : ws_sym p = true -> fits p c = true -> is_ws c = true.
Proof.
  destruct p as [d|]; simpl; [|done]. intros H E.
  apply Ascii.eqb_eq in E. by subst.
Qed.

Lemma sealed_sound t T B :
  sealed t T = true -> instance_of T B ->
  plain t = true /\ (B = [] \/ framed B) /\ ~ occurs t B.
Proof.
  unfold sealed. rewrite !andb_true_iff, negb_true_iff.
  intros [[Hp HF] Hno] HI. split; [done|]. split.
  - pose proof (Forall2_last _ _ _ HI) as HL.
    destruct HI as [|p c T B Hpc HI]; [by left|]. right.
    cbn [framed_t] in HF. apply andb_true_iff in HF as [Wp Wl].
    destruct (last (p :: T)) as [pl|] eqn:EL; [|done].
    inversion HL as [pl' b Hb E1 E2|]; subst.
    exists c, b. repeat split; [done|..].
    + by apply (ws_sym_fits p).
    + by apply (ws_sym_fits pl).
  - intros Ho. eapply may_occur_sound in Ho; [|done]. congruence.
Qed.

(** ** The shape of each edit *)

Lemma index_Ok m s i : index m s = Ok i <-> find m s = Some i.
Proof. unfold index. destruct (find m s); split; congruence. Qed.

Lemma index_Raise m s e : index m s = Raise e <-> find m s = None /\ e = ValueError.
Proof.
  unfold index. destruct (find m s); split.
  - done.
  - by intros [? _].
  - by intros [= <-].
  - by intros [_ ->].
Qed.

Lemma index_from_Ok m s k q :
  index_from m s k = Ok q <-> exists j, find m (drop k s) = Some j /\ q = k + j.
Proof.
  unfold index_from. destruct (find m (drop k s)) as [j|]; split.
  - intros [= <-]. by exists j.
  - intros (j' & [= <-] & ->). done.
  - done.
  - by intros (j' & ? & _).
Qed.

Lemma index_from_occurs m s k q :
  index_from m s k = Ok q -> occurs_at m s q /\ k <= q.
Proof.
  rewrite index_from_Ok. intros (j & Hj & ->).
  apply find_Some in Hj as [Hj _]. split; [by apply occurs_at_drop|lia].
Qed.

Section Shapes.

Variable files : list str.
Variable file_refs build_files : gmap str str.

Lemma insert_file_references_Ok c out :
  insert_file_references files file_refs c = Ok out <->
  exists es i e,
    file_ref_entries files file_refs = Ok es /\
    find file_ref_marker c = Some i /\
    find file_ref_end_marker c = Some e /\
    out = take (i + length file_ref_marker) c ++ (NL :: join es)
          ++ drop ((i + length file_ref_marker) `min` e) c.
Proof.
  unfold insert_file_references, index.
  destruct (file_ref_entries files file_refs) as [es|x]; simpl;
    [|split; [done|by intros (? & ? & ? & ? & _)]].
  destruct (find file_ref_marker c) as [i|]; simpl;
    [|split; [done|by intros (? & ? & ? & _ & ? & _)]].
  destruct (find file_ref_end_marker c) as [e|]; simpl;
    [|split; [done|by intros (? & ? & ? & _ & _ & ? & _)]].
  rewrite slice_drop. split.
  - intros [= <-]. by exists es, i, e.
  - intros (? & ? & ? & [= <-] & [= <-] & [= <-] & ->). done.
Qed.

Lemma insert_build_files_Ok c out :
  insert_build_files files file_refs build_files c = Ok out <->
  exists es i e,
    build_file_entries files file_refs build_files = Ok es /\
    find build_file_marker c = Some i /\
    find build_file_end_marker c = Some e /\
    out = take (i + length build_file_marker) c ++ (NL :: join es)
          ++ drop ((i + length build_file_marker) `min` e) c.
Proof.
  unfold insert_build_files, index.
  destruct (build_file_entries files file_refs build_files) as [es|x]; simpl;
    [|split; [done|by intros (? & ? & ? & ? & _)]].
  destruct (find build_file_marker c) as [i|]; simpl;
    [|split; [done|by intros (? & ? & ? & _ & ? & _)]].
  destruct (find build_file_end_marker c) as [e|]; simpl;
    [|split; [done|by intros (? & ? & ? & _ & _ & ? & _)]].
  rewrite slice_drop. split.
  - intros [= <-]. by exists es, i, e.
  - intros (? & ? & ? & [= <-] & [= <-] & [= <-] & ->). done.
Qed.

Lemma add_to_children_skip c :
  contains main_group_marker c = false ->
  add_to_children files file_refs c = Ok c.
Proof. unfold add_to_children. by intros ->. Qed.

Lemma add_to_children_Ok c out :
  contains main_group_marker c = true ->
  add_to_children files file_refs c = Ok out <->
  exists g cp q es,
    find main_group_marker c = Some g /\
    index_from children_marker c g = Ok cp /\
    index_from list_end c cp = Ok q /\
    file_ref_in_children files file_refs = Ok es /\
    out = take q c ++ join es ++ drop q c.
Proof.
  unfold add_to_children, index. intros ->.
  destruct (find main_group_marker c) as [g|]; simpl;
    [|split; [done|by intros (? & ? & ? & ? & ? & _)]].
  destruct (index_from children_marker c g) as [cp|x] eqn:E1; simpl;
    [|split; [done|intros (? & ? & ? & ? & [= <-] & ? & _); congruence]].
  destruct (index_from list_end c cp) as [q|x] eqn:E2; simpl;
    [|split; [done|intros (? & ? & ? & ? & [= <-] & ? & ? & _); congruence]].
  destruct (file_ref_in_children files file_refs) as [es|x]; simpl;
    [|split; [done|by intros (? & ? & ? & ? & _ & _ & _ & ? & _)]].
  split.
  - intros [= <-]. by exists g, cp, q, es.
  - intros (? & ? & ? & ? & [= <-] & ? & ? & [= <-] & ->).
    repeat f_equal; congruence.
Qed.

Lemma add_to_sources_skip c :
  contains sources_phase_marker c = false ->
  add_to_sources files build_files c = Ok c.
Proof. unfold add_to_sources. by intros ->. Qed.

Lemma add_to_sources_Ok c out :
  contains sources_phase_marker c = true ->
  add_to_sources files build_files c = Ok out <->
  exists g fp q es,
    find sources_phase_marker c = Some g /\
    index_from files_marker c g = Ok fp /\
    index_from list_end c fp = Ok q /\
    build_file_in_sources files build_files = Ok es /\
    out = take q c ++ join es ++ drop q c.
Proof.
  unfold add_to_sources, index. intros ->.
  destruct (find sources_phase_marker c) as [g|]; simpl;
    [|split; [done|by intros (? & ? & ? & ? & ? & _)]].
  destruct (index_from files_marker c g) as [fp|x] eqn:E1; simpl;
    [|split; [done|intros (? & ? & ? & ? & [= <-] & ? & _); congruence]].
  destruct (index_from list_end c fp) as [q|x] eqn:E2; simpl;
    [|split; [done|intros (? & ? & ? & ? & [= <-] & ? & ? & _); congruence]].
  destruct (build_file_in_sources files build_files) as [es|x]; simpl;
    [|split; [done|by intros (? & ? & ? & ? & _ & _ & _ & ? & _)]].
  split.
  - intros [= <-]. by exists g, fp, q, es.
  - intros (? & ? & ? & ? & [= <-] & ? & ? & [= <-] & ->).
    repeat f_equal; congruence.
Qed.

End Shapes.

(** ** The run as a whole *)

Lemma run_missing_file files draws w :
  disk w = None ->
  add_files_to_project files draws w =
  (Returned false,
   print (lit "Error: Project file not found at " ++ project_path) w).
Proof. unfold add_files_to_project. by intros ->. Qed.

Lemma read_Some w content :
  read w = Some content <->
  exists stored, disk w = Some stored /\ content = universal_newlines stored.
Proof.
  unfold read. destruct (disk w) as [stored|]; simpl; split.
  - intros [= <-]. by exists stored.
  - by intros (? & [= <-] & ->).
  - done.
  - by intros (? & ? & _).
Qed.

Lemma read_disk w stored :
  disk w = Some stored -> read w = Some (universal_newlines stored).
Proof. unfold read. by intros ->. Qed.

Lemma read_None w : read w = None <-> disk w = None.
Proof. unfold read. by destruct (disk w). Qed.

(** A text without carriage return is read as it is stored. *)
Lemma universal_newlines_plain s : CR ∉ s -> universal_newlines s = s.
Proof.
  induction s as [|c s IH]; [done|]. intros H.
  apply not_elem_of_cons in H as [Hc Hs]. simpl.
  destruct (Ascii.eqb c CR) eqn:E; [by apply Ascii.eqb_eq in E|].
  by rewrite IH.
Qed.

(** No carriage return is ever read. *)
Lemma universal_newlines_no_CR s : CR ∉ universal_newlines s.
Proof.
  remember (length s) as n eqn:L. revert s L.
  induction n as [n IH] using lt_wf_ind. intros s ->.
  destruct s as [|c s]; simpl; [by apply not_elem_of_nil|].
  destruct (Ascii.eqb c CR) eqn:E.
  - apply not_elem_of_cons. split; [done|].
    destruct s as [|c' s]; [by apply not_elem_of_nil|].
    destruct (Ascii.eqb c' NL); (eapply IH; [|done]); simpl; lia.
  - apply not_elem_of_cons. split.
    + intros <-. by rewrite Ascii.eqb_refl in E.
    + eapply IH; [|done]. simpl. lia.
Qed.

(** With [os.linesep] a line feed, the text is stored as it is written. *)
Lemma write_newlines_id s : write_newlines s = s.
Proof.
  induction s as [|c s IH]; [done|]. unfold write_newlines in *. simpl.
  rewrite IH. destruct (Ascii.eqb c NL) eqn:E; [|done].
  by apply Ascii.eqb_eq in E as ->.
Qed.

Lemma disk_write out w : disk (write out w) = Some out.
Proof. unfold write. simpl. by rewrite write_newlines_id. Qed.

(** A token without newline characters begins the text read where it
    begins the text stored. *)
Lemma startswith_universal_newlines m s :
  no_newline m = true ->
  startswith m (universal_newlines s) = startswith m s.
Proof.
  revert m. induction s as [|c s IH]; intros m Hm; [done|].
  destruct m as [|a m]; [by destruct (Ascii.eqb c CR)|].
  unfold no_newline in Hm. simpl in Hm.
  apply andb_true_iff in Hm as [Ha Hm].
  apply andb_true_iff in Ha as [Ha1 Ha2].
  apply negb_true_iff in Ha1, Ha2. simpl.
  destruct (Ascii.eqb c CR) eqn:E.
  - apply Ascii.eqb_eq in E as ->. simpl. by rewrite Ha1, Ha2.
  - simpl. by rewrite (IH m Hm).
Qed.

(** So such a token is in the text read exactly when it is in the file. *)
Lemma contains_universal_newlines m s :
  no_newline m = true ->
  contains m (universal_newlines s) = contains m s.
Proof.
  intros Hm. unfold contains. apply bool_decide_ext.
  remember (length s) as n eqn:L. revert s L.
  induction n as [n IH] using lt_wf_ind. intros s ->.
  destruct m as [|a m];
    [split; intros _; [by destruct s|by destruct (universal_newlines s)]|].
  assert (F : forall c t, (c = CR \/ c = NL) -> startswith (a :: m) (c :: t) = false).
  { intros c t Hc. unfold no_newline in Hm. simpl in Hm.
    apply andb_true_iff in Hm as [Ha _].
    apply andb_true_iff in Ha as [Ha1 Ha2].
    apply negb_true_iff in Ha1, Ha2. simpl.
    by destruct Hc as [-> | ->]; rewrite ?Ha1, ?Ha2. }
  destruct s as [|c s]; [done|].
  cbn [universal_newlines].
  destruct (Ascii.eqb c CR) eqn:E.
  - apply Ascii.eqb_eq in E as ->.
    cbn [find]. rewrite !F by auto. rewrite !fmap_is_Some.
    destruct s as [|c' s]; [done|].
    destruct (Ascii.eqb c' NL) eqn:E'.
    + apply Ascii.eqb_eq in E' as ->. cbn [find]. rewrite F by auto.
      rewrite fmap_is_Some. eapply IH; [|done]. simpl. lia.
    + eapply IH; [|done]. simpl. lia.
  - pose proof (startswith_universal_newlines (a :: m) (c :: s) Hm) as S.
    cbn [universal_newlines] in S. rewrite E in S.
    cbn [find]. rewrite S. destruct (startswith (a :: m) (c :: s)); [done|].
    rewrite !fmap_is_Some. eapply IH; [|done]. simpl. lia.
Qed.

Lemma run_no_reference_section files draws w content :
  read w = Some content ->
  contains file_ref_marker content = false ->
  add_files_to_project files draws w =
  (Returned false,
   print (lit "Error: Could not find PBXFileReference section") w).
Proof.
  unfold add_files_to_project. intros Hr.
  apply read_Some in Hr as (stored & -> & ->). intros ->.
  by destruct (generate_ids _ _ _ _ _).
Qed.

Lemma run_edit files draws w content :
  read w = Some content ->
  contains file_ref_marker content = true ->
  add_files_to_project files draws w =
  match edit files (generate_ids draws files 0 ∅ ∅).1
             (generate_ids draws files 0 ∅ ∅).2 content with
  | Raise e => (Raised e, w)
  | Ok out => (Returned true, report files (write out w))
  end.
Proof.
  unfold add_files_to_project. intros Hr.
  apply read_Some in Hr as (stored & -> & ->). intros ->.
  by destruct (generate_ids _ _ _ _ _).
Qed.

Lemma disk_print line w : disk (print line w) = disk w.
Proof. done. Qed.

Lemma disk_report files w : disk (report files w) = disk w.
Proof.
  unfold report.
  generalize (lit "Successfully added " ++ str_of_nat (length files)
              ++ lit " files to the Xcode project:").
  intros l. rewrite <- (disk_print l w). generalize (print l w). clear.
  induction files as [|f files IH]; intros w; simpl; [done|]. by rewrite IH.
Qed.

Lemma run_raises_unchanged files draws w e :
  (add_files_to_project files draws w).1 = Raised e ->
  (add_files_to_project files draws w).2 = w.
Proof.
  unfold add_files_to_project.
  destruct (disk w) as [content|]; [|done].
  destruct (generate_ids _ _ _ _ _) as [fr bf].
  destruct (negb _); [done|]. by destruct (edit _ _ _ _).
Qed.

Lemma run_failed_disk files draws w :
  failed (add_files_to_project files draws w).1 ->
  disk (add_files_to_project files draws w).2 = disk w.
Proof.
  unfold add_files_to_project, failed.
  destruct (disk w) as [content|] eqn:E; [|done].
  destruct (generate_ids _ _ _ _ _) as [fr bf].
  destruct (negb _); [done|]. by destruct (edit _ _ _ _).
Qed.

Lemma main_status draws w :
  (main draws w).1 = 0%Z <-> (add_files_to_project new_files draws w).1 = Returned true.
Proof.
  unfold main. destruct (add_files_to_project new_files draws w) as [o w'].
  destruct o as [[|]|e]; simpl; split; congruence.
Qed.

(** ** Every edit is a splice *)

Lemma spliced_additive t B c out : spliced t B c out -> additive c out.
Proof. intros (p & m & H & _ & _ & ->). by apply additive_splice. Qed.

Lemma spliced_block t B c out : spliced t B c out -> occurs B out.
Proof.
  intros (p & m & _ & _ & _ & ->). apply occurs_split. by eexists _, _.
Qed.

Lemma spliced_keeps t B c out B0 :
  spliced t B c out ->
  t <> [] -> plain t = true -> B0 = [] \/ framed B0 -> ~ occurs t B0 ->
  occurs B0 c -> occurs B0 out.
Proof.
  intros (p & m & H & _ & Hq & ->) Ht Hp HF Hno Hc.
  eapply splice_keeps; try done. lia.
Qed.

Lemma spliced_absent t B c out t' :
  spliced t B c out ->
  t' <> [] -> plain t' = true -> B = [] \/ framed B -> ~ occurs t' B ->
  ~ occurs t' c -> ~ occurs t' out.
Proof.
  intros (p & m & H & HB & _ & ->) Ht Hp [->|HF] Hno Hc Ho.
  - rewrite (HB eq_refl) in Ho. simpl in Ho. by rewrite take_drop in Ho.
  - apply occurs_around in Ho as [Ho|Ho]; try done.
    + by apply occurs_take in Ho.
    + by apply occurs_drop in Ho.
Qed.

Lemma find_anchor t c i :
  find t c = Some i -> exists q, occurs_at t c q /\ (i + length t = q \/ i + length t = q + length t).
Proof. intros H. apply find_Some in H as [H _]. exists i. auto. Qed.

Section Splices.

Variable files : list str.
Variable file_refs build_files : gmap str str.
Hypothesis refs_ok : ids_ok files file_refs.
Hypothesis builds_ok : ids_ok files build_files.

Lemma insert_file_references_spliced c out :
  insert_file_references files file_refs c = Ok out ->
  exists es, file_ref_entries files file_refs = Ok es /\
             instance_of (refs_block_t files) (NL :: join es) /\
             spliced file_ref_marker (NL :: join es) c out.
Proof.
  rewrite insert_file_references_Ok. intros (es & i & e & Hes & Hi & He & ->).
  exists es. split; [done|]. split.
  - destruct (file_ref_entries_ok files file_refs refs_ok) as (es' & E & _ & I).
    assert (es' = es) as -> by congruence.
    constructor; [apply Ascii.eqb_refl|done].
  - pose proof (find_anchor _ _ _ Hi) as A.
    apply find_Some in Hi as [Hi _]. apply occurs_at_bound in Hi; [|done].
    exists (i + length file_ref_marker), ((i + length file_ref_marker) `min` e).
    split; [lia|]. split; [done|]. split; [done|]. done.
Qed.

Lemma insert_build_files_spliced c out :
  insert_build_files files file_refs build_files c = Ok out ->
  exists es, build_file_entries files file_refs build_files = Ok es /\
             instance_of (builds_block_t files) (NL :: join es) /\
             spliced build_file_marker (NL :: join es) c out.
Proof.
  rewrite insert_build_files_Ok. intros (es & i & e & Hes & Hi & He & ->).
  exists es. split; [done|]. split.
  - destruct (build_file_entries_ok files file_refs build_files refs_ok builds_ok)
      as (es' & E & _ & I).
    assert (es' = es) as -> by congruence.
    constructor; [apply Ascii.eqb_refl|done].
  - pose proof (find_anchor _ _ _ Hi) as A.
    apply find_Some in Hi as [Hi _]. apply occurs_at_bound in Hi; [|done].
    exists (i + length build_file_marker), ((i + length build_file_marker) `min` e).
    split; [lia|]. split; [done|]. split; [done|]. done.
Qed.

Lemma add_to_children_spliced c out :
  contains main_group_marker c = true ->
  add_to_children files file_refs c = Ok out ->
  exists es, file_ref_in_children files file_refs = Ok es /\
             instance_of (children_block_t files) (join es) /\
             spliced list_end (join es) c out.
Proof.
  intros Hc. rewrite add_to_children_Ok by done.
  intros (g & cp & q & es & Hg & Hcp & Hq & Hes & ->).
  exists es. split; [done|]. split.
  - destruct (file_ref_in_children_ok files file_refs refs_ok) as (es' & E & _ & I).
    by assert (es' = es) as -> by congruence.
  - apply index_from_occurs in Hq as [Hq _].
    assert (L : q + length list_end <= length c) by (by apply occurs_at_bound).
    exists q, q. split; [lia|]. split; [done|]. split; [|done].
    exists q. auto.
Qed.

Lemma add_to_sources_spliced c out :
  contains sources_phase_marker c = true ->
  add_to_sources files build_files c = Ok out ->
  exists es, build_file_in_sources files build_files = Ok es /\
             instance_of (sources_block_t files) (join es) /\
             spliced list_end (join es) c out.
Proof.
  intros Hc. rewrite add_to_sources_Ok by done.
  intros (g & cp & q & es & Hg & Hcp & Hq & Hes & ->).
  exists es. split; [done|]. split.
  - destruct (build_file_in_sources_ok files build_files builds_ok) as (es' & E & _ & I).
    by assert (es' = es) as -> by congruence.
  - apply index_from_occurs in Hq as [Hq _].
    assert (L : q + length list_end <= length c) by (by apply occurs_at_bound).
    exists q, q. split; [lia|]. split; [done|]. split; [|done].
    exists q. auto.
Qed.

End Splices.

(** ** A missing mandatory marker *)

Lemma insert_build_files_no_end files fr bf c :
  contains build_file_end_marker c = false ->
  exists e, insert_build_files files fr bf c = Raise e.
Proof.
  intros H. destruct (insert_build_files files fr bf c) as [out|e] eqn:E;
    [|by exists e].
  apply insert_build_files_Ok in E as (es & i & e & _ & _ & He & _).
  apply contains_false in H. destruct H. apply find_is_Some. by eexists.
Qed.

Lemma edit_raises_unchanged files draws w content e :
  read w = Some content ->
  contains file_ref_marker content = true ->
  edit files (generate_ids draws files 0 ∅ ∅).1
       (generate_ids draws files 0 ∅ ∅).2 content = Raise e ->
  add_files_to_project files draws w = (Raised e, w).
Proof. intros Hw Hc He. by rewrite (run_edit _ _ _ _ Hw Hc), He. Qed.

(** For any list of names whose reference entries cannot contain the end
    marker of the build-file section. *)
Lemma missing_marker_aborts_for files draws w content :
  sealed build_file_end_marker (refs_block_t files) = true ->
  disk w = Some content ->
  contains file_ref_marker content = false \/
  contains file_ref_end_marker content = false \/
  contains build_file_end_marker content = false ->
  failed (add_files_to_project files draws w).1 /\
  (exists e, (add_files_to_project files draws w).1 = Returned false \/
             (add_files_to_project files draws w).1 = Raised e) /\
  disk (add_files_to_project files draws w).2 = Some content.
Proof.
  intros Hs Hw H.
  pose proof (read_disk _ _ Hw) as Hr.
  rewrite <- !(contains_universal_newlines _ content) in H by done.
  set (text := universal_newlines content) in *.
  assert (G : exists e, (add_files_to_project files draws w).1 = Returned false \/
                        (add_files_to_project files draws w).1 = Raised e).
  { destruct (contains file_ref_marker text) eqn:RS.
    - destruct (generate_ids_ok draws files 0 ∅ ∅) as [Hfr Hbf].
      rewrite (run_edit _ _ _ _ Hr RS). unfold edit.
      destruct (insert_file_references _ _ text) as [c1|e] eqn:E1;
        [|by exists e; right].
      destruct H as [H|[H|H]]; [done|..].
      + apply insert_file_references_Ok in E1 as (es & i & e & _ & _ & He & _).
        apply contains_false in H. destruct H. apply find_is_Some. by eexists.
      + apply insert_file_references_spliced in E1 as (es & _ & HI & HS); [|done].
        destruct (sealed_sound _ _ _ Hs HI) as (Hp & HF & Hno).
        apply contains_false in H.
        assert (Hne : build_file_end_marker <> []) by done.
        pose proof (spliced_absent _ _ _ _ _ HS Hne Hp HF Hno H) as H1.
        apply contains_false in H1.
        destruct (insert_build_files_no_end files
                    (generate_ids draws files 0 ∅ ∅).1
                    (generate_ids draws files 0 ∅ ∅).2 c1 H1) as [e He].
        exists e. right. cbn. by rewrite He.
    - exists ValueError. left. by rewrite (run_no_reference_section _ _ _ _ Hr RS). }
  assert (F : failed (add_files_to_project files draws w).1).
  { unfold failed. destruct G as [e [-> | ->]]; done. }
  split; [done|]. split; [done|].
  by rewrite run_failed_disk.
Qed.

(** [C1] Whenever the start marker of the reference section, its end
    marker or the end marker of the build-file section is absent from the
    manifest, the run of the script reports failure (it returns [False] or
    raises, and the process ends with status 1) and the file on disk keeps
    its content. *)
Theorem missing_marker_aborts draws w content :
  disk w = Some content ->
  contains file_ref_marker content = false \/
  contains file_ref_end_marker content = false \/
  contains build_file_end_marker content = false ->
  failed (add_files_to_project new_files draws w).1 /\
  (main draws w).1 = 1%Z /\
  disk (add_files_to_project new_files draws w).2 = Some content /\
  disk (main draws w).2 = Some content.
Proof.
  intros Hw H.
  destruct (missing_marker_aborts_for new_files draws w content) as (F & [e G] & D);
    [by vm_compute|done|done|].
  unfold main.
  destruct (add_files_to_project new_files draws w) as [o w'].
  simpl in *. repeat split; try done.
  by destruct G as [-> | ->].
Qed.

Lemma missing_marker_aborts_witness :
  failed (add_files_to_project new_files counting
            (World (Some manifest_without_build_end) [])).1 /\
  (main counting (World (Some manifest_without_build_end) [])).1 = 1%Z /\
  disk (add_files_to_project new_files counting
          (World (Some manifest_without_build_end) [])).2
  = Some manifest_without_build_end /\
  disk (main counting (World (Some manifest_without_build_end) [])).2
  = Some manifest_without_build_end.
Proof.
  apply (missing_marker_aborts counting
           (World (Some manifest_without_build_end) [])
           manifest_without_build_end).
  - reflexivity.
  - right; right. vm_compute. reflexivity.
Defined.

(** ** The build-file step without an end marker *)

Lemma build_file_entries_Ok files fr bf :
  ids_ok files fr -> ids_ok files bf ->
  exists es, build_file_entries files fr bf = Ok es.
Proof.
  intros Hfr Hbf.
  destruct (build_file_entries_ok files fr bf Hfr Hbf) as (es & E & _).
  by exists es.
Qed.

(** The tolerance that the specification asks for is not there: on a text
    with the start marker and no end marker the step does not hand the
    text on unchanged, and the run does not complete. *)
Lemma build_end_not_tolerated :
  contains build_file_marker manifest_without_build_end = true /\
  contains build_file_end_marker manifest_without_build_end = false /\
  insert_build_files new_files
    (generate_ids counting new_files 0 ∅ ∅).1
    (generate_ids counting new_files 0 ∅ ∅).2
    manifest_without_build_end <> Ok manifest_without_build_end /\
  (add_files_to_project new_files counting
     (World (Some manifest_without_build_end) [])).1 = Raised ValueError.
Proof. vm_compute. repeat split; congruence. Qed.

(** [C5, amended] In the build-file step, on every text that contains the
    start marker of the build-file section but not its end marker, the
    lookup of the end marker raises [ValueError]; nothing catches it, so
    the run ends there and the file is not written. *)
Theorem build_end_missing_raises files draws w content c1 :
  read w = Some content ->
  contains file_ref_marker content = true ->
  insert_file_references files (generate_ids draws files 0 ∅ ∅).1 content = Ok c1 ->
  contains build_file_marker c1 = true ->
  contains build_file_end_marker c1 = false ->
  insert_build_files files (generate_ids draws files 0 ∅ ∅).1
    (generate_ids draws files 0 ∅ ∅).2 c1 = Raise ValueError /\
  add_files_to_project files draws w = (Raised ValueError, w).
Proof.
  intros Hw RS E1 BS BE.
  destruct (generate_ids_ok draws files 0 ∅ ∅) as [Hfr Hbf].
  assert (E2 : insert_build_files files (generate_ids draws files 0 ∅ ∅).1
                 (generate_ids draws files 0 ∅ ∅).2 c1 = Raise ValueError).
  { unfold insert_build_files, index.
    destruct (build_file_entries_Ok files _ _ Hfr Hbf) as [es ->]. simpl.
    apply contains_true, find_is_Some in BS as [i ->]. simpl.
    apply contains_false, find_None in BE as ->. done. }
  split; [done|].
  apply (edit_raises_unchanged _ _ _ content); [done..|].
  unfold edit. rewrite E1. simpl. by rewrite E2.
Qed.

Lemma build_end_missing_raises_witness :
  insert_build_files new_files (generate_ids counting new_files 0 ∅ ∅).1
    (generate_ids counting new_files 0 ∅ ∅).2
    (default [] (match insert_file_references new_files
                         (generate_ids counting new_files 0 ∅ ∅).1
                         manifest_without_build_end with
                  | Ok c1 => Some c1
                  | Raise _ => None
                  end)) = Raise ValueError /\
  add_files_to_project new_files counting
    (World (Some manifest_without_build_end) [])
  = (Raised ValueError, World (Some manifest_without_build_end) []).
Proof.
  apply (build_end_missing_raises new_files counting
           (World (Some manifest_without_build_end) [])
           manifest_without_build_end).
  - reflexivity.
  - vm_compute. reflexivity.
  - vm_compute. reflexivity.
  - vm_compute. reflexivity.
  - vm_compute. reflexivity.
Defined.

(** ** The write comes last *)

(** [C10] The file is written only after the four edits: a run that raises
    leaves the world as it found it.  In particular, when the text that
    reaches the group step contains the group marker and no
    ["children = ("] from its first occurrence on, the step does not skip:
    the lookup raises [ValueError], the run ends with it and the file is
    untouched. *)
Theorem write_is_last files draws w :
  (forall e, (add_files_to_project files draws w).1 = Raised e ->
             (add_files_to_project files draws w).2 = w) /\
  (forall content c1 c2 g,
      read w = Some content ->
      contains file_ref_marker content = true ->
      insert_file_references files (generate_ids draws files 0 ∅ ∅).1 content
      = Ok c1 ->
      insert_build_files files (generate_ids draws files 0 ∅ ∅).1
        (generate_ids draws files 0 ∅ ∅).2 c1 = Ok c2 ->
      find main_group_marker c2 = Some g ->
      contains children_marker (drop g c2) = false ->
      add_to_children files (generate_ids draws files 0 ∅ ∅).1 c2
      = Raise ValueError /\
      add_files_to_project files draws w = (Raised ValueError, w)).
Proof.
  split; [apply run_raises_unchanged|].
  intros content c1 c2 g Hw RS E1 E2 Hg Hch.
  assert (E3 : add_to_children files (generate_ids draws files 0 ∅ ∅).1 c2
               = Raise ValueError).
  { unfold add_to_children, index, index_from, contains.
    rewrite Hg. rewrite bool_decide_eq_true_2 by by eexists. simpl.
    apply contains_false, find_None in Hch as ->. done. }
  split; [done|].
  apply (edit_raises_unchanged _ _ _ content); [done..|].
  unfold edit. rewrite E1. simpl. rewrite E2. simpl. by rewrite E3.
Qed.

Lemma write_is_last_witness :
  (add_files_to_project new_files counting
     (World (Some manifest_without_children) [])).2
  = World (Some manifest_without_children) [] /\
  add_files_to_project new_files counting
    (World (Some manifest_without_children) [])
  = (Raised ValueError, World (Some manifest_without_children) []).
Proof.
  pose proof (write_is_last new_files counting
                (World (Some manifest_without_children) [])) as [H1 H2].
  split.
  - apply (H1 ValueError). vm_compute. reflexivity.
  - pose (c1 := text_of (insert_file_references new_files
                 (generate_ids counting new_files 0 ∅ ∅).1
                 manifest_without_children)).
    pose (c2 := text_of (insert_build_files new_files
                 (generate_ids counting new_files 0 ∅ ∅).1
                 (generate_ids counting new_files 0 ∅ ∅).2 c1)).
    apply (H2 manifest_without_children c1 c2
              (default 0 (find main_group_marker c2))).
    + reflexivity.
    + vm_compute. reflexivity.
    + vm_compute. reflexivity.
    + vm_compute. reflexivity.
    + vm_compute. reflexivity.
    + vm_compute. reflexivity.
Defined.

(** ** The file type of a reference entry *)

(** A name without an extension gets the Swift type all the same. *)
Lemma file_type_ignores_extension :
  file_ref_entries [lit "Makefile"]
    (generate_ids counting [lit "Makefile"] 0 ∅ ∅).1
  = Ok [file_ref_entry (generate_uuid 0%N) (lit "Makefile")] /\
  field (lit "lastKnownFileType")
    (file_ref_entry (generate_uuid 0%N) (lit "Makefile"))
  = Some (lit "sourcecode.swift") /\
  field (lit "lastKnownFileType")
    (file_ref_entry (generate_uuid 0%N) (lit "Makefile"))
  <> Some (spec_type_for_extension (lit "Makefile")).
Proof. vm_compute. repeat split; congruence. Qed.

Lemma occurs_concat (e : str) (es : list str) : e ∈ es -> occurs e (concat es).
Proof.
  intros H. apply list_elem_of_split in H as (l1 & l2 & ->).
  rewrite concat_app. simpl. apply occurs_split. by eexists _, _.
Qed.

Lemma occurs_refl (a : str) : occurs a a.
Proof. exists 0. unfold occurs_at. by rewrite drop_0, firstn_all. Qed.

Lemma occurs_trans (a b c : str) : occurs a b -> occurs b c -> occurs a c.
Proof.
  rewrite !occurs_split. intros (X & Y & ->) (X' & Y' & ->).
  exists (X' ++ X), (Y ++ Y'). by rewrite <- !app_assoc.
Qed.

(** [C4, amended] For every name of the list, whatever its extension, the
    line written for it into the reference section carries the fixed
    token [sourcecode.swift] as its [lastKnownFileType]; the script has no
    table of extensions and no default type. *)
Theorem file_type_is_fixed files draws content c1 f :
  insert_file_references files (generate_ids draws files 0 ∅ ∅).1 content = Ok c1 ->
  f ∈ files ->
  exists ref,
    (generate_ids draws files 0 ∅ ∅).1 !! f = Some ref /\
    occurs ([TAB; TAB] ++ ref ++ lit " /* " ++ f
            ++ lit " */ = {isa = PBXFileReference; lastKnownFileType = "
            ++ lit "sourcecode.swift"
            ++ lit "; path = " ++ f ++ lit "; sourceTree = " ++ [DQ]
            ++ lit "<group>" ++ [DQ] ++ lit "; };" ++ [NL]) c1.
Proof.
  intros E Hf.
  apply insert_file_references_Ok in E as (es & i & e & Hes & _ & _ & ->).
  apply for_each_Ok in Hes.
  apply list_elem_of_lookup in Hf as [j Hj].
  destruct (Forall2_lookup_l _ _ _ _ _ Hes Hj) as (line & Hline & Hget).
  unfold getitem in Hget.
  destruct (_ !! f) as [ref|] eqn:Hr; [|done]. simpl in Hget.
  injection Hget as <-. exists ref. split; [done|].
  apply occurs_app_r, occurs_app_l.
  apply (occurs_trans _ (join es)).
  - replace (_ ++ _) with (file_ref_entry ref f).
    + apply occurs_concat. by eapply list_elem_of_lookup_2.
    + reflexivity.
  - apply (occurs_app_r _ [NL]), occurs_refl.
Qed.

Lemma file_type_is_fixed_witness :
  exists ref,
    (generate_ids counting [lit "Makefile"] 0 ∅ ∅).1 !! lit "Makefile" = Some ref /\
    occurs ([TAB; TAB] ++ ref ++ lit " /* " ++ lit "Makefile"
            ++ lit " */ = {isa = PBXFileReference; lastKnownFileType = "
            ++ lit "sourcecode.swift"
            ++ lit "; path = " ++ lit "Makefile" ++ lit "; sourceTree = " ++ [DQ]
            ++ lit "<group>" ++ [DQ] ++ lit "; };" ++ [NL])
      (text_of (insert_file_references [lit "Makefile"]
                  (generate_ids counting [lit "Makefile"] 0 ∅ ∅).1
                  manifest_without_children)).
Proof.
  apply (file_type_is_fixed [lit "Makefile"] counting manifest_without_children).
  - vm_compute. reflexivity.
  - apply list_elem_of_In. left. reflexivity.
Defined.

(** ** When two identifiers are equal *)

Lemma uuid4_high_bits r n :
  (r < 2 ^ 128)%N -> (128 <= n)%Z -> Z.testbit (uuid4 r) n = false.
Proof.
  intros Hr Hn. unfold uuid4.
  assert (R : Z.testbit (Z.of_N r) n = false).
  { destruct (decide (r = 0%N)) as [->|Hz]; [apply Z.bits_0|].
    apply Z.bits_above_log2; [lia|].
    assert (Z.log2 (Z.of_N r) < 128)%Z; [|lia].
    apply Z.log2_lt_pow2; lia. }
  assert (C1 : Z.testbit (Z.shiftl 0x8000 48) n = false).
  { apply Z.bits_above_log2; [by vm_compute|].
    change (Z.log2 (Z.shiftl 0x8000 48)) with 63%Z. lia. }
  assert (C2 : Z.testbit (Z.shiftl 4 76) n = false).
  { apply Z.bits_above_log2; [by vm_compute|].
    change (Z.log2 (Z.shiftl 4 76)) with 78%Z. lia. }
  rewrite Z.lor_spec, Z.land_spec, Z.lor_spec, Z.land_spec, R, C1, C2.
  reflexivity.
Qed.

Lemma uuid4_bound r : (r < 2 ^ 128)%N -> (0 <= uuid4 r < 2 ^ 128)%Z.
Proof.
  intros Hr. pose proof (uuid4_nonneg r) as H0. split; [done|].
  destruct (decide (uuid4 r = 0%Z)) as [->|Hz]; [done|].
  apply Z.log2_lt_pow2; [lia|].
  destruct (Z.lt_ge_cases (Z.log2 (uuid4 r)) 128) as [|H]; [done|].
  pose proof (Z.bit_log2 (uuid4 r) ltac:(lia)) as B.
  rewrite uuid4_high_bits in B by done. done.
Qed.

Lemma hexdigit_inj (a b : nat) :
  a < 16 -> b < 16 ->
  upper_char (nth a (lit "0123456789abcdef") "0"%char)
  = upper_char (nth b (lit "0123456789abcdef") "0"%char) ->
  a = b.
Proof.
  intros Ha Hb H.
  do 16 (destruct a as [|a];
         [do 16 (destruct b as [|b];
                 [first [reflexivity | by vm_compute in H]|]); lia|]).
  lia.
Qed.

Lemma hex_digits_inj k x y :
  upper (hex_digits k x) = upper (hex_digits k y) ->
  (x mod 16 ^ Z.of_nat k = y mod 16 ^ Z.of_nat k)%Z.
Proof.
  revert x y; induction k as [|k IH]; intros x y H.
  - by rewrite !Z.mod_1_r.
  - cbn [hex_digits] in H. unfold upper in H. rewrite !map_app in H.
    apply app_inj_tail in H as [H1 H2].
    apply IH in H1.
    assert (Hx : (0 <= x mod 16 < 16)%Z) by (apply Z.mod_pos_bound; lia).
    assert (Hy : (0 <= y mod 16 < 16)%Z) by (apply Z.mod_pos_bound; lia).
    apply hexdigit_inj in H2; [|lia..].
    rewrite Nat2Z.inj_succ, Z.pow_succ_r by lia.
    rewrite !Z.rem_mul_r by lia. lia.
Qed.

Lemma hex_width_bound u : (0 <= u < 2 ^ 128)%Z -> hex_width u <= 32.
Proof.
  intros H. unfold hex_width. destruct (Z.eqb_spec u 0) as [|Hz]; [lia|].
  assert (Z.log2 u < 128)%Z by (apply Z.log2_lt_pow2; lia).
  pose proof (Z.log2_nonneg u).
  assert (Z.log2 u / 4 < 32)%Z by (apply Z.div_lt_upper_bound; lia).
  assert (0 <= Z.log2 u / 4)%Z by (apply Z.div_pos; lia). lia.
Qed.

(** Two draws give the same identifier exactly when they agree on the
    retained bits. *)
Lemma generate_uuid_inj r1 r2 :
  (r1 < 2 ^ 128)%N -> (r2 < 2 ^ 128)%N ->
  generate_uuid r1 = generate_uuid r2 -> retained r1 = retained r2.
Proof.
  intros H1 H2. unfold generate_uuid, retained, hex, format_032x.
  pose proof (uuid4_bound r1 H1) as B1. pose proof (uuid4_bound r2 H2) as B2.
  destruct (Z.ltb_spec (uuid4 r1) 0); [lia|].
  destruct (Z.ltb_spec (uuid4 r2) 0); [lia|].
  rewrite !Nat.max_l by (by apply hex_width_bound).
  rewrite !take_hex_digits by lia. intros E.
  apply hex_digits_inj in E.
  change (Z.of_nat (32 - 24)) with 8%Z in E.
  change (16 ^ 8)%Z with (2 ^ 32)%Z in E.
  rewrite !Z.shiftr_div_pow2 by lia.
  rewrite !Z.mod_small in E; [done|..].
  - split; [apply Z.div_pos; lia|].
    apply Z.div_lt_upper_bound; [lia|]. change (2 ^ 32 * 16 ^ Z.of_nat 24)%Z with (2 ^ 128)%Z. lia.
  - split; [apply Z.div_pos; lia|].
    apply Z.div_lt_upper_bound; [lia|]. change (2 ^ 32 * 16 ^ Z.of_nat 24)%Z with (2 ^ 128)%Z. lia.
Qed.

Lemma generate_uuid_retained r :
  (r < 2 ^ 128)%N -> generate_uuid r = upper (hex_digits 24 (retained r)).
Proof.
  intros Hr. unfold generate_uuid, retained, hex, format_032x.
  pose proof (uuid4_bound r Hr) as B.
  destruct (Z.ltb_spec (uuid4 r) 0); [lia|].
  rewrite Nat.max_l by (by apply hex_width_bound).
  rewrite take_hex_digits by lia.
  by rewrite Z.shiftr_div_pow2 by lia.
Qed.

(** Nothing in the script compares identifiers: draws that differ only in
    their 32 trailing bits, such as 0, 1, 2, ..., give one and the same
    identifier to every name. *)
Lemma tokens_can_collide :
  ~ tokens_distinct new_files (generate_ids counting new_files 0 ∅ ∅).
Proof.
  intros H.
  destruct (H (lit "WorldClockLocation.swift") (lit "WorldClockLocation.swift")
              (lit "000000000000400080000000") (lit "000000000000400080000000"))
    as [H1 _].
  - apply list_elem_of_In. left. reflexivity.
  - apply list_elem_of_In. left. reflexivity.
  - apply H1; [vm_compute; reflexivity..|reflexivity].
Qed.

Lemma retained_lookup (draws : nat -> N) n i :
  i < n ->
  ((fun k => retained (draws k)) <$> seq 0 n) !! i = Some (retained (draws i)).
Proof.
  intros H. rewrite list_lookup_fmap, lookup_seq_lt by done. done.
Qed.

(** The UUID of a draw is the draw with its six stamped bits cleared, and
    the variant and version put in their place. *)
Lemma uuid4_split r :
  uuid4 r = Z.lor (Z.land (Z.of_N r) (Z.lnot stamped))
                  (Z.lor (Z.shiftl 0x8000 48) (Z.shiftl 4 76)).
Proof.
  unfold uuid4. cbv zeta.
  rewrite Z.land_lor_distr_l, <- Z.land_assoc, <- Z.lor_assoc.
  f_equal.
Qed.

Lemma retained_split r :
  retained r
  = (random_bits r + Z.shiftr (Z.lor (Z.shiftl 0x8000 48) (Z.shiftl 4 76)) 32)%Z.
Proof.
  unfold retained, random_bits. rewrite uuid4_split, Z.shiftr_lor.
  rewrite <- Z.lxor_lor, <- Z.add_nocarry_lxor; try done.
  all: rewrite <- Z.shiftr_land, <- Z.land_assoc.
  all: change (Z.land (Z.lnot stamped)
                 (Z.lor (Z.shiftl 0x8000 48) (Z.shiftl 4 76))) with 0%Z.
  all: by rewrite Z.land_0_r.
Qed.

(** Two draws give UUIDs with the same 96 leading bits exactly when they
    agree on their 90 random bits above bit 31. *)
Lemma retained_random_bits r1 r2 :
  retained r1 = retained r2 <-> random_bits r1 = random_bits r2.
Proof. rewrite !retained_split. lia. Qed.

Lemma NoDup_fmap_equiv {A B C} (f : A -> B) (g : A -> C) (l : list A) :
  (forall x y, x ∈ l -> y ∈ l -> (f x = f y <-> g x = g y)) ->
  NoDup (f <$> l) <-> NoDup (g <$> l).
Proof.
  intros E. induction l as [|a l IH]; simpl; [by split; constructor|].
  rewrite !NoDup_cons, !list_elem_of_fmap.
  rewrite IH by (intros x y Hx Hy; apply E; by right).
  split; intros [N D]; (split; [|done]); intros (y & Hy & Hin); apply N;
    exists y; (split; [|done]); (apply E; [by left|by right|done]).
Qed.

Lemma NoDup_retained (draws : nat -> N) n :
  NoDup ((fun k => retained (draws k)) <$> seq 0 n) <->
  NoDup ((fun k => random_bits (draws k)) <$> seq 0 n).
Proof. apply NoDup_fmap_equiv. intros x y _ _. apply retained_random_bits. Qed.

(** Among draws of 128 bits, the identifiers are pairwise distinct
    exactly when the random bits they take from the draws are. *)
Lemma generated_ids_distinct_iff (draws : nat -> N) n :
  (forall k, k < n -> (draws k < 2 ^ 128)%N) ->
  NoDup ((fun k => generate_uuid (draws k)) <$> seq 0 n) <->
  NoDup ((fun k => random_bits (draws k)) <$> seq 0 n).
Proof.
  intros Hr. apply NoDup_fmap_equiv. intros x y Hx Hy.
  apply elem_of_seq in Hx, Hy. rewrite <- retained_random_bits. split.
  - apply generate_uuid_inj; apply Hr; lia.
  - intros E. rewrite !generate_uuid_retained by (apply Hr; lia). by rewrite E.
Qed.

(** [C9, amended] In a run whose 128-bit draws differ pairwise in the
    random bits that an identifier takes from a draw (bits 32 to 127
    of the draw other than bits 62, 63 and 76 to 79, which [uuid4]
    overwrites), the two identifiers of each name are distinct from each
    other and the identifiers of all names are pairwise distinct.  The
    script itself never checks for a collision. *)
Theorem tokens_distinct_when_draws_differ files draws :
  (forall k, k < 2 * length files -> (draws k < 2 ^ 128)%N) ->
  NoDup ((fun k => random_bits (draws k)) <$> seq 0 (2 * length files)) ->
  tokens_distinct files (generate_ids draws files 0 ∅ ∅).
Proof.
  intros Hr Hnd f g u v Hf Hg. apply NoDup_retained in Hnd.
  pose proof (generate_ids_lookup draws files 0 ∅ ∅ f) as Lf.
  pose proof (generate_ids_lookup draws files 0 ∅ ∅ g) as Lg.
  destruct (generate_ids draws files 0 ∅ ∅) as [fr bf]. simpl.
  destruct Lf as [Lf1 Lf2], Lg as [Lg1 Lg2].
  destruct (last_pos_elem _ _ Hf) as [j Hj].
  destruct (last_pos_elem _ _ Hg) as [j' Hj'].
  rewrite Hj in Lf1, Lf2. rewrite Hj' in Lg1, Lg2.
  pose proof (last_pos_lookup _ _ _ Hj) as Pj.
  pose proof (last_pos_lookup _ _ _ Hj') as Pj'.
  pose proof (lookup_lt_Some _ _ _ Pj) as Bj.
  pose proof (lookup_lt_Some _ _ _ Pj') as Bj'.
  assert (D : forall a b, a < 2 * length files -> b < 2 * length files ->
                a <> b -> generate_uuid (draws a) <> generate_uuid (draws b)).
  { intros a b Ha Hb Hab E.
    apply generate_uuid_inj in E; [|by apply Hr..].
    apply Hab. eapply (proj1 (NoDup_alt _) Hnd).
    - by apply retained_lookup.
    - rewrite E. by apply retained_lookup. }
  assert (J : f <> g -> j <> j') by (intros N ->; congruence).
  repeat split.
  - rewrite Lf1, Lg2. intros [= <-] [= <-]. apply D; lia.
  - intros N. rewrite Lf1, Lg1. intros [= <-] [= <-].
    apply D; [lia..|]. specialize (J N). lia.
  - intros N. rewrite Lf2, Lg2. intros [= <-] [= <-].
    apply D; [lia..|]. specialize (J N). lia.
Qed.

Lemma tokens_distinct_when_draws_differ_witness :
  tokens_distinct new_files (generate_ids spread new_files 0 ∅ ∅).
Proof.
  apply (tokens_distinct_when_draws_differ new_files spread).
  - intros k Hk. unfold spread.
    change (2 * length new_files) with 8 in Hk.
    assert (N.of_nat k < 8)%N by lia.
    change (2 ^ 128)%N with (2 ^ 96 * 2 ^ 32)%N.
    apply N.mul_lt_mono_pos_r; [done|].
    eapply N.lt_trans; [done|done].
  - apply (bool_decide_unpack _). vm_compute. reflexivity.
Defined.

(** ** By how much the text grows *)

(** On the sample manifest, which has every marker, the text grows by two
    characters more than the inserted lines. *)
Lemma growth_exceeds_lines :
  let ids := generate_ids counting new_files 0 ∅ ∅ in
  let run := add_files_to_project new_files counting
               (World (Some sample_manifest) []) in
  let lines :=
    length (join (lines_of (file_ref_entries new_files ids.1)))
    + length (join (lines_of (build_file_entries new_files ids.1 ids.2)))
    + length (join (lines_of (file_ref_in_children new_files ids.1)))
    + length (join (lines_of (build_file_in_sources new_files ids.2))) in
  run.1 = Returned true /\
  length (default [] (disk run.2)) = length sample_manifest + lines + 2 /\
  length (default [] (disk run.2)) <> length sample_manifest + lines.
Proof. vm_compute. repeat split; lia. Qed.

Lemma length_splice (c : str) p B :
  p <= length c -> length (take p c ++ B ++ drop p c) = length c + length B.
Proof. intros H. rewrite !length_app, length_take, length_drop. lia. Qed.

(** [C7, amended] When the four edits all take place (each marker is found
    by its step) and, in both sections, the end marker is first found at
    or after the end of the start marker, the text written to the file is
    longer than the text read from it (its content with [\r\n] and [\r]
    turned into [\n]) by the total length of the inserted entry lines
    plus two: each of the two section steps puts one line feed before its
    lines. *)
Theorem length_grows_by_lines_plus_two
    files draws w content c1 c2 c3 out i1 e1 i2 e2 :
  read w = Some content ->
  insert_file_references files (generate_ids draws files 0 ∅ ∅).1 content = Ok c1 ->
  insert_build_files files (generate_ids draws files 0 ∅ ∅).1
    (generate_ids draws files 0 ∅ ∅).2 c1 = Ok c2 ->
  add_to_children files (generate_ids draws files 0 ∅ ∅).1 c2 = Ok c3 ->
  add_to_sources files (generate_ids draws files 0 ∅ ∅).2 c3 = Ok out ->
  find file_ref_marker content = Some i1 ->
  find file_ref_end_marker content = Some e1 ->
  i1 + length file_ref_marker <= e1 ->
  find build_file_marker c1 = Some i2 ->
  find build_file_end_marker c1 = Some e2 ->
  i2 + length build_file_marker <= e2 ->
  contains main_group_marker c2 = true ->
  contains sources_phase_marker c3 = true ->
  exists es1 es2 es3 es4,
    file_ref_entries files (generate_ids draws files 0 ∅ ∅).1 = Ok es1 /\
    build_file_entries files (generate_ids draws files 0 ∅ ∅).1
      (generate_ids draws files 0 ∅ ∅).2 = Ok es2 /\
    file_ref_in_children files (generate_ids draws files 0 ∅ ∅).1 = Ok es3 /\
    build_file_in_sources files (generate_ids draws files 0 ∅ ∅).2 = Ok es4 /\
    add_files_to_project files draws w
    = (Returned true, report files (write out w)) /\
    disk (add_files_to_project files draws w).2 = Some out /\
    length out
    = length content
      + (length (join es1) + length (join es2)
         + length (join es3) + length (join es4))
      + 2.
Proof.
  intros Hw E1 E2 E3 E4 Hi1 He1 O1 Hi2 He2 O2 G S.
  assert (R : add_files_to_project files draws w
              = (Returned true, report files (write out w))).
  { rewrite (run_edit _ _ _ content); [|done|].
    - unfold edit. rewrite E1. simpl. rewrite E2. simpl. rewrite E3. simpl.
      by rewrite E4.
    - apply contains_true, find_is_Some. by eexists. }
  apply insert_file_references_Ok in E1 as (es1 & i1' & e1' & L1 & Hi1' & He1' & ->).
  assert (i1' = i1) as -> by congruence. assert (e1' = e1) as -> by congruence.
  apply insert_build_files_Ok in E2 as (es2 & i2' & e2' & L2 & Hi2' & He2' & ->).
  assert (i2' = i2) as -> by congruence. assert (e2' = e2) as -> by congruence.
  apply add_to_children_Ok in E3 as (g3 & p3 & q3 & es3 & _ & _ & Hq3 & L3 & ->);
    [|done].
  apply add_to_sources_Ok in E4 as (g4 & p4 & q4 & es4 & _ & _ & Hq4 & L4 & ->);
    [|done].
  exists es1, es2, es3, es4. do 5 (split; [done|]).
  split; [rewrite R; cbn [snd]; rewrite disk_report; apply disk_write|].
  apply index_from_occurs in Hq3 as [Hq3 _].
  apply index_from_occurs in Hq4 as [Hq4 _].
  apply occurs_at_bound in Hq3; [|done]. apply occurs_at_bound in Hq4; [|done].
  apply find_Some in Hi1 as [Hi1 _]. apply occurs_at_bound in Hi1; [|done].
  apply find_Some in Hi2 as [Hi2 _]. apply occurs_at_bound in Hi2; [|done].
  rewrite length_splice by lia. rewrite length_splice by lia.
  rewrite (Nat.min_l _ e2) by done. rewrite length_splice by lia.
  rewrite (Nat.min_l _ e1) by done. rewrite length_splice by lia.
  cbn [length]. lia.
Qed.

Lemma length_grows_by_lines_plus_two_witness :
  exists es1 es2 es3 es4,
    file_ref_entries new_files (generate_ids counting new_files 0 ∅ ∅).1 = Ok es1 /\
    build_file_entries new_files (generate_ids counting new_files 0 ∅ ∅).1
      (generate_ids counting new_files 0 ∅ ∅).2 = Ok es2 /\
    file_ref_in_children new_files (generate_ids counting new_files 0 ∅ ∅).1 = Ok es3 /\
    build_file_in_sources new_files (generate_ids counting new_files 0 ∅ ∅).2 = Ok es4 /\
    add_files_to_project new_files counting (World (Some sample_manifest) [])
    = (Returned true,
       report new_files (write sample_out (World (Some sample_manifest) []))) /\
    disk (add_files_to_project new_files counting
            (World (Some sample_manifest) [])).2 = Some sample_out /\
    length sample_out
    = length sample_manifest
      + (length (join es1) + length (join es2)
         + length (join es3) + length (join es4))
      + 2.
Proof.
  apply (length_grows_by_lines_plus_two new_files counting
           (World (Some sample_manifest) []) sample_manifest
           sample_c1 sample_c2 sample_c3 sample_out
           (default 0 (find file_ref_marker sample_manifest))
           (default 0 (find file_ref_end_marker sample_manifest))
           (default 0 (find build_file_marker sample_c1))
           (default 0 (find build_file_end_marker sample_c1))).
  - reflexivity.
  - vm_compute. reflexivity.
  - vm_compute. reflexivity.
  - vm_compute. reflexivity.
  - vm_compute. reflexivity.
  - vm_compute. reflexivity.
  - vm_compute. reflexivity.
  - vm_compute. lia.
  - vm_compute. reflexivity.
  - vm_compute. reflexivity.
  - vm_compute. lia.
  - vm_compute. reflexivity.
  - vm_compute. reflexivity.
Defined.

(** ** Earlier insertions survive later ones *)

Section Keeps.

Variable files : list str.
Variable file_refs build_files : gmap str str.
Hypothesis refs_ok : ids_ok files file_refs.
Hypothesis builds_ok : ids_ok files build_files.

Lemma insert_build_files_keeps T0 B0 c out :
  sealed build_file_marker T0 = true -> instance_of T0 B0 ->
  insert_build_files files file_refs build_files c = Ok out ->
  occurs B0 c -> occurs B0 out.
Proof.
  intros Hs HI E Hc.
  apply insert_build_files_spliced in E as (es & _ & _ & HS); [|done..].
  destruct (sealed_sound _ _ _ Hs HI) as (Hp & HF & Hno).
  by apply (spliced_keeps _ _ _ _ _ HS).
Qed.

Lemma add_to_children_keeps T0 B0 c out :
  sealed list_end T0 = true -> instance_of T0 B0 ->
  add_to_children files file_refs c = Ok out ->
  occurs B0 c -> occurs B0 out.
Proof.
  intros Hs HI E Hc.
  destruct (contains main_group_marker c) eqn:G.
  - apply add_to_children_spliced in E as (es & _ & _ & HS); [|done..].
    destruct (sealed_sound _ _ _ Hs HI) as (Hp & HF & Hno).
    by apply (spliced_keeps _ _ _ _ _ HS).
  - rewrite add_to_children_skip in E by done. by injection E as <-.
Qed.

Lemma add_to_sources_keeps T0 B0 c out :
  sealed list_end T0 = true -> instance_of T0 B0 ->
  add_to_sources files build_files c = Ok out ->
  occurs B0 c -> occurs B0 out.
Proof.
  intros Hs HI E Hc.
  destruct (contains sources_phase_marker c) eqn:G.
  - apply add_to_sources_spliced in E as (es & _ & _ & HS); [|done..].
    destruct (sealed_sound _ _ _ Hs HI) as (Hp & HF & Hno).
    by apply (spliced_keeps _ _ _ _ _ HS).
  - rewrite add_to_sources_skip in E by done. by injection E as <-.
Qed.

Lemma insert_file_references_additive c out :
  insert_file_references files file_refs c = Ok out -> additive c out.
Proof.
  intros E. apply insert_file_references_spliced in E as (es & _ & _ & HS);
    [|done]. by eapply spliced_additive.
Qed.

Lemma insert_build_files_additive c out :
  insert_build_files files file_refs build_files c = Ok out -> additive c out.
Proof.
  intros E. apply insert_build_files_spliced in E as (es & _ & _ & HS);
    [|done..]. by eapply spliced_additive.
Qed.

Lemma add_to_children_additive c out :
  add_to_children files file_refs c = Ok out -> additive c out.
Proof.
  intros E. destruct (contains main_group_marker c) eqn:G.
  - apply add_to_children_spliced in E as (es & _ & _ & HS); [|done..].
    by eapply spliced_additive.
  - rewrite add_to_children_skip in E by done. injection E as <-.
    apply additive_refl.
Qed.

Lemma add_to_sources_additive c out :
  add_to_sources files build_files c = Ok out -> additive c out.
Proof.
  intros E. destruct (contains sources_phase_marker c) eqn:G.
  - apply add_to_sources_spliced in E as (es & _ & _ & HS); [|done..].
    by eapply spliced_additive.
  - rewrite add_to_sources_skip in E by done. injection E as <-.
    apply additive_refl.
Qed.

End Keeps.

Lemma additive_sublist c out : additive c out -> c `sublist_of` out.
Proof.
  intros (p & B & _ & ->). rewrite <- (take_drop p c) at 1.
  apply sublist_app; [done|]. by apply sublist_inserts_l.
Qed.

Lemma edits_are_additive_for files draws content out :
  insertion_safe files = true ->
  edit files (generate_ids draws files 0 ∅ ∅).1
       (generate_ids draws files 0 ∅ ∅).2 content = Ok out ->
  exists c1 c2 c3 es1 es2 es3 es4,
    insert_file_references files (generate_ids draws files 0 ∅ ∅).1 content
    = Ok c1 /\
    insert_build_files files (generate_ids draws files 0 ∅ ∅).1
      (generate_ids draws files 0 ∅ ∅).2 c1 = Ok c2 /\
    add_to_children files (generate_ids draws files 0 ∅ ∅).1 c2 = Ok c3 /\
    add_to_sources files (generate_ids draws files 0 ∅ ∅).2 c3 = Ok out /\
    file_ref_entries files (generate_ids draws files 0 ∅ ∅).1 = Ok es1 /\
    build_file_entries files (generate_ids draws files 0 ∅ ∅).1
      (generate_ids draws files 0 ∅ ∅).2 = Ok es2 /\
    file_ref_in_children files (generate_ids draws files 0 ∅ ∅).1 = Ok es3 /\
    build_file_in_sources files (generate_ids draws files 0 ∅ ∅).2 = Ok es4 /\
    (additive content c1 /\ additive c1 c2 /\ additive c2 c3 /\ additive c3 out) /\
    content `sublist_of` out /\
    (occurs (NL :: join es1) c1 /\ occurs (NL :: join es1) c2 /\
     occurs (NL :: join es1) c3 /\ occurs (NL :: join es1) out) /\
    (occurs (NL :: join es2) c2 /\ occurs (NL :: join es2) c3 /\
     occurs (NL :: join es2) out) /\
    (occurs (block_of (contains main_group_marker c2) es3) c3 /\
     occurs (block_of (contains main_group_marker c2) es3) out) /\
    occurs (block_of (contains sources_phase_marker c3) es4) out.
Proof.
  unfold insertion_safe. rewrite !andb_true_iff.
  intros [[[S1 S2] S3] S4] E.
  destruct (generate_ids_ok draws files 0 ∅ ∅) as [Hfr Hbf].
  set (fr := (generate_ids draws files 0 ∅ ∅).1) in *.
  set (bf := (generate_ids draws files 0 ∅ ∅).2) in *.
  unfold edit in E.
  destruct (insert_file_references files fr content) as [c1|] eqn:E1; [|done].
  simpl in E.
  destruct (insert_build_files files fr bf c1) as [c2|] eqn:E2; [|done].
  simpl in E.
  destruct (add_to_children files fr c2) as [c3|] eqn:E3; [|done].
  simpl in E. rename E into E4.
  destruct (file_ref_in_children_ok files fr Hfr) as (es3 & L3 & _ & I3).
  destruct (build_file_in_sources_ok files bf Hbf) as (es4 & L4 & _ & I4).
  pose proof (insert_file_references_additive _ _ Hfr _ _ E1) as A1.
  pose proof (insert_build_files_additive _ _ _ Hfr Hbf _ _ E2) as A2.
  pose proof (add_to_children_additive _ _ Hfr _ _ E3) as A3.
  pose proof (add_to_sources_additive _ _ Hbf _ _ E4) as A4.
  pose proof E1 as E1'. pose proof E2 as E2'.
  apply insert_file_references_spliced in E1' as (es1 & L1 & I1 & P1); [|done].
  apply insert_build_files_spliced in E2' as (es2 & L2 & I2 & P2); [|done..].
  exists c1, c2, c3, es1, es2, es3, es4.
  do 8 (split; [done|]). split; [done|]. split.
  { repeat (etrans; [by apply additive_sublist|]). done. }
  assert (B1c1 : occurs (NL :: join es1) c1) by (by eapply spliced_block).
  assert (B1c2 : occurs (NL :: join es1) c2)
    by (by eapply (insert_build_files_keeps _ _ _ Hfr Hbf _ _ _ _ S1 I1 E2)).
  assert (B1c3 : occurs (NL :: join es1) c3)
    by (by eapply (add_to_children_keeps _ _ Hfr _ _ _ _ S2 I1 E3)).
  assert (B2c2 : occurs (NL :: join es2) c2) by (by eapply spliced_block).
  assert (B2c3 : occurs (NL :: join es2) c3)
    by (by eapply (add_to_children_keeps _ _ Hfr _ _ _ _ S3 I2 E3)).
  assert (I3' : exists T, sealed list_end T = true /\
                  instance_of T (block_of (contains main_group_marker c2) es3)).
  { unfold block_of. destruct (contains main_group_marker c2).
    - by exists (children_block_t files).
    - exists []. split; [done|constructor]. }
  destruct I3' as (T3 & S3' & I3').
  assert (B3c3 : occurs (block_of (contains main_group_marker c2) es3) c3).
  { unfold block_of. destruct (contains main_group_marker c2) eqn:G;
      [|by exists 0].
    apply add_to_children_spliced in E3 as (es3' & L3' & _ & P3); [|done..].
    assert (es3' = es3) as -> by congruence. by eapply spliced_block. }
  assert (B4 : occurs (block_of (contains sources_phase_marker c3) es4) out).
  { unfold block_of. destruct (contains sources_phase_marker c3) eqn:G;
      [|by exists 0].
    pose proof E4 as E4'.
    apply add_to_sources_spliced in E4' as (es4' & L4' & _ & P4); [|done..].
    assert (es4' = es4) as -> by congruence. by eapply spliced_block. }
  repeat split; try done.
  - by eapply (add_to_sources_keeps _ _ Hbf _ _ _ _ S2 I1 E4).
  - by eapply (add_to_sources_keeps _ _ Hbf _ _ _ _ S3 I2 E4).
  - by eapply (add_to_sources_keeps _ _ Hbf _ _ _ _ S3' I3' E4).
Qed.

Lemma run_success files draws w content :
  read w = Some content ->
  (add_files_to_project files draws w).1 = Returned true ->
  exists out,
    edit files (generate_ids draws files 0 ∅ ∅).1
         (generate_ids draws files 0 ∅ ∅).2 content = Ok out /\
    add_files_to_project files draws w
    = (Returned true, report files (write out w)).
Proof.
  intros Hw H. destruct (contains file_ref_marker content) eqn:RS.
  - rewrite (run_edit _ _ _ _ Hw RS) in H |- *.
    destruct (edit _ _ _ _) as [out|e]; [|done]. by exists out.
  - by rewrite (run_no_reference_section _ _ _ _ Hw RS) in H.
Qed.

(** The four edits keep the text that they are given; the reading of the
    file does not keep its carriage returns.  On the sample manifest with
    Windows line ends the run succeeds, and the content of the file is not
    a subsequence of what is written: the written file has no carriage
    return at all. *)
Lemma carriage_returns_are_dropped :
  let run := add_files_to_project new_files counting
               (World (Some crlf_manifest) []) in
  run.1 = Returned true /\
  exists out, disk run.2 = Some out /\
              (CR ∈ crlf_manifest) /\ (CR ∉ out) /\
              ~ crlf_manifest `sublist_of` out.
Proof.
  split; [vm_compute; reflexivity|].
  eexists. split; [vm_compute; reflexivity|].
  assert (I : CR ∈ crlf_manifest)
    by (apply (bool_decide_unpack _); vm_compute; reflexivity).
  assert (O : CR ∉ text_of (edit new_files
                 (generate_ids counting new_files 0 ∅ ∅).1
                 (generate_ids counting new_files 0 ∅ ∅).2
                 (universal_newlines crlf_manifest)))
    by (apply (bool_decide_unpack _); vm_compute; reflexivity).
  split; [done|]. split; [exact O|].
  intros S. apply O. eapply elem_of_submseteq; [exact I|].
  apply sublist_submseteq. exact S.
Qed.

(** [C3, amended] On every manifest on which the run of the script
    succeeds, each of the four edits keeps its input whole around one
    point of insertion (nothing is deleted or reordered, so the text read
    is a subsequence of the text written), and the block put in by an edit
    is still in the text, in one piece, after each later edit.  The text
    read is the content of the file with [\r\n] and [\r] turned into
    [\n]: it is the content itself when the file has no carriage
    return. *)
Theorem edits_are_additive draws w content :
  read w = Some content ->
  (add_files_to_project new_files draws w).1 = Returned true ->
  exists c1 c2 c3 out es1 es2 es3 es4,
    (forall stored, disk w = Some stored ->
       content = universal_newlines stored /\
       (CR ∉ stored -> content = stored)) /\
    disk (add_files_to_project new_files draws w).2 = Some out /\
    insert_file_references new_files (generate_ids draws new_files 0 ∅ ∅).1
      content = Ok c1 /\
    insert_build_files new_files (generate_ids draws new_files 0 ∅ ∅).1
      (generate_ids draws new_files 0 ∅ ∅).2 c1 = Ok c2 /\
    add_to_children new_files (generate_ids draws new_files 0 ∅ ∅).1 c2 = Ok c3 /\
    add_to_sources new_files (generate_ids draws new_files 0 ∅ ∅).2 c3 = Ok out /\
    file_ref_entries new_files (generate_ids draws new_files 0 ∅ ∅).1 = Ok es1 /\
    build_file_entries new_files (generate_ids draws new_files 0 ∅ ∅).1
      (generate_ids draws new_files 0 ∅ ∅).2 = Ok es2 /\
    file_ref_in_children new_files (generate_ids draws new_files 0 ∅ ∅).1 = Ok es3 /\
    build_file_in_sources new_files (generate_ids draws new_files 0 ∅ ∅).2 = Ok es4 /\
    (additive content c1 /\ additive c1 c2 /\ additive c2 c3 /\ additive c3 out) /\
    content `sublist_of` out /\
    (occurs (NL :: join es1) c1 /\ occurs (NL :: join es1) c2 /\
     occurs (NL :: join es1) c3 /\ occurs (NL :: join es1) out) /\
    (occurs (NL :: join es2) c2 /\ occurs (NL :: join es2) c3 /\
     occurs (NL :: join es2) out) /\
    (occurs (block_of (contains main_group_marker c2) es3) c3 /\
     occurs (block_of (contains main_group_marker c2) es3) out) /\
    occurs (block_of (contains sources_phase_marker c3) es4) out.
Proof.
  intros Hw H.
  destruct (run_success _ _ _ _ Hw H) as (out & E & R).
  destruct (edits_are_additive_for new_files draws content out) as
    (c1 & c2 & c3 & es1 & es2 & es3 & es4 & G); [by vm_compute|done|].
  exists c1, c2, c3, out, es1, es2, es3, es4.
  split.
  { intros stored Hs. apply read_Some in Hw as (stored' & Hs' & ->).
    assert (stored' = stored) as -> by congruence.
    split; [done|]. apply universal_newlines_plain. }
  split; [|done]. rewrite R. cbn [snd]. rewrite disk_report. apply disk_write.
Qed.

Lemma edits_are_additive_witness :
  exists c1 c2 c3 out es1 es2 es3 es4,
    (forall stored, disk (World (Some sample_manifest) []) = Some stored ->
       sample_manifest = universal_newlines stored /\
       (CR ∉ stored -> sample_manifest = stored)) /\
    disk (add_files_to_project new_files counting
            (World (Some sample_manifest) [])).2 = Some out /\
    insert_file_references new_files (generate_ids counting new_files 0 ∅ ∅).1
      sample_manifest = Ok c1 /\
    insert_build_files new_files (generate_ids counting new_files 0 ∅ ∅).1
      (generate_ids counting new_files 0 ∅ ∅).2 c1 = Ok c2 /\
    add_to_children new_files (generate_ids counting new_files 0 ∅ ∅).1 c2 = Ok c3 /\
    add_to_sources new_files (generate_ids counting new_files 0 ∅ ∅).2 c3 = Ok out /\
    file_ref_entries new_files (generate_ids counting new_files 0 ∅ ∅).1 = Ok es1 /\
    build_file_entries new_files (generate_ids counting new_files 0 ∅ ∅).1
      (generate_ids counting new_files 0 ∅ ∅).2 = Ok es2 /\
    file_ref_in_children new_files (generate_ids counting new_files 0 ∅ ∅).1 = Ok es3 /\
    build_file_in_sources new_files (generate_ids counting new_files 0 ∅ ∅).2 = Ok es4 /\
    (additive sample_manifest c1 /\ additive c1 c2 /\ additive c2 c3 /\
     additive c3 out) /\
    sample_manifest `sublist_of` out /\
    (occurs (NL :: join es1) c1 /\ occurs (NL :: join es1) c2 /\
     occurs (NL :: join es1) c3 /\ occurs (NL :: join es1) out) /\
    (occurs (NL :: join es2) c2 /\ occurs (NL :: join es2) c3 /\
     occurs (NL :: join es2) out) /\
    (occurs (block_of (contains main_group_marker c2) es3) c3 /\
     occurs (block_of (contains main_group_marker c2) es3) out) /\
    occurs (block_of (contains sources_phase_marker c3) es4) out.
Proof.
  apply (edits_are_additive counting (World (Some sample_manifest) [])
           sample_manifest).
  - reflexivity.
  - vm_compute. reflexivity.
Defined.

(** ** A manifest without the group marker *)

(** The run does not succeed on it: the Sources step raises. *)
Lemma missing_group_marker_is_not_enough :
  contains file_ref_marker manifest_sources_without_files = true /\
  contains file_ref_end_marker manifest_sources_without_files = true /\
  contains build_file_marker manifest_sources_without_files = true /\
  contains build_file_end_marker manifest_sources_without_files = true /\
  contains main_group_marker manifest_sources_without_files = false /\
  add_files_to_project new_files counting
    (World (Some manifest_sources_without_files) [])
  = (Raised ValueError, World (Some manifest_sources_without_files) []).
Proof. vm_compute. repeat split; reflexivity. Qed.

Lemma take_occurrence t (c : str) i :
  occurs_at t c i -> take (i + length t) c = take i c ++ t.
Proof. unfold occurs_at. intros H. by rewrite <- take_take_drop, H. Qed.

Lemma group_step_skipped_for files draws w content c1 c2 out :
  group_safe files = true -> insertion_safe files = true ->
  read w = Some content ->
  insert_file_references files (generate_ids draws files 0 ∅ ∅).1 content = Ok c1 ->
  insert_build_files files (generate_ids draws files 0 ∅ ∅).1
    (generate_ids draws files 0 ∅ ∅).2 c1 = Ok c2 ->
  contains main_group_marker content = false ->
  add_to_sources files (generate_ids draws files 0 ∅ ∅).2 c2 = Ok out ->
  contains main_group_marker c2 = false /\
  add_to_children files (generate_ids draws files 0 ∅ ∅).1 c2 = Ok c2 /\
  add_files_to_project files draws w
  = (Returned true, report files (write out w)) /\
  disk (add_files_to_project files draws w).2 = Some out /\
  exists es1 es2,
    file_ref_entries files (generate_ids draws files 0 ∅ ∅).1 = Ok es1 /\
    build_file_entries files (generate_ids draws files 0 ∅ ∅).1
      (generate_ids draws files 0 ∅ ∅).2 = Ok es2 /\
    occurs (file_ref_marker ++ NL :: join es1) c1 /\
    occurs (build_file_marker ++ NL :: join es2) c2 /\
    occurs (NL :: join es1) out /\
    occurs (NL :: join es2) out.
Proof.
  unfold group_safe, insertion_safe. rewrite !andb_true_iff.
  intros [G1 G2] [[[S1 S2] S3] S4] Hw E1 E2 G E4.
  destruct (generate_ids_ok draws files 0 ∅ ∅) as [Hfr Hbf].
  set (fr := (generate_ids draws files 0 ∅ ∅).1) in *.
  set (bf := (generate_ids draws files 0 ∅ ∅).2) in *.
  pose proof E1 as E1'. pose proof E2 as E2'.
  apply insert_file_references_spliced in E1' as (es1 & L1 & I1 & P1); [|done].
  apply insert_build_files_spliced in E2' as (es2 & L2 & I2 & P2); [|done..].
  assert (Hne : main_group_marker <> []) by done.
  assert (G' : contains main_group_marker c2 = false).
  { apply contains_false. apply contains_false in G.
    destruct (sealed_sound _ _ _ G1 I1) as (Hp & HF1 & Hno1).
    destruct (sealed_sound _ _ _ G2 I2) as (_ & HF2 & Hno2).
    apply (spliced_absent _ _ _ _ _ P2 Hne Hp HF2 Hno2).
    by apply (spliced_absent _ _ _ _ _ P1 Hne Hp HF1 Hno1). }
  pose proof (add_to_children_skip files fr c2 G') as E3.
  split; [done|]. split; [done|].
  assert (R : add_files_to_project files draws w
              = (Returned true, report files (write out w))).
  { rewrite (run_edit _ _ _ content); [|done|].
    - fold fr bf. unfold edit. rewrite E1. simpl. rewrite E2. simpl.
      rewrite E3. simpl. by rewrite E4.
    - apply insert_file_references_Ok in E1 as (? & i & ? & _ & Hi & _).
      apply contains_true, find_is_Some. by eexists. }
  split; [done|].
  split; [rewrite R; cbn [snd]; rewrite disk_report; apply disk_write|].
  exists es1, es2. do 2 (split; [done|]).
  assert (B1c2 : occurs (NL :: join es1) c2)
    by (eapply (insert_build_files_keeps _ _ _ Hfr Hbf _ _ _ _ S1 I1 E2);
        by eapply spliced_block).
  assert (B2c2 : occurs (NL :: join es2) c2) by (by eapply spliced_block).
  repeat split.
  - apply insert_file_references_Ok in E1 as (es & i & e & L & Hi & _ & ->).
    assert (es = es1) as -> by congruence.
    apply find_Some in Hi as [Hi _]. rewrite (take_occurrence _ _ _ Hi).
    rewrite <- !app_assoc. apply occurs_app_r.
    rewrite app_assoc. apply occurs_app_l, occurs_refl.
  - apply insert_build_files_Ok in E2 as (es & i & e & L & Hi & _ & ->).
    assert (es = es2) as -> by congruence.
    apply find_Some in Hi as [Hi _]. rewrite (take_occurrence _ _ _ Hi).
    rewrite <- !app_assoc. apply occurs_app_r.
    rewrite app_assoc. apply occurs_app_l, occurs_refl.
  - by eapply (add_to_sources_keeps _ _ Hbf _ _ _ _ S2 I1 E4).
  - by eapply (add_to_sources_keeps _ _ Hbf _ _ _ _ S3 I2 E4).
Qed.

(** [C6, amended] For every manifest whose text, as read from the file,
    lets the reference step and then the build-file step find their pairs
    of markers, lacks the group marker, and does not make the Sources step
    fail (its marker is absent, or is followed by ["files = ("] and a
    [");"]), the run succeeds: the lines of the reference section follow
    its start marker, those of the build-file section follow theirs, both
    are in the text written to the file, and the group step is skipped
    and leaves the text as it is. *)
Theorem group_step_skipped draws w content c1 c2 out :
  read w = Some content ->
  insert_file_references new_files (generate_ids draws new_files 0 ∅ ∅).1
    content = Ok c1 ->
  insert_build_files new_files (generate_ids draws new_files 0 ∅ ∅).1
    (generate_ids draws new_files 0 ∅ ∅).2 c1 = Ok c2 ->
  contains main_group_marker content = false ->
  add_to_sources new_files (generate_ids draws new_files 0 ∅ ∅).2 c2 = Ok out ->
  contains main_group_marker c2 = false /\
  add_to_children new_files (generate_ids draws new_files 0 ∅ ∅).1 c2 = Ok c2 /\
  add_files_to_project new_files draws w
  = (Returned true, report new_files (write out w)) /\
  disk (add_files_to_project new_files draws w).2 = Some out /\
  exists es1 es2,
    file_ref_entries new_files (generate_ids draws new_files 0 ∅ ∅).1 = Ok es1 /\
    build_file_entries new_files (generate_ids draws new_files 0 ∅ ∅).1
      (generate_ids draws new_files 0 ∅ ∅).2 = Ok es2 /\
    occurs (file_ref_marker ++ NL :: join es1) c1 /\
    occurs (build_file_marker ++ NL :: join es2) c2 /\
    occurs (NL :: join es1) out /\
    occurs (NL :: join es2) out.
Proof.
  apply group_step_skipped_for; by vm_compute.
Qed.

(** The section steps succeed exactly when their two markers are found. *)
Lemma insert_file_references_succeeds files fr c :
  ids_ok files fr ->
  contains file_ref_marker c = true -> contains file_ref_end_marker c = true ->
  exists c1, insert_file_references files fr c = Ok c1.
Proof.
  intros Hfr H1 H2.
  destruct (file_ref_entries_ok files fr Hfr) as (es & L & _).
  apply contains_true, find_is_Some in H1 as [i Hi].
  apply contains_true, find_is_Some in H2 as [e He].
  eexists. apply insert_file_references_Ok. by exists es, i, e.
Qed.

Lemma insert_build_files_succeeds files fr bf c :
  ids_ok files fr -> ids_ok files bf ->
  contains build_file_marker c = true -> contains build_file_end_marker c = true ->
  exists c2, insert_build_files files fr bf c = Ok c2.
Proof.
  intros Hfr Hbf H1 H2.
  destruct (build_file_entries_ok files fr bf Hfr Hbf) as (es & L & _).
  apply contains_true, find_is_Some in H1 as [i Hi].
  apply contains_true, find_is_Some in H2 as [e He].
  eexists. apply insert_build_files_Ok. by exists es, i, e.
Qed.

Lemma group_step_skipped_witness :
  contains main_group_marker group_c2 = false /\
  add_to_children new_files (generate_ids counting new_files 0 ∅ ∅).1 group_c2
  = Ok group_c2 /\
  add_files_to_project new_files counting (World (Some manifest_without_group) [])
  = (Returned true,
     report new_files (write group_out (World (Some manifest_without_group) []))) /\
  disk (add_files_to_project new_files counting
          (World (Some manifest_without_group) [])).2 = Some group_out /\
  exists es1 es2,
    file_ref_entries new_files (generate_ids counting new_files 0 ∅ ∅).1 = Ok es1 /\
    build_file_entries new_files (generate_ids counting new_files 0 ∅ ∅).1
      (generate_ids counting new_files 0 ∅ ∅).2 = Ok es2 /\
    occurs (file_ref_marker ++ NL :: join es1) group_c1 /\
    occurs (build_file_marker ++ NL :: join es2) group_c2 /\
    occurs (NL :: join es1) group_out /\
    occurs (NL :: join es2) group_out.
Proof.
  apply (group_step_skipped counting (World (Some manifest_without_group) [])
           manifest_without_group group_c1 group_c2 group_out).
  - reflexivity.
  - vm_compute. reflexivity.
  - vm_compute. reflexivity.
  - vm_compute. reflexivity.
  - vm_compute. reflexivity.
Defined.

(** ** Where a token is found after a splice *)

Lemma occurs_at_take t (c : str) p q :
  q + length t <= p -> occurs_at t (take p c) q <-> occurs_at t c q.
Proof.
  intros H. destruct (decide (p <= length c)) as [Hp|Hp].
  - rewrite <- (take_drop p c) at 2.
    rewrite occurs_at_app_l; [done|]. rewrite length_take. lia.
  - by rewrite take_ge by lia.
Qed.

(** A first occurrence that ends at or before the point of insertion stays
    where it is. *)
Lemma find_splice_before t (c : str) q p B Y :
  t <> [] -> find t c = Some q -> q + length t <= p ->
  find t (take p c ++ B ++ Y) = Some q.
Proof.
  intros Ht Hq Hp. apply find_Some in Hq as [Hq Hmin].
  pose proof (occurs_at_bound _ _ _ Ht Hq) as L.
  assert (E : forall x, x <= q ->
                occurs_at t (take p c ++ B ++ Y) x <-> occurs_at t c x).
  { intros x Hx. rewrite occurs_at_app_l by (rewrite length_take; lia).
    apply occurs_at_take. lia. }
  apply find_Some. split.
  - by apply E.
  - intros x Hx. rewrite E by lia. by apply Hmin.
Qed.

(** A first occurrence that starts at or after the point of insertion
    moves by the length of the block, when the block is sealed. *)
Lemma find_splice_after t (c : str) q p B :
  t <> [] -> plain t = true -> B = [] \/ framed B -> ~ occurs t B ->
  find t c = Some q -> p <= q ->
  find t (take p c ++ B ++ drop p c) = Some (q + length B).
Proof.
  intros Ht Hp HF Hno Hq Hpq. apply find_Some in Hq as [Hq Hmin].
  pose proof (occurs_at_bound _ _ _ Ht Hq) as L.
  assert (LT : length (take p c) = p) by (rewrite length_take; lia).
  assert (Lt : 0 < length t) by (destruct t; [done|simpl; lia]).
  assert (E : forall x, p + length B <= x ->
                occurs_at t (take p c ++ B ++ drop p c) x
                <-> occurs_at t c (x - length B)).
  { intros x Hx. rewrite occurs_at_app_r by lia.
    rewrite occurs_at_app_r by lia. rewrite occurs_at_drop.
    by replace (p + (x - length (take p c) - length B)) with (x - length B)
      by lia. }
  apply find_Some. split.
  - apply E; [lia|]. by replace (q + length B - length B) with q by lia.
  - intros x Hx Hocc. destruct HF as [->|HF].
    + simpl in *. rewrite take_drop in Hocc. apply (Hmin x); [lia|done].
    + destruct (no_straddle _ _ _ _ _ Ht Hp HF Hno Hocc) as [H|H].
      * apply (Hmin x); [lia|].
        rewrite occurs_at_app_l in Hocc by lia.
        apply occurs_at_take in Hocc; [done|lia].
      * rewrite LT in H. apply E in Hocc; [|done].
        apply (Hmin (x - length B)); [lia|done].
Qed.

(** A token without the pair [a b] cannot lie across a place where [a] is
    followed by [b]. *)
Lemma junction t (c : str) x a b q :
  c !! x = Some a -> c !! S x = Some b -> ~ occurs [a; b] t ->
  occurs_at t c q -> q + length t <= S x \/ S x <= q.
Proof.
  intros Ha Hb Hno Hq.
  destruct (decide (q + length t <= S x)) as [|H1]; [by left|].
  destruct (decide (S x <= q)) as [|H2]; [by right|].
  exfalso. apply Hno. exists (x - q). unfold occurs_at.
  pose proof (occurs_at_lookup t c q (x - q) Hq ltac:(lia)) as L1.
  pose proof (occurs_at_lookup t c q (S (x - q)) Hq ltac:(lia)) as L2.
  replace (q + (x - q)) with x in L1 by lia.
  replace (q + S (x - q)) with (S x) in L2 by lia.
  rewrite Ha in L1. rewrite Hb in L2.
  rewrite (drop_S _ a (x - q)) by done.
  rewrite (drop_S _ b (S (x - q))) by done. done.
Qed.

(** Two tokens that end at the same place agree from their ends. *)
Lemma same_end t1 t2 (c : str) q1 q2 k :
  occurs_at t1 c q1 -> occurs_at t2 c q2 ->
  q1 + length t1 = q2 + length t2 ->
  k < length t1 -> k < length t2 ->
  t1 !! (length t1 - 1 - k) = t2 !! (length t2 - 1 - k).
Proof.
  intros H1 H2 E K1 K2.
  rewrite <- (occurs_at_lookup t1 c q1) by (done || lia).
  rewrite <- (occurs_at_lookup t2 c q2) by (done || lia).
  f_equal. lia.
Qed.

Lemma no_straddle_fenced t X B Y q :
  fenced t B -> ~ occurs t B ->
  occurs_at t (X ++ B ++ Y) q ->
  q + length t <= length X \/ length X + length B <= q.
Proof.
  intros (a & b & Ha & Hb & Na & Nb) HB Hq.
  destruct (decide (q + length t <= length X)) as [|H1]; [by left|].
  destruct (decide (length X + length B <= q)) as [|H2]; [by right|].
  exfalso.
  assert (LB : 0 < length B) by (destruct B; [done|simpl; lia]).
  destruct (decide (q <= length X)) as [H3|H3].
  - pose proof (occurs_at_lookup t _ q (length X - q) Hq ltac:(lia)) as L.
    replace (q + (length X - q)) with (length X + 0) in L by lia.
    rewrite lookup_app_r, Nat.add_comm, Nat.add_sub in L by lia.
    rewrite lookup_app_l, <- head_lookup, Ha in L by lia.
    symmetry in L. apply list_elem_of_lookup_2 in L. done.
  - destruct (decide (q + length t <= length X + length B)) as [H4|H4].
    + apply HB. exists (q - length X).
      rewrite occurs_at_app_r in Hq by lia.
      rewrite occurs_at_app_l in Hq by lia. done.
    + pose proof (occurs_at_lookup t _ q (length X + length B - 1 - q) Hq
                    ltac:(lia)) as L.
      replace (q + (length X + length B - 1 - q))
        with (length X + pred (length B)) in L by lia.
      rewrite lookup_app_r, Nat.add_comm, Nat.add_sub in L by lia.
      rewrite lookup_app_l, <- last_lookup, Hb in L by lia.
      symmetry in L. apply list_elem_of_lookup_2 in L. done.
Qed.

(** ** Sections *)

Lemma occurs_at_decompose t (c : str) i :
  occurs_at t c i -> drop i c = t ++ drop (i + length t) c.
Proof.
  unfold occurs_at. intros H.
  rewrite <- (take_drop (length t) (drop i c)) at 1.
  by rewrite H, drop_drop.
Qed.

Lemma section_at_section ts te B c i :
  section_at ts te B c i -> section ts te c = Some B.
Proof.
  intros (H1 & H2 & H3). unfold section. rewrite H1, H2. simpl. f_equal.
  unfold slice. replace (i + length ts + length B - (i + length ts))
    with (length B) by lia.
  rewrite <- drop_drop, (occurs_at_decompose _ _ _ H3).
  rewrite <- !app_assoc, drop_app_length.
  by rewrite take_app_length.
Qed.

(** Inserting a block between two adjacent markers makes it the content of
    their section. *)
Lemma section_made ts te B (c : str) i :
  ts <> [] -> te <> [] -> plain te = true -> B = [] \/ framed B ->
  ~ occurs te B ->
  find ts c = Some i -> find te c = Some (i + length ts) ->
  section_at ts te B
    (take (i + length ts) c ++ B ++ drop (i + length ts) c) i.
Proof.
  intros Hts Hte Hp HF Hno Hi He. split; [|split].
  - by apply find_splice_before.
  - by apply find_splice_after.
  - apply find_Some in Hi as [Hi _]. apply find_Some in He as [He _].
    pose proof (occurs_at_bound _ _ _ Hts Hi) as L.
    rewrite (take_occurrence _ _ _ Hi), (occurs_at_decompose _ _ _ He).
    unfold occurs_at. rewrite <- !app_assoc.
    rewrite drop_app_length' by (rewrite length_take; lia).
    rewrite (app_assoc B te), (app_assoc ts (B ++ te)).
    by rewrite take_app_length.
Qed.

(** A splice outside a section leaves it as it is, when its markers are
    sealed against the block. *)
Lemma section_kept ts te B (c : str) i p B' :
  ts <> [] -> te <> [] -> plain ts = true -> plain te = true ->
  B' = [] \/ framed B' -> ~ occurs ts B' -> ~ occurs te B' ->
  section_at ts te B c i -> p <= length c ->
  p <= i \/ i + length (ts ++ B ++ te) <= p ->
  exists i', section_at ts te B (take p c ++ B' ++ drop p c) i'.
Proof.
  intros Hts Hte Pts Pte HF Ns Ne (H1 & H2 & H3) Hp Hpos.
  assert (LT : length (take p c) = p) by (rewrite length_take; lia).
  rewrite !length_app in Hpos.
  destruct Hpos as [Hpos|Hpos].
  - exists (i + length B'). split; [|split].
    + by apply find_splice_after.
    + replace (i + length B' + length ts + length B)
        with (i + length ts + length B + length B') by lia.
      apply find_splice_after; try done. lia.
    + rewrite occurs_at_app_r by lia. rewrite occurs_at_app_r by lia.
      rewrite occurs_at_drop.
      by replace (p + (i + length B' - length (take p c) - length B'))
        with i by lia.
  - exists i. split; [|split].
    + apply find_splice_before; try done. lia.
    + apply find_splice_before; try done. lia.
    + rewrite occurs_at_app_l by (rewrite !length_app; lia).
      apply occurs_at_take; [rewrite !length_app; lia|done].
Qed.

Lemma list_splice_keeps_section ts te B (c : str) i q B' :
  guarded ts te B ->
  B' = [] \/ framed B' -> ~ occurs ts B' -> ~ occurs te B' ->
  section_at ts te B c i -> occurs_at list_end c q ->
  exists i', section_at ts te B (take q c ++ B' ++ drop q c) i'.
Proof.
  intros (Hts & Hte & Pts & Pte & HF & Hno) HF' Ns Ne S Hq.
  pose proof S as (_ & _ & HR).
  assert (HRne : ts ++ B ++ te <> []) by (by destruct ts).
  pose proof (occurs_at_bound _ _ _ HRne HR) as LR.
  assert (Lq : q + length list_end <= length c) by (by apply occurs_at_bound).
  assert (Hq' := Hq).
  rewrite <- (take_drop i c), (occurs_at_decompose _ _ _ HR) in Hq'.
  apply no_straddle_fenced in Hq'; [|done..].
  rewrite length_take in Hq'.
  apply (section_kept _ _ _ _ i); try done; lia.
Qed.

Section ListSteps.

Variable files : list str.
Variable file_refs build_files : gmap str str.
Hypothesis refs_ok : ids_ok files file_refs.
Hypothesis builds_ok : ids_ok files build_files.

Lemma add_to_children_keeps_section ts te B c out i :
  guarded ts te B ->
  sealed ts (children_block_t files) = true ->
  sealed te (children_block_t files) = true ->
  add_to_children files file_refs c = Ok out ->
  section_at ts te B c i ->
  exists i', section_at ts te B out i'.
Proof.
  intros HG Ss Se E S.
  destruct (contains main_group_marker c) eqn:G.
  - pose proof E as E'.
    apply add_to_children_spliced in E' as (es & L & I & _); [|done..].
    apply add_to_children_Ok in E as (g & cp & q & es' & _ & _ & Hq & L' & ->);
      [|done].
    assert (es' = es) as -> by congruence.
    apply index_from_occurs in Hq as [Hq _].
    destruct (sealed_sound _ _ _ Ss I) as (_ & HF & Ns).
    destruct (sealed_sound _ _ _ Se I) as (_ & _ & Ne).
    by eapply list_splice_keeps_section.
  - rewrite add_to_children_skip in E by done. injection E as <-. by exists i.
Qed.

Lemma add_to_sources_keeps_section ts te B c out i :
  guarded ts te B ->
  sealed ts (sources_block_t files) = true ->
  sealed te (sources_block_t files) = true ->
  add_to_sources files build_files c = Ok out ->
  section_at ts te B c i ->
  exists i', section_at ts te B out i'.
Proof.
  intros HG Ss Se E S.
  destruct (contains sources_phase_marker c) eqn:G.
  - pose proof E as E'.
    apply add_to_sources_spliced in E' as (es & L & I & _); [|done..].
    apply add_to_sources_Ok in E as (g & cp & q & es' & _ & _ & Hq & L' & ->);
      [|done].
    assert (es' = es) as -> by congruence.
    apply index_from_occurs in Hq as [Hq _].
    destruct (sealed_sound _ _ _ Ss I) as (_ & HF & Ns).
    destruct (sealed_sound _ _ _ Se I) as (_ & _ & Ne).
    by eapply list_splice_keeps_section.
  - rewrite add_to_sources_skip in E by done. injection E as <-. by exists i.
Qed.

End ListSteps.

Lemma guarded_by_template ts te T B a b :
  ts <> [] -> te <> [] -> plain ts = true -> plain te = true ->
  head ts = Some a -> last te = Some b -> a ∉ list_end -> b ∉ list_end ->
  may_occur list_end (region_t ts te T) = false ->
  instance_of T B ->
  guarded ts te B.
Proof.
  intros Hts Hte Pts Pte Ha Hb Na Nb Hm HI.
  repeat split; try done.
  - exists a, b. repeat split; try done.
    + by destruct ts.
    + rewrite !last_app, Hb. done.
  - intros Ho. apply (may_occur_sound _ (region_t ts te T)) in Ho; [congruence|].
    unfold region_t. apply Forall2_app; [apply instance_lit|].
    apply Forall2_app; [done|apply instance_lit].
Qed.

Lemma marker_lengths :
  length file_ref_marker = 36 /\ length file_ref_end_marker = 34 /\
  length build_file_marker = 32 /\ length build_file_end_marker = 30.
Proof. done. Qed.

(** Two adjacent pairs of markers are either apart or the same: the end of
    one start marker cannot fall inside a marker of the other pair. *)
Lemma adjacent_sections_apart (c : str) i j :
  occurs_at file_ref_marker c i ->
  occurs_at file_ref_end_marker c (i + 36) ->
  occurs_at build_file_marker c j ->
  occurs_at build_file_end_marker c (j + 32) ->
  (j + 62 <= i + 36 /\ j + 32 <= i) \/ (i + 36 <= j /\ i + 70 <= j + 32).
Proof.
  intros RS RE BS BE.
  destruct marker_lengths as (L1 & L2 & L3 & L4).
  assert (C1 : c !! (i + 35) = Some "/"%char)
    by (rewrite (occurs_at_lookup _ _ _ 35 RS) by (rewrite L1; lia); done).
  assert (C2 : c !! S (i + 35) = Some "/"%char).
  { replace (S (i + 35)) with (i + 36 + 0) by lia.
    rewrite (occurs_at_lookup _ _ _ 0 RE) by (rewrite L2; lia). done. }
  assert (D1 : c !! (j + 31) = Some "/"%char)
    by (rewrite (occurs_at_lookup _ _ _ 31 BS) by (rewrite L3; lia); done).
  assert (D2 : c !! S (j + 31) = Some "/"%char).
  { replace (S (j + 31)) with (j + 32 + 0) by lia.
    rewrite (occurs_at_lookup _ _ _ 0 BE) by (rewrite L4; lia). done. }
  assert (N : forall t, contains (lit "//") t = false ->
                        ~ occurs ["/"%char; "/"%char] t)
    by (intros t; apply contains_false).
  pose proof (junction _ _ _ _ _ _ C1 C2 (N build_file_marker eq_refl) BS) as J1.
  pose proof (junction _ _ _ _ _ _ C1 C2 (N build_file_end_marker eq_refl) BE) as J2.
  pose proof (junction _ _ _ _ _ _ D1 D2 (N file_ref_marker eq_refl) RS) as J3.
  pose proof (junction _ _ _ _ _ _ D1 D2 (N file_ref_end_marker eq_refl) RE) as J4.
  assert (NE : i + 36 <> j + 32).
  { intros E.
    pose proof (same_end _ _ _ _ _ 12 RS BS) as X.
    rewrite L1, L3 in X. specialize (X E ltac:(lia) ltac:(lia)).
    vm_compute in X. discriminate. }
  rewrite ?L1, ?L2, ?L3, ?L4 in *. lia.
Qed.

Lemma slash_not_in_list_end : "/"%char ∉ list_end.
Proof. apply (bool_decide_unpack _). by vm_compute. Qed.

Lemma sections_filled_for files draws content out i j :
  scenario_safe files = true ->
  find file_ref_marker content = Some i ->
  find file_ref_end_marker content = Some (i + length file_ref_marker) ->
  find build_file_marker content = Some j ->
  find build_file_end_marker content = Some (j + length build_file_marker) ->
  edit files (generate_ids draws files 0 ∅ ∅).1
       (generate_ids draws files 0 ∅ ∅).2 content = Ok out ->
  exists es1 es2,
    file_ref_entries files (generate_ids draws files 0 ∅ ∅).1 = Ok es1 /\
    build_file_entries files (generate_ids draws files 0 ∅ ∅).1
      (generate_ids draws files 0 ∅ ∅).2 = Ok es2 /\
    section file_ref_marker file_ref_end_marker out = Some (NL :: join es1) /\
    section build_file_marker build_file_end_marker out = Some (NL :: join es2).
Proof.
  unfold scenario_safe, sealed_all. cbn [forallb].
  rewrite !andb_true_iff, !negb_true_iff.
  intros [[[[[(A1 & A2 & A3 & _) (A4 & A5 & A6 & _)]
               (K1 & K2 & K3 & K4 & _)] (U1 & U2 & U3 & U4 & _)] M1] M2].
  intros Hi He Hj Hje E.
  destruct (generate_ids_ok draws files 0 ∅ ∅) as [Hfr Hbf].
  set (fr := (generate_ids draws files 0 ∅ ∅).1) in *.
  set (bf := (generate_ids draws files 0 ∅ ∅).2) in *.
  destruct marker_lengths as (L1 & L2 & L3 & L4).
  assert (NE_RS : file_ref_marker <> []) by done.
  assert (NE_RE : file_ref_end_marker <> []) by done.
  unfold edit in E.
  destruct (insert_file_references files fr content) as [c1|] eqn:E1; [|done].
  simpl in E.
  destruct (insert_build_files files fr bf c1) as [c2|] eqn:E2; [|done].
  simpl in E.
  destruct (add_to_children files fr c2) as [c3|] eqn:E3; [|done].
  simpl in E. rename E into E4.
  pose proof E1 as E1'. pose proof E2 as E2'.
  apply insert_file_references_spliced in E1' as (es1 & R1 & I1 & _); [|done].
  apply insert_build_files_spliced in E2' as (es2 & R2 & I2 & _); [|done..].
  exists es1, es2. do 2 (split; [done|]).
  set (B1 := NL :: join es1) in *. set (B2 := NL :: join es2) in *.
  destruct (sealed_sound _ _ _ A1 I1) as (P_RE & F1 & N_RE_1).
  destruct (sealed_sound _ _ _ A2 I1) as (P_BS & _ & N_BS_1).
  destruct (sealed_sound _ _ _ A3 I1) as (P_BE & _ & N_BE_1).
  destruct (sealed_sound _ _ _ A4 I2) as (P_RS & F2 & N_RS_2).
  destruct (sealed_sound _ _ _ A5 I2) as (_ & _ & N_RE_2).
  destruct (sealed_sound _ _ _ A6 I2) as (_ & _ & N_BE_2).
  apply insert_file_references_Ok in E1 as (es & i' & e' & R1' & Hi' & He' & Hc1).
  assert (es = es1) as -> by congruence.
  assert (i' = i) as -> by congruence.
  assert (e' = i + length file_ref_marker) as -> by congruence.
  rewrite Nat.min_id in Hc1. fold B1 in Hc1.
  assert (Sref1 : section_at file_ref_marker file_ref_end_marker B1 c1 i)
    by (rewrite Hc1; by apply section_made).
  pose proof Hi as OA_RS. apply find_Some in OA_RS as [OA_RS _].
  pose proof He as OA_RE. apply find_Some in OA_RE as [OA_RE _].
  pose proof Hj as OA_BS. apply find_Some in OA_BS as [OA_BS _].
  pose proof Hje as OA_BE. apply find_Some in OA_BE as [OA_BE _].
  rewrite L1 in OA_RE. rewrite L3 in OA_BE.
  pose proof (adjacent_sections_apart _ _ _ OA_RS OA_RE OA_BS OA_BE) as Cases.
  assert (S2 : exists i2 j2,
             section_at file_ref_marker file_ref_end_marker B1 c2 i2 /\
             section_at build_file_marker build_file_end_marker B2 c2 j2).
  { apply insert_build_files_Ok in E2 as (es & i2 & e2 & R2' & Hi2 & He2 & ->).
    assert (es = es2) as -> by congruence. fold B2.
    destruct Cases as [[C1 C2]|[C1 C2]].
    - assert (F1' : find build_file_marker c1 = Some j)
        by (rewrite Hc1; apply find_splice_before; [done|done|lia]).
      assert (F2' : find build_file_end_marker c1
                    = Some (j + length build_file_marker))
        by (rewrite Hc1; apply find_splice_before; [done|done|lia]).
      assert (i2 = j) as -> by congruence.
      assert (e2 = j + length build_file_marker) as -> by congruence.
      rewrite Nat.min_id.
      assert (Lc1 : j + length build_file_marker <= length c1).
      { apply find_Some in F1' as [F1' _]. by apply occurs_at_bound in F1'. }
      destruct (section_kept _ _ _ _ i (j + length build_file_marker) B2
                  NE_RS NE_RE P_RS P_RE F2 N_RS_2 N_RE_2 Sref1 Lc1)
        as [i2 Si2]; [left; lia|].
      exists i2, j. split; [done|]. by apply section_made.
    - assert (Lp : i + length file_ref_marker <= length content)
        by (by apply occurs_at_bound in OA_RS).
      assert (F1' : find build_file_marker c1 = Some (j + length B1))
        by (rewrite Hc1; apply find_splice_after; try done; lia).
      assert (F2' : find build_file_end_marker c1
                    = Some (j + length B1 + length build_file_marker)).
      { replace (j + length B1 + length build_file_marker)
          with (j + length build_file_marker + length B1) by lia.
        rewrite Hc1. apply find_splice_after; try done. lia. }
      assert (i2 = j + length B1) as -> by congruence.
      assert (e2 = j + length B1 + length build_file_marker) as -> by congruence.
      rewrite Nat.min_id.
      assert (Lc1 : j + length B1 + length build_file_marker <= length c1).
      { apply find_Some in F1' as [F1' _]. by apply occurs_at_bound in F1'. }
      destruct (section_kept _ _ _ _ i (j + length B1 + length build_file_marker)
                  B2 NE_RS NE_RE P_RS P_RE F2 N_RS_2 N_RE_2 Sref1 Lc1)
        as [i2 Si2]; [right; rewrite !length_app; lia|].
      exists i2, (j + length B1). split; [done|]. by apply section_made. }
  destruct S2 as (i2 & j2 & Sr2 & Sb2).
  assert (G1 : guarded file_ref_marker file_ref_end_marker B1).
  { eapply (guarded_by_template _ _ (refs_block_t files) _ "/"%char "/"%char);
      try done; apply slash_not_in_list_end. }
  assert (G2 : guarded build_file_marker build_file_end_marker B2).
  { eapply (guarded_by_template _ _ (builds_block_t files) _ "/"%char "/"%char);
      try done; apply slash_not_in_list_end. }
  destruct (add_to_children_keeps_section files fr Hfr _ _ _ _ _ _ G1 K1 K2 E3 Sr2)
    as [i3 Sr3].
  destruct (add_to_children_keeps_section files fr Hfr _ _ _ _ _ _ G2 K3 K4 E3 Sb2)
    as [j3 Sb3].
  destruct (add_to_sources_keeps_section files bf Hbf _ _ _ _ _ _ G1 U1 U2 E4 Sr3)
    as [i4 Sr4].
  destruct (add_to_sources_keeps_section files bf Hbf _ _ _ _ _ _ G2 U3 U4 E4 Sb3)
    as [j4 Sb4].
  split; by eapply section_at_section.
Qed.

(** ** The scenario of two names and two empty sections *)

Lemma pair_ids draws (n1 n2 : str) :
  n1 <> n2 ->
  (generate_ids draws [n1; n2] 0 ∅ ∅).1 !! n1 = Some (generate_uuid (draws 0)) /\
  (generate_ids draws [n1; n2] 0 ∅ ∅).2 !! n1 = Some (generate_uuid (draws 1)) /\
  (generate_ids draws [n1; n2] 0 ∅ ∅).1 !! n2 = Some (generate_uuid (draws 2)) /\
  (generate_ids draws [n1; n2] 0 ∅ ∅).2 !! n2 = Some (generate_uuid (draws 3)).
Proof.
  intros Hne. cbn [generate_ids fst snd].
  repeat split; rewrite ?(lookup_insert_ne _ n2 n1) by congruence;
    apply lookup_insert_eq.
Qed.

Lemma pair_entries draws (n1 n2 : str) :
  n1 <> n2 ->
  file_ref_entries [n1; n2] (generate_ids draws [n1; n2] 0 ∅ ∅).1
  = Ok [file_ref_entry (generate_uuid (draws 0)) n1;
        file_ref_entry (generate_uuid (draws 2)) n2] /\
  build_file_entries [n1; n2] (generate_ids draws [n1; n2] 0 ∅ ∅).1
    (generate_ids draws [n1; n2] 0 ∅ ∅).2
  = Ok [build_file_entry (generate_uuid (draws 1)) (generate_uuid (draws 0)) n1;
        build_file_entry (generate_uuid (draws 3)) (generate_uuid (draws 2)) n2].
Proof.
  intros Hne. destruct (pair_ids draws n1 n2 Hne) as (A1 & A2 & B1 & B2).
  set (fr := (generate_ids draws [n1; n2] 0 ∅ ∅).1) in *.
  set (bf := (generate_ids draws [n1; n2] 0 ∅ ∅).2) in *.
  unfold file_ref_entries, build_file_entries.
  cbn [for_each]. unfold getitem. rewrite A1, A2, B1, B2. done.
Qed.

(** With draws that agree on their random bits above bit 31, the two lines
    of each section carry one and the same identifier. *)
Lemma two_lines_can_share_identifiers :
  let run := add_files_to_project two_names counting
               (World (Some adjacent_manifest) []) in
  let u := lit "000000000000400080000000" in
  run.1 = Returned true /\
  section file_ref_marker file_ref_end_marker (default [] (disk run.2))
  = Some (NL :: file_ref_entry u (lit "A.swift")
             ++ file_ref_entry u (lit "B.swift")) /\
  section build_file_marker build_file_end_marker (default [] (disk run.2))
  = Some (NL :: build_file_entry u u (lit "A.swift")
             ++ build_file_entry u u (lit "B.swift")) /\
  ~ NoDup [generate_uuid (counting 0); generate_uuid (counting 1);
           generate_uuid (counting 2); generate_uuid (counting 3)].
Proof.
  vm_compute. repeat split; try reflexivity.
  intros H. apply NoDup_cons in H as [H _]. apply H. by left.
Qed.

(** [C2, amended] For a manifest whose reference and build-file sections
    are empty (in each, the end marker directly follows the start marker)
    and a list of two different names whose entries cannot contain an
    anchor of the script (a check on the names alone, which [A.swift] and
    [B.swift] pass), a run that succeeds leaves in the reference section of
    the text written, after one line feed, exactly two lines in the order
    of the list, each with the reference identifier generated for its
    name, and in the build-file section exactly two lines, each with the
    build identifier of its name and, as [fileRef], the reference
    identifier of the same name.  This holds whatever the draws are.  The
    four identifiers themselves are pairwise distinct exactly when the
    four draws, of 128 bits each, differ pairwise in the random bits that
    an identifier takes from a draw (bits 32 to 127 other than bits 62,
    63 and 76 to 79, which [uuid4] overwrites). *)
Theorem two_names_scenario (n1 n2 : str) draws w content i j :
  n1 <> n2 ->
  scenario_safe [n1; n2] = true ->
  read w = Some content ->
  find file_ref_marker content = Some i ->
  find file_ref_end_marker content = Some (i + length file_ref_marker) ->
  find build_file_marker content = Some j ->
  find build_file_end_marker content = Some (j + length build_file_marker) ->
  (add_files_to_project [n1; n2] draws w).1 = Returned true ->
  exists out,
    disk (add_files_to_project [n1; n2] draws w).2 = Some out /\
    section file_ref_marker file_ref_end_marker out
    = Some (NL :: file_ref_entry (generate_uuid (draws 0)) n1
               ++ file_ref_entry (generate_uuid (draws 2)) n2) /\
    section build_file_marker build_file_end_marker out
    = Some (NL :: build_file_entry (generate_uuid (draws 1))
                    (generate_uuid (draws 0)) n1
               ++ build_file_entry (generate_uuid (draws 3))
                    (generate_uuid (draws 2)) n2) /\
    ((forall k, k < 4 -> (draws k < 2 ^ 128)%N) ->
     NoDup [generate_uuid (draws 0); generate_uuid (draws 1);
            generate_uuid (draws 2); generate_uuid (draws 3)] <->
     NoDup ((fun k => random_bits (draws k)) <$> seq 0 4)).
Proof.
  intros Hne Hsafe Hw Hi He Hj Hje H.
  destruct (run_success _ _ _ _ Hw H) as (out & E & R).
  destruct (sections_filled_for [n1; n2] draws content out i j)
    as (es1 & es2 & L1 & L2 & S1 & S2); [done..|].
  destruct (pair_entries draws n1 n2 Hne) as [T1 T2].
  rewrite T1 in L1. rewrite T2 in L2.
  injection L1 as <-. injection L2 as <-.
  exists out.
  split; [rewrite R; cbn [snd]; rewrite disk_report; apply disk_write|].
  split; [|split].
  - rewrite S1. unfold join. simpl concat. by rewrite app_nil_r.
  - rewrite S2. unfold join. simpl concat. by rewrite app_nil_r.
  - intros Hr. apply (generated_ids_distinct_iff draws 4 Hr).
Qed.

Lemma two_names_scenario_witness :
  exists out,
    disk (add_files_to_project two_names spread
            (World (Some adjacent_manifest) [])).2 = Some out /\
    section file_ref_marker file_ref_end_marker out
    = Some (NL :: file_ref_entry (generate_uuid (spread 0)) (lit "A.swift")
               ++ file_ref_entry (generate_uuid (spread 2)) (lit "B.swift")) /\
    section build_file_marker build_file_end_marker out
    = Some (NL :: build_file_entry (generate_uuid (spread 1))
                    (generate_uuid (spread 0)) (lit "A.swift")
               ++ build_file_entry (generate_uuid (spread 3))
                    (generate_uuid (spread 2)) (lit "B.swift")) /\
    NoDup [generate_uuid (spread 0); generate_uuid (spread 1);
           generate_uuid (spread 2); generate_uuid (spread 3)].
Proof.
  destruct (two_names_scenario (lit "A.swift") (lit "B.swift") spread
              (World (Some adjacent_manifest) []) adjacent_manifest
              (default 0 (find file_ref_marker adjacent_manifest))
              (default 0 (find build_file_marker adjacent_manifest)))
    as (out & D & S1 & S2 & N).
  - discriminate.
  - vm_compute. reflexivity.
  - reflexivity.
  - vm_compute. reflexivity.
  - vm_compute. reflexivity.
  - vm_compute. reflexivity.
  - vm_compute. reflexivity.
  - vm_compute. reflexivity.
  - exists out. split; [exact D|]. split; [exact S1|]. split; [exact S2|].
    apply N.
    + intros k Hk. unfold spread.
      assert (N.of_nat k < 4)%N by lia.
      change (2 ^ 128)%N with (2 ^ 96 * 2 ^ 32)%N.
      apply N.mul_lt_mono_pos_r; [done|].
      eapply N.lt_trans; [done|done].
    + apply (bool_decide_unpack _). vm_compute. reflexivity.
Defined.


(** * Further properties of the script *)

(** ** How a run ends *)

Lemma stdout_prints (p : str -> str) (l : list str) w :
  stdout (fold_left (fun w f => print (p f) w) l w) = stdout w ++ (p <$> l) /\
  disk (fold_left (fun w f => print (p f) w) l w) = disk w.
Proof.
  revert w; induction l as [|f l IH]; intros w; simpl.
  - by rewrite app_nil_r.
  - destruct (IH (print (p f) w)) as [-> ->]. simpl.
    by rewrite <- app_assoc.
Qed.

Lemma report_stdout files w :
  stdout (report files w)
  = stdout w
    ++ (lit "Successfully added " ++ str_of_nat (length files)
        ++ lit " files to the Xcode project:")
       :: ((fun f => lit "  - " ++ f) <$> files).
Proof.
  unfold report.
  destruct (stdout_prints (fun f => lit "  - " ++ f) files
              (print (lit "Successfully added " ++ str_of_nat (length files)
                      ++ lit " files to the Xcode project:") w)) as [-> _].
  simpl. by rewrite <- app_assoc.
Qed.


(** Lines 29 to 31 and 48 to 50: the function returns [False] exactly when
    the file is missing or its text has no start marker of the reference
    section; it then prints one line of diagnosis and does nothing else. *)
Theorem returns_false_iff files draws w :
  ((add_files_to_project files draws w).1 = Returned false <->
   disk w = None \/
   exists content, disk w = Some content /\
                   contains file_ref_marker content = false) /\
  ((add_files_to_project files draws w).1 = Returned false ->
   (add_files_to_project files draws w).2
   = print (match disk w with
            | Some _ => lit "Error: Could not find PBXFileReference section"
            | None => lit "Error: Project file not found at " ++ project_path
            end) w).
Proof.
  destruct (disk w) as [content|] eqn:Hw.
  - pose proof (read_disk _ _ Hw) as Hr.
    destruct (contains file_ref_marker (universal_newlines content)) eqn:RS;
      pose proof RS as RS'; rewrite contains_universal_newlines in RS' by done.
    + rewrite (run_edit _ _ _ _ Hr RS).
      destruct (edit _ _ _ _) as [out|e]; simpl.
      * split; [|done]. split; [done|].
        intros [|(c & [= <-] & ?)]; congruence.
      * split; [|done]. split; [done|].
        intros [|(c & [= <-] & ?)]; congruence.
    + rewrite (run_no_reference_section _ _ _ _ Hr RS). simpl.
      split; [|done]. split; [|done]. intros _. right. by exists content.
  - rewrite (run_missing_file _ _ _ Hw). simpl.
    split; [|done]. split; [|done]. intros _. by left.
Qed.

(** Lines 34 to 35 and 139 to 147: a run that returns [True] has written
    the result of the four edits of the text read (the former content of
    the file with [\r\n] and [\r] turned into [\n]) and printed one
    headline with the number of names, then one line per name of the
    list, in the order of the list. *)
Theorem success_report files draws w :
  (add_files_to_project files draws w).1 = Returned true ->
  exists stored out,
    disk w = Some stored /\
    edit files (generate_ids draws files 0 ∅ ∅).1
         (generate_ids draws files 0 ∅ ∅).2 (universal_newlines stored)
    = Ok out /\
    disk (add_files_to_project files draws w).2 = Some out /\
    stdout (add_files_to_project files draws w).2
    = stdout w
      ++ (lit "Successfully added " ++ str_of_nat (length files)
          ++ lit " files to the Xcode project:")
         :: ((fun f => lit "  - " ++ f) <$> files).
Proof.
  intros H. destruct (disk w) as [stored|] eqn:Hw.
  - destruct (run_success _ _ _ _ (read_disk _ _ Hw) H) as (out & E & R).
    exists stored, out. rewrite R. cbn [snd].
    rewrite disk_report, report_stdout, disk_write. done.
  - by rewrite (run_missing_file _ _ _ Hw) in H.
Qed.

(** On the manifest with Windows line ends. *)
Lemma success_report_witness :
  exists stored out,
    disk (World (Some crlf_manifest) []) = Some stored /\
    edit new_files (generate_ids counting new_files 0 ∅ ∅).1
         (generate_ids counting new_files 0 ∅ ∅).2 (universal_newlines stored)
    = Ok out /\
    disk (add_files_to_project new_files counting
            (World (Some crlf_manifest) [])).2 = Some out /\
    stdout (add_files_to_project new_files counting
              (World (Some crlf_manifest) [])).2
    = stdout (World (Some crlf_manifest) [])
      ++ (lit "Successfully added " ++ str_of_nat (length new_files)
          ++ lit " files to the Xcode project:")
         :: ((fun f => lit "  - " ++ f) <$> new_files).
Proof.
  apply (success_report new_files counting (World (Some crlf_manifest) [])).
  vm_compute. reflexivity.
Defined.

(** ** The only exception *)

Section Raises.

Variable files : list str.
Variable file_refs build_files : gmap str str.
Hypothesis refs_ok : ids_ok files file_refs.
Hypothesis builds_ok : ids_ok files build_files.

Lemma index_raises m s e : index m s = Raise e -> e = ValueError.
Proof. intros H. by apply index_Raise in H as [_ ->]. Qed.

Lemma index_from_raises m s k e : index_from m s k = Raise e -> e = ValueError.
Proof. unfold index_from. destruct (find m (drop k s)); congruence. Qed.

Lemma insert_file_references_raises c e :
  insert_file_references files file_refs c = Raise e -> e = ValueError.
Proof.
  unfold insert_file_references.
  destruct (file_ref_entries_ok files file_refs refs_ok) as (es & -> & _).
  simpl. destruct (index file_ref_marker c) eqn:E1; simpl;
    [|intros [= <-]; by eapply index_raises].
  destruct (index file_ref_end_marker c) eqn:E2; simpl;
    [done|intros [= <-]; by eapply index_raises].
Qed.

Lemma insert_build_files_raises c e :
  insert_build_files files file_refs build_files c = Raise e -> e = ValueError.
Proof.
  unfold insert_build_files.
  destruct (build_file_entries_ok files file_refs build_files refs_ok builds_ok)
    as (es & -> & _).
  simpl. destruct (index build_file_marker c) eqn:E1; simpl;
    [|intros [= <-]; by eapply index_raises].
  destruct (index build_file_end_marker c) eqn:E2; simpl;
    [done|intros [= <-]; by eapply index_raises].
Qed.

Lemma add_to_children_raises c e :
  add_to_children files file_refs c = Raise e -> e = ValueError.
Proof.
  unfold add_to_children. destruct (contains main_group_marker c); [|done].
  destruct (index main_group_marker c) as [g|] eqn:E1; simpl;
    [|intros [= <-]; by eapply index_raises].
  destruct (index_from children_marker c g) as [cp|] eqn:E2; simpl;
    [|intros [= <-]; by eapply index_from_raises].
  destruct (index_from list_end c cp) as [q|] eqn:E3; simpl;
    [|intros [= <-]; by eapply index_from_raises].
  by destruct (file_ref_in_children_ok files file_refs refs_ok) as (es & -> & _).
Qed.

Lemma add_to_sources_raises c e :
  add_to_sources files build_files c = Raise e -> e = ValueError.
Proof.
  unfold add_to_sources. destruct (contains sources_phase_marker c); [|done].
  destruct (index sources_phase_marker c) as [g|] eqn:E1; simpl;
    [|intros [= <-]; by eapply index_raises].
  destruct (index_from files_marker c g) as [cp|] eqn:E2; simpl;
    [|intros [= <-]; by eapply index_from_raises].
  destruct (index_from list_end c cp) as [q|] eqn:E3; simpl;
    [|intros [= <-]; by eapply index_from_raises].
  by destruct (build_file_in_sources_ok files build_files builds_ok)
    as (es & -> & _).
Qed.

End Raises.

(** Lines 38 to 42 against lines 55, 77, 106 and 129: every subscript
    [file_refs[filename]] and [build_files[filename]] finds its key, because
    the first loop has stored both for every name of the list.  On any
    text, the four edits of lines 52 to 137 therefore raise nothing but
    the [ValueError] of a failed [str.index], and no run ends with
    [KeyError]. *)
Theorem no_key_error files draws :
  (forall content e,
     edit files (generate_ids draws files 0 ∅ ∅).1
          (generate_ids draws files 0 ∅ ∅).2 content = Raise e ->
     e = ValueError) /\
  (forall w, (add_files_to_project files draws w).1 <> Raised KeyError).
Proof.
  destruct (generate_ids_ok draws files 0 ∅ ∅) as [Hfr Hbf].
  assert (A : forall content e,
             edit files (generate_ids draws files 0 ∅ ∅).1
                  (generate_ids draws files 0 ∅ ∅).2 content = Raise e ->
             e = ValueError).
  { intros content e. unfold edit.
    destruct (insert_file_references _ _ content) as [c1|x] eqn:E1; simpl;
      [|intros [= <-]; apply (insert_file_references_raises _ _ Hfr _ _ E1)].
    destruct (insert_build_files _ _ _ c1) as [c2|x] eqn:E2; simpl;
      [|intros [= <-]; apply (insert_build_files_raises _ _ _ Hfr Hbf _ _ E2)].
    destruct (add_to_children _ _ c2) as [c3|x] eqn:E3; simpl;
      [|intros [= <-]; apply (add_to_children_raises _ _ Hfr _ _ E3)].
    destruct (add_to_sources _ _ c3) as [out|x] eqn:E4; simpl;
      [done|intros [= <-]; apply (add_to_sources_raises _ _ Hbf _ _ E4)]. }
  split; [done|]. intros w.
  destruct (disk w) as [stored|] eqn:Hw;
    [|rewrite (run_missing_file _ _ _ Hw); by simpl].
  pose proof (read_disk _ _ Hw) as Hr.
  destruct (contains file_ref_marker (universal_newlines stored)) eqn:RS;
    [|rewrite (run_no_reference_section _ _ _ _ Hr RS); by simpl].
  rewrite (run_edit _ _ _ _ Hr RS).
  destruct (edit _ _ _ _) as [out|e] eqn:E; [done|].
  apply A in E as ->. done.
Qed.

(** ** One pair of identifiers per name, at all four sites *)

Lemma last_pos_max f files k j :
  files !! k = Some f -> last_pos f files = Some j -> k <= j.
Proof.
  revert k j; induction files as [|g l IH]; intros k j Hk Hj; [done|].
  destruct k as [|k]; [lia|]. simpl in *.
  destruct (last_pos_elem f l) as [j' Hj']; [by eapply list_elem_of_lookup_2|].
  rewrite Hj' in Hj. injection Hj as <-.
  specialize (IH k j' Hk Hj'). lia.
Qed.

Lemma for_each_lookup {A B} (f : A -> result B) l ys k x :
  for_each f l = Ok ys -> l !! k = Some x ->
  exists y, ys !! k = Some y /\ f x = Ok y.
Proof.
  intros H Hk. apply for_each_Ok in H.
  by apply (Forall2_lookup_l _ _ _ _ _ H Hk).
Qed.

(** Lines 38 to 42 with lines 53 to 56, 75 to 78, 104 to 107 and 127 to
    130: the entry that each of the four loops builds at a position of the
    list carries the identifiers drawn at the last position of the same
    name: its line in the reference section and its line in the group carry
    the reference identifier, its line in the build-file section carries the
    build identifier together with the same reference identifier, and its
    line in the Sources phase carries the same build identifier.  A name
    listed twice thus gets the same identifiers in all its lines, those of
    its last position; the identifiers drawn before are dropped. *)
Theorem lines_carry_last_drawn_ids files draws k f :
  files !! k = Some f ->
  exists j es1 es2 es3 es4,
    files !! j = Some f /\
    (forall k', files !! k' = Some f -> k' <= j) /\
    file_ref_entries files (generate_ids draws files 0 ∅ ∅).1 = Ok es1 /\
    build_file_entries files (generate_ids draws files 0 ∅ ∅).1
      (generate_ids draws files 0 ∅ ∅).2 = Ok es2 /\
    file_ref_in_children files (generate_ids draws files 0 ∅ ∅).1 = Ok es3 /\
    build_file_in_sources files (generate_ids draws files 0 ∅ ∅).2 = Ok es4 /\
    es1 !! k = Some (file_ref_entry (generate_uuid (draws (2 * j))) f) /\
    es2 !! k = Some (build_file_entry (generate_uuid (draws (2 * j + 1)))
                       (generate_uuid (draws (2 * j))) f) /\
    es3 !! k = Some (child_entry (generate_uuid (draws (2 * j))) f) /\
    es4 !! k = Some (source_entry (generate_uuid (draws (2 * j + 1))) f).
Proof.
  intros Hk.
  destruct (generate_ids_ok draws files 0 ∅ ∅) as [Hfr Hbf].
  pose proof (generate_ids_lookup draws files 0 ∅ ∅ f) as L.
  destruct (generate_ids draws files 0 ∅ ∅) as [fr bf]. simpl in *.
  destruct (last_pos_elem f files) as [j Hj]; [by eapply list_elem_of_lookup_2|].
  rewrite Hj in L. destruct L as [Lr Lb].
  destruct (file_ref_entries_ok files fr Hfr) as (es1 & E1 & _).
  destruct (build_file_entries_ok files fr bf Hfr Hbf) as (es2 & E2 & _).
  destruct (file_ref_in_children_ok files fr Hfr) as (es3 & E3 & _).
  destruct (build_file_in_sources_ok files bf Hbf) as (es4 & E4 & _).
  exists j, es1, es2, es3, es4.
  split; [by apply last_pos_lookup|].
  split; [intros k' Hk'; by eapply last_pos_max|].
  do 4 (split; [done|]).
  destruct (for_each_lookup _ _ _ _ _ E1 Hk) as (y1 & -> & Y1).
  destruct (for_each_lookup _ _ _ _ _ E2 Hk) as (y2 & -> & Y2).
  destruct (for_each_lookup _ _ _ _ _ E3 Hk) as (y3 & -> & Y3).
  destruct (for_each_lookup _ _ _ _ _ E4 Hk) as (y4 & -> & Y4).
  unfold getitem in *. rewrite ?Lr, ?Lb in *. simpl in *.
  injection Y1 as <-. injection Y2 as <-. injection Y3 as <-. injection Y4 as <-.
  done.
Qed.

Lemma lines_carry_last_drawn_ids_witness :
  exists j es1 es2 es3 es4,
    [lit "A.swift"; lit "B.swift"; lit "A.swift"] !! j = Some (lit "A.swift") /\
    (forall k', [lit "A.swift"; lit "B.swift"; lit "A.swift"] !! k'
                = Some (lit "A.swift") -> k' <= j) /\
    file_ref_entries [lit "A.swift"; lit "B.swift"; lit "A.swift"]
      (generate_ids counting [lit "A.swift"; lit "B.swift"; lit "A.swift"]
         0 ∅ ∅).1 = Ok es1 /\
    build_file_entries [lit "A.swift"; lit "B.swift"; lit "A.swift"]
      (generate_ids counting [lit "A.swift"; lit "B.swift"; lit "A.swift"]
         0 ∅ ∅).1
      (generate_ids counting [lit "A.swift"; lit "B.swift"; lit "A.swift"]
         0 ∅ ∅).2 = Ok es2 /\
    file_ref_in_children [lit "A.swift"; lit "B.swift"; lit "A.swift"]
      (generate_ids counting [lit "A.swift"; lit "B.swift"; lit "A.swift"]
         0 ∅ ∅).1 = Ok es3 /\
    build_file_in_sources [lit "A.swift"; lit "B.swift"; lit "A.swift"]
      (generate_ids counting [lit "A.swift"; lit "B.swift"; lit "A.swift"]
         0 ∅ ∅).2 = Ok es4 /\
    es1 !! 0 = Some (file_ref_entry (generate_uuid (counting (2 * j)))
                       (lit "A.swift")) /\
    es2 !! 0 = Some (build_file_entry (generate_uuid (counting (2 * j + 1)))
                       (generate_uuid (counting (2 * j))) (lit "A.swift")) /\
    es3 !! 0 = Some (child_entry (generate_uuid (counting (2 * j)))
                       (lit "A.swift")) /\
    es4 !! 0 = Some (source_entry (generate_uuid (counting (2 * j + 1)))
                       (lit "A.swift")).
Proof.
  apply (lines_carry_last_drawn_ids
           [lit "A.swift"; lit "B.swift"; lit "A.swift"] counting 0
           (lit "A.swift")).
  reflexivity.
Defined.

(** ** The digits of an identifier *)

Lemma hex_digits_lookup k x i :
  i < k ->
  hex_digits k x !! i
  = Some (hexdigit ((x / 16 ^ Z.of_nat (k - 1 - i)) mod 16)).
Proof.
  revert x i; induction k as [|k IH]; intros x i Hi; [lia|].
  cbn [hex_digits]. destruct (decide (i = k)) as [->|Hne].
  - rewrite lookup_app_r by (rewrite length_hex_digits; lia).
    rewrite length_hex_digits, Nat.sub_diag.
    replace (S k - 1 - k) with 0 by lia.
    by rewrite Z.pow_0_r, Z.div_1_r.
  - rewrite lookup_app_l by (rewrite length_hex_digits; lia).
    rewrite IH by lia. do 3 f_equal.
    replace (S k - 1 - i) with (S (k - 1 - i)) by lia.
    rewrite Nat2Z.inj_succ, Z.pow_succ_r by lia.
    by rewrite Z.div_div by lia.
Qed.

(** The value of a bit of a constant, by computation. *)
Ltac constant_bits :=
  repeat match goal with
    | |- context [Z.testbit ?a ?n] =>
        lazymatch a with context [Z.of_N] => fail | _ => idtac end;
        let b := eval vm_compute in (Z.testbit a n) in
        change (Z.testbit a n) with b
    end;
  rewrite ?andb_false_r, ?andb_true_r, ?orb_false_r, ?orb_true_r.

Lemma uuid4_stamped_bits r :
  Z.testbit (uuid4 r) 76 = false /\ Z.testbit (uuid4 r) 77 = false /\
  Z.testbit (uuid4 r) 78 = true /\ Z.testbit (uuid4 r) 79 = false /\
  Z.testbit (uuid4 r) 62 = false /\ Z.testbit (uuid4 r) 63 = true.
Proof.
  unfold uuid4.
  repeat split; repeat (rewrite Z.lor_spec || rewrite Z.land_spec);
    constant_bits; reflexivity.
Qed.

Lemma uuid4_version r : ((uuid4 r / 2 ^ 76) mod 16 = 4)%Z.
Proof.
  destruct (uuid4_stamped_bits r) as (B76 & B77 & B78 & B79 & _).
  rewrite <- Z.shiftr_div_pow2 by lia.
  change 16%Z with (2 ^ 4)%Z. rewrite <- Z.land_ones by lia.
  apply Z.bits_inj'. intros n Hn.
  rewrite Z.land_spec, Z.shiftr_spec by lia.
  destruct (Z.lt_ge_cases n 4) as [Hlt|Hge].
  - assert (n = 0 \/ n = 1 \/ n = 2 \/ n = 3)%Z as [-> | [-> | [-> | ->]]] by lia.
    + change (0 + 76)%Z with 76%Z. by rewrite B76.
    + change (1 + 76)%Z with 77%Z. by rewrite B77.
    + change (2 + 76)%Z with 78%Z. by rewrite B78.
    + change (3 + 76)%Z with 79%Z. by rewrite B79.
  - rewrite Z.ones_spec_high by lia. rewrite andb_false_r.
    symmetry. apply Z.bits_above_log2; [lia|]. change (Z.log2 4) with 2%Z. lia.
Qed.

Lemma uuid4_variant r : ((uuid4 r / 2 ^ 62) mod 4 = 2)%Z.
Proof.
  destruct (uuid4_stamped_bits r) as (_ & _ & _ & _ & B62 & B63).
  rewrite <- Z.shiftr_div_pow2 by lia.
  change 4%Z with (2 ^ 2)%Z. rewrite <- Z.land_ones by lia.
  apply Z.bits_inj'. intros n Hn.
  rewrite Z.land_spec, Z.shiftr_spec by lia.
  destruct (Z.lt_ge_cases n 2) as [Hlt|Hge].
  - assert (n = 0 \/ n = 1)%Z as [-> | ->] by lia.
    + change (0 + 62)%Z with 62%Z. by rewrite B62.
    + change (1 + 62)%Z with 63%Z. by rewrite B63.
  - rewrite Z.ones_spec_high by lia. rewrite andb_false_r.
    symmetry. apply Z.bits_above_log2; [lia|]. change (Z.log2 2) with 1%Z. lia.
Qed.

(** Lines 22 to 24: an identifier is not random in every digit.  The digit
    at index 12 is always [4], the version that [uuid4] stamps on the
    value, and the digit at index 16 is one of [8], [9], [A] and [B], its
    variant. *)
Theorem version_and_variant_digits r :
  (r < 2 ^ 128)%N ->
  generate_uuid r !! 12 = Some "4"%char /\
  exists c, generate_uuid r !! 16 = Some c /\ c ∈ lit "89AB".
Proof.
  intros Hr. rewrite (generate_uuid_retained r Hr). unfold upper, retained.
  pose proof (uuid4_nonneg r) as Hu.
  rewrite !list_lookup_fmap, !hex_digits_lookup by lia.
  rewrite !Z.shiftr_div_pow2, !Z.div_div by lia.
  change (2 ^ 32 * 16 ^ Z.of_nat (24 - 1 - 12))%Z with (2 ^ 76)%Z.
  change (2 ^ 32 * 16 ^ Z.of_nat (24 - 1 - 16))%Z with (2 ^ 60)%Z.
  rewrite uuid4_version. split; [reflexivity|].
  pose proof (uuid4_variant r) as V.
  set (a := (uuid4 r / 2 ^ 60)%Z).
  assert (E : (uuid4 r / 2 ^ 62 = a / 4)%Z).
  { unfold a. rewrite Z.div_div by lia. reflexivity. }
  rewrite E in V.
  assert (D : (a mod 16 = a mod 4 + 8)%Z).
  { change 16%Z with (4 * 4)%Z. rewrite Z.rem_mul_r by lia. lia. }
  pose proof (Z.mod_pos_bound a 4 ltac:(lia)) as Bd.
  rewrite D.
  assert (a mod 4 = 0 \/ a mod 4 = 1 \/ a mod 4 = 2 \/ a mod 4 = 3)%Z
    as [-> | [-> | [-> | ->]]] by lia;
    (eexists; split; [reflexivity|]); apply (bool_decide_unpack _); by vm_compute.
Qed.

Lemma version_and_variant_digits_witness :
  (5 < 2 ^ 128)%N /\
  generate_uuid 5 !! 12 = Some "4"%char /\
  exists c, generate_uuid 5 !! 16 = Some c /\ c ∈ lit "89AB".
Proof.
  split; [reflexivity|]. apply (version_and_variant_digits 5). reflexivity.
Defined.

Lemma retained_high_bits r1 r2 :
  (r1 / 2 ^ 32 = r2 / 2 ^ 32)%N -> retained r1 = retained r2.
Proof.
  intros H. unfold retained, uuid4.
  rewrite !Z.shiftr_lor, !Z.shiftr_land, !Z.shiftr_lor, !Z.shiftr_land.
  do 4 f_equal. rewrite !Z.shiftr_div_pow2 by lia.
  change (2 ^ 32)%Z with (Z.of_N (2 ^ 32)). rewrite <- !N2Z.inj_div.
  by rewrite H.
Qed.

(** Lines 22 to 24: two draws give the same identifier exactly when the
    UUIDs made of them agree on their 96 leading bits; in particular the
    32 trailing bits of a draw never reach the identifier. *)
Theorem same_identifier_iff r1 r2 :
  (r1 < 2 ^ 128)%N -> (r2 < 2 ^ 128)%N ->
  (generate_uuid r1 = generate_uuid r2 <-> retained r1 = retained r2) /\
  ((r1 / 2 ^ 32 = r2 / 2 ^ 32)%N -> generate_uuid r1 = generate_uuid r2).
Proof.
  intros H1 H2.
  assert (B : retained r1 = retained r2 -> generate_uuid r1 = generate_uuid r2).
  { intros E. by rewrite !generate_uuid_retained, E by done. }
  split.
  - split; [by apply generate_uuid_inj|done].
  - intros E. by apply B, retained_high_bits.
Qed.

Lemma same_identifier_iff_witness :
  (generate_uuid 7 = generate_uuid 9 <-> retained 7 = retained 9) /\
  ((7 / 2 ^ 32 = 9 / 2 ^ 32)%N -> generate_uuid 7 = generate_uuid 9).
Proof.
  apply (same_identifier_iff 7 9); reflexivity.
Defined.

(** ** A section whose end marker comes first *)

(** Lines 59 to 67: when the end marker of the reference section is first
    found before the point of insertion (before the end of the start
    marker), the step still succeeds, and the text between the two is
    written twice, once before and once after the new lines: the slice
    [content[start:end]] is empty and [content[end:]] begins before the
    point of insertion. *)
Theorem end_marker_first_repeats_text files draws content i e :
  find file_ref_marker content = Some i ->
  find file_ref_end_marker content = Some e ->
  e < i + length file_ref_marker ->
  exists es c1,
    file_ref_entries files (generate_ids draws files 0 ∅ ∅).1 = Ok es /\
    insert_file_references files (generate_ids draws files 0 ∅ ∅).1 content
    = Ok c1 /\
    c1 = take e content
         ++ slice content e (i + length file_ref_marker)
         ++ (NL :: join es)
         ++ slice content e (i + length file_ref_marker)
         ++ drop (i + length file_ref_marker) content /\
    length c1
    = length content + 1 + length (join es) + (i + length file_ref_marker - e).
Proof.
  intros Hi He Hlt.
  destruct (generate_ids_ok draws files 0 ∅ ∅) as [Hfr _].
  destruct (file_ref_entries_ok files _ Hfr) as (es & L & _).
  set (p := i + length file_ref_marker) in *.
  assert (Lp : p <= length content).
  { apply find_Some in Hi as [Hi _]. by apply occurs_at_bound in Hi. }
  assert (E : insert_file_references files (generate_ids draws files 0 ∅ ∅).1
                content
              = Ok (take p content ++ (NL :: join es) ++ drop (p `min` e) content))
    by (apply insert_file_references_Ok; by exists es, i, e).
  exists es, (take p content ++ (NL :: join es) ++ drop (p `min` e) content).
  split; [done|]. split; [done|].
  rewrite Nat.min_r by lia. split.
  - rewrite (app_assoc (take e content)). f_equal.
    + unfold slice. rewrite take_take_drop. f_equal. lia.
    + f_equal. rewrite slice_drop. f_equal. lia.
  - rewrite !length_app, length_take, length_drop. cbn [length]. lia.
Qed.

(** A manifest whose reference section is closed before it is opened. *)
Lemma end_marker_first_repeats_text_witness :
  exists es c1,
    file_ref_entries two_names (generate_ids counting two_names 0 ∅ ∅).1 = Ok es /\
    insert_file_references two_names (generate_ids counting two_names 0 ∅ ∅).1
      (lit "/* End PBXFileReference section */" ++ lit " stray "
       ++ lit "/* Begin PBXFileReference section */")
    = Ok c1 /\
    c1 = take 0 (lit "/* End PBXFileReference section */" ++ lit " stray "
                 ++ lit "/* Begin PBXFileReference section */")
         ++ slice (lit "/* End PBXFileReference section */" ++ lit " stray "
                   ++ lit "/* Begin PBXFileReference section */")
              0 (41 + length file_ref_marker)
         ++ (NL :: join es)
         ++ slice (lit "/* End PBXFileReference section */" ++ lit " stray "
                   ++ lit "/* Begin PBXFileReference section */")
              0 (41 + length file_ref_marker)
         ++ drop (41 + length file_ref_marker)
              (lit "/* End PBXFileReference section */" ++ lit " stray "
               ++ lit "/* Begin PBXFileReference section */") /\
    length c1
    = length (lit "/* End PBXFileReference section */" ++ lit " stray "
              ++ lit "/* Begin PBXFileReference section */")
      + 1 + length (join es) + (41 + length file_ref_marker - 0).
Proof.
  apply (end_marker_first_repeats_text two_names counting
           (lit "/* End PBXFileReference section */" ++ lit " stray "
            ++ lit "/* Begin PBXFileReference section */") 41 0).
  - vm_compute. reflexivity.
  - vm_compute. reflexivity.
  - vm_compute. lia.
Defined.

(** ** The start marker of the build-file section *)

Lemma insert_build_files_no_start files fr bf c :
  contains build_file_marker c = false ->
  exists e, insert_build_files files fr bf c = Raise e.
Proof.
  intros H. destruct (insert_build_files files fr bf c) as [out|e] eqn:E;
    [|by exists e].
  apply insert_build_files_Ok in E as (es & i & e & _ & Hi & _).
  apply contains_false in H. destruct H. apply find_is_Some. by eexists.
Qed.

Lemma build_start_missing_aborts_for files draws w content :
  sealed build_file_marker (refs_block_t files) = true ->
  disk w = Some content ->
  contains build_file_marker content = false ->
  (exists e, (add_files_to_project files draws w).1 = Returned false \/
             (add_files_to_project files draws w).1 = Raised e) /\
  disk (add_files_to_project files draws w).2 = Some content.
Proof.
  intros Hs Hw H.
  pose proof (read_disk _ _ Hw) as Hr.
  rewrite <- (contains_universal_newlines _ content) in H by done.
  set (text := universal_newlines content) in *.
  assert (G : exists e, (add_files_to_project files draws w).1 = Returned false \/
                        (add_files_to_project files draws w).1 = Raised e).
  { destruct (contains file_ref_marker text) eqn:RS.
    - destruct (generate_ids_ok draws files 0 ∅ ∅) as [Hfr Hbf].
      rewrite (run_edit _ _ _ _ Hr RS). unfold edit.
      destruct (insert_file_references _ _ text) as [c1|e] eqn:E1;
        [|by exists e; right].
      apply insert_file_references_spliced in E1 as (es & _ & HI & HS); [|done].
      destruct (sealed_sound _ _ _ Hs HI) as (Hp & HF & Hno).
      apply contains_false in H.
      assert (Hne : build_file_marker <> []) by done.
      pose proof (spliced_absent _ _ _ _ _ HS Hne Hp HF Hno H) as H1.
      apply contains_false in H1.
      destruct (insert_build_files_no_start files
                  (generate_ids draws files 0 ∅ ∅).1
                  (generate_ids draws files 0 ∅ ∅).2 c1 H1) as [e He].
      exists e. right. cbn. by rewrite He.
    - exists ValueError. left. by rewrite (run_no_reference_section _ _ _ _ Hr RS). }
  split; [done|]. rewrite run_failed_disk; [done|].
  unfold failed. by destruct G as [e [-> | ->]].
Qed.

(** Lines 81 and 139 to 141: a manifest without the start marker of the
    build-file section is never written.  The lines put into the reference
    section cannot bring the marker in, so the lookup of line 81 fails (or
    the run has ended before): the process ends with status 1 and the file
    keeps its content. *)
Theorem build_start_missing_aborts draws w content :
  disk w = Some content ->
  contains build_file_marker content = false ->
  failed (add_files_to_project new_files draws w).1 /\
  (main draws w).1 = 1%Z /\
  disk (main draws w).2 = Some content.
Proof.
  intros Hw H.
  destruct (build_start_missing_aborts_for new_files draws w content)
    as ([e G] & D); [by vm_compute|done|done|].
  unfold main, failed.
  destruct (add_files_to_project new_files draws w) as [o w'].
  simpl in *. by destruct G as [-> | ->].
Qed.

Lemma build_start_missing_aborts_witness :
  failed (add_files_to_project new_files counting
            (World (Some (lit "/* Begin PBXFileReference section */"
                          ++ lit "/* End PBXFileReference section */")) [])).1 /\
  (main counting
     (World (Some (lit "/* Begin PBXFileReference section */"
                   ++ lit "/* End PBXFileReference section */")) [])).1 = 1%Z /\
  disk (main counting
          (World (Some (lit "/* Begin PBXFileReference section */"
                        ++ lit "/* End PBXFileReference section */")) [])).2
  = Some (lit "/* Begin PBXFileReference section */"
          ++ lit "/* End PBXFileReference section */").
Proof.
  apply (build_start_missing_aborts counting
           (World (Some (lit "/* Begin PBXFileReference section */"
                         ++ lit "/* End PBXFileReference section */")) [])).
  - reflexivity.
  - vm_compute. reflexivity.
Defined.

(** ** Lists that are not opened or not closed *)

Lemma add_to_children_raises_iff files fr c :
  ids_ok files fr ->
  add_to_children files fr c = Raise ValueError <->
  exists g,
    find main_group_marker c = Some g /\
    (contains children_marker (drop g c) = false \/
     exists cp, index_from children_marker c g = Ok cp /\
                contains list_end (drop cp c) = false).
Proof.
  intros Hfr. destruct (file_ref_in_children_ok files fr Hfr) as (es & Hes & _).
  unfold add_to_children, index, index_from, contains.
  destruct (find main_group_marker c) as [g|] eqn:Hg.
  2: { rewrite bool_decide_eq_false_2 by (by intros [? ?]).
       split; [done|by intros (g & ? & _)]. }
  rewrite bool_decide_eq_true_2 by done. simpl.
  destruct (find children_marker (drop g c)) as [j|] eqn:Hj; simpl.
  2: { split; [|done]. intros _. exists g. split; [done|]. left.
       rewrite Hj. apply bool_decide_eq_false_2. by intros [? ?]. }
  destruct (find list_end (drop (g + j) c)) as [k|] eqn:Hk; simpl.
  2: { split; [|done]. intros _. exists g. split; [done|]. right.
       exists (g + j). rewrite Hj. split; [done|].
       rewrite Hk. apply bool_decide_eq_false_2. by intros [? ?]. }
  rewrite Hes. simpl. split; [done|].
  intros (g' & [= <-] & [H | (cp & H1 & H)]).
  - rewrite Hj in H. by rewrite bool_decide_eq_true_2 in H.
  - rewrite Hj in H1. injection H1 as <-. rewrite Hk in H.
    by rewrite bool_decide_eq_true_2 in H.
Qed.

Lemma add_to_sources_raises_iff files bf c :
  ids_ok files bf ->
  add_to_sources files bf c = Raise ValueError <->
  exists g,
    find sources_phase_marker c = Some g /\
    (contains files_marker (drop g c) = false \/
     exists fp, index_from files_marker c g = Ok fp /\
                contains list_end (drop fp c) = false).
Proof.
  intros Hbf. destruct (build_file_in_sources_ok files bf Hbf) as (es & Hes & _).
  unfold add_to_sources, index, index_from, contains.
  destruct (find sources_phase_marker c) as [g|] eqn:Hg.
  2: { rewrite bool_decide_eq_false_2 by (by intros [? ?]).
       split; [done|by intros (g & ? & _)]. }
  rewrite bool_decide_eq_true_2 by done. simpl.
  destruct (find files_marker (drop g c)) as [j|] eqn:Hj; simpl.
  2: { split; [|done]. intros _. exists g. split; [done|]. left.
       rewrite Hj. apply bool_decide_eq_false_2. by intros [? ?]. }
  destruct (find list_end (drop (g + j) c)) as [k|] eqn:Hk; simpl.
  2: { split; [|done]. intros _. exists g. split; [done|]. right.
       exists (g + j). rewrite Hj. split; [done|].
       rewrite Hk. apply bool_decide_eq_false_2. by intros [? ?]. }
  rewrite Hes. simpl. split; [done|].
  intros (g' & [= <-] & [H | (fp & H1 & H)]).
  - rewrite Hj in H. by rewrite bool_decide_eq_true_2 in H.
  - rewrite Hj in H1. injection H1 as <-. rewrite Hk in H.
    by rewrite bool_decide_eq_true_2 in H.
Qed.

Lemma reference_step_found files fr content c1 :
  insert_file_references files fr content = Ok c1 ->
  contains file_ref_marker content = true.
Proof.
  intros E. apply insert_file_references_Ok in E as (es & i & e & _ & Hi & _).
  apply contains_true, find_is_Some. by eexists.
Qed.

(** Lines 96 to 101 and 139 to 141: the group step raises [ValueError]
    exactly when the text that reaches it contains the group marker and,
    from the first occurrence of the marker on, either no ["children = ("]
    or, from the first such token on, no [");"].  The run then ends with
    this exception and nothing is written or printed. *)
Theorem group_list_unfinished_raises files draws w content c1 c2 :
  read w = Some content ->
  insert_file_references files (generate_ids draws files 0 ∅ ∅).1 content
  = Ok c1 ->
  insert_build_files files (generate_ids draws files 0 ∅ ∅).1
    (generate_ids draws files 0 ∅ ∅).2 c1 = Ok c2 ->
  (add_to_children files (generate_ids draws files 0 ∅ ∅).1 c2
   = Raise ValueError <->
   exists g,
     find main_group_marker c2 = Some g /\
     (contains children_marker (drop g c2) = false \/
      exists cp, index_from children_marker c2 g = Ok cp /\
                 contains list_end (drop cp c2) = false)) /\
  ((exists g,
     find main_group_marker c2 = Some g /\
     (contains children_marker (drop g c2) = false \/
      exists cp, index_from children_marker c2 g = Ok cp /\
                 contains list_end (drop cp c2) = false)) ->
   add_files_to_project files draws w = (Raised ValueError, w)).
Proof.
  intros Hw E1 E2.
  destruct (generate_ids_ok draws files 0 ∅ ∅) as [Hfr _].
  pose proof (add_to_children_raises_iff files _ c2 Hfr) as R.
  split; [done|]. intros H. apply R in H.
  apply (edit_raises_unchanged _ _ _ content); [done| |].
  - by apply (reference_step_found _ _ _ _ E1).
  - unfold edit. rewrite E1. simpl. rewrite E2. simpl. by rewrite H.
Qed.

Lemma group_list_unfinished_raises_witness :
  add_to_children new_files (generate_ids counting new_files 0 ∅ ∅).1
    unclosed_c2 = Raise ValueError /\
  add_files_to_project new_files counting
    (World (Some manifest_unclosed_children) [])
  = (Raised ValueError, World (Some manifest_unclosed_children) []).
Proof.
  destruct (group_list_unfinished_raises new_files counting
              (World (Some manifest_unclosed_children) [])
              manifest_unclosed_children unclosed_c1 unclosed_c2) as [A B].
  - reflexivity.
  - vm_compute. reflexivity.
  - vm_compute. reflexivity.
  - assert (C : exists g,
               find main_group_marker unclosed_c2 = Some g /\
               (contains children_marker (drop g unclosed_c2) = false \/
                exists cp, index_from children_marker unclosed_c2 g = Ok cp /\
                           contains list_end (drop cp unclosed_c2) = false)).
    { exists (default 0 (find main_group_marker unclosed_c2)).
      split; [vm_compute; reflexivity|]. right.
      eexists. split.
      - vm_compute. reflexivity.
      - vm_compute. reflexivity. }
    split; [by apply A|by apply B].
Defined.

(** Lines 119 to 124 and 139 to 141: once the first three steps have gone
    through, the run ends with [ValueError], nothing written and nothing
    printed, exactly when the text that reaches the last step contains the
    marker of the Sources phase and, from its first occurrence on, either
    no ["files = ("] or, from the first such token on, no [");"]. *)
Theorem sources_list_unfinished_raises files draws w content c1 c2 c3 :
  read w = Some content ->
  insert_file_references files (generate_ids draws files 0 ∅ ∅).1 content
  = Ok c1 ->
  insert_build_files files (generate_ids draws files 0 ∅ ∅).1
    (generate_ids draws files 0 ∅ ∅).2 c1 = Ok c2 ->
  add_to_children files (generate_ids draws files 0 ∅ ∅).1 c2 = Ok c3 ->
  add_files_to_project files draws w = (Raised ValueError, w) <->
  exists g,
    find sources_phase_marker c3 = Some g /\
    (contains files_marker (drop g c3) = false \/
     exists fp, index_from files_marker c3 g = Ok fp /\
                contains list_end (drop fp c3) = false).
Proof.
  intros Hw E1 E2 E3.
  destruct (generate_ids_ok draws files 0 ∅ ∅) as [_ Hbf].
  rewrite <- (add_to_sources_raises_iff files _ c3 Hbf).
  rewrite (run_edit _ _ _ _ Hw (reference_step_found _ _ _ _ E1)).
  unfold edit. rewrite E1. simpl. rewrite E2. simpl. rewrite E3. simpl.
  destruct (add_to_sources _ _ c3) as [out|e]; split; try done.
  - by intros [= ->].
  - by intros [= ->].
Qed.

Lemma sources_list_unfinished_raises_witness :
  add_files_to_project new_files counting
    (World (Some manifest_sources_without_files) [])
  = (Raised ValueError, World (Some manifest_sources_without_files) []).
Proof.
  apply (sources_list_unfinished_raises new_files counting
           (World (Some manifest_sources_without_files) [])
           manifest_sources_without_files bare_sources_c1 bare_sources_c2
           bare_sources_c2).
  - reflexivity.
  - vm_compute. reflexivity.
  - vm_compute. reflexivity.
  - vm_compute. reflexivity.
  - exists (default 0 (find sources_phase_marker bare_sources_c2)).
    split; [vm_compute; reflexivity|]. left. vm_compute. reflexivity.
Defined.

(** ** Where the list steps insert *)

Lemma index_from_first m s k q :
  index_from m s k = Ok q -> forall x, k <= x < q -> ~ occurs_at m s x.
Proof.
  rewrite index_from_Ok. intros (j & Hj & ->) x Hx Hocc.
  apply find_Some in Hj as [_ Hmin]. apply (Hmin (x - k)); [lia|].
  apply occurs_at_drop. by replace (k + (x - k)) with x by lia.
Qed.

Lemma drop_occurrence t (c : str) q :
  occurs_at t c q -> drop q c = t ++ drop (q + length t) c.
Proof.
  unfold occurs_at. intros H.
  rewrite <- (take_drop (length t) (drop q c)) at 1.
  by rewrite H, drop_drop.
Qed.

(** Lines 96 to 114: when the text contains the group marker and the group
    step succeeds, one line per name is placed directly before a [");"]:
    the first one that begins at or after the first ["children = ("] that
    begins at or after the first occurrence of the group marker.  The text
    before that [");"] and the text from it on are kept as they are. *)
Theorem children_go_before_first_closing_token files draws c out :
  contains main_group_marker c = true ->
  add_to_children files (generate_ids draws files 0 ∅ ∅).1 c = Ok out ->
  exists g cp q es,
    (occurs_at main_group_marker c g /\
     forall x, x < g -> ~ occurs_at main_group_marker c x) /\
    (occurs_at children_marker c cp /\ g <= cp /\
     forall x, g <= x < cp -> ~ occurs_at children_marker c x) /\
    (occurs_at list_end c q /\ cp <= q /\
     forall x, cp <= x < q -> ~ occurs_at list_end c x) /\
    file_ref_in_children files (generate_ids draws files 0 ∅ ∅).1 = Ok es /\
    length es = length files /\
    out = take q c ++ join es ++ list_end ++ drop (q + length list_end) c.
Proof.
  intros Hc E.
  destruct (generate_ids_ok draws files 0 ∅ ∅) as [Hfr _].
  destruct (file_ref_in_children_ok files _ Hfr) as (es' & Hes' & L & _).
  apply add_to_children_Ok in E as (g & cp & q & es & Hg & Hcp & Hq & Hes & ->);
    [|done].
  assert (es' = es) as -> by congruence.
  exists g, cp, q, es.
  destruct (index_from_occurs _ _ _ _ Hcp) as [O1 L1].
  destruct (index_from_occurs _ _ _ _ Hq) as [O2 L2].
  split; [by apply find_Some|].
  split; [by repeat split; [| |apply (index_from_first _ _ _ _ Hcp)]|].
  split; [by repeat split; [| |apply (index_from_first _ _ _ _ Hq)]|].
  split; [done|]. split; [done|].
  by rewrite <- (drop_occurrence _ _ _ O2).
Qed.

Lemma children_go_before_first_closing_token_witness :
  exists g cp q es,
    (occurs_at main_group_marker sample_c2 g /\
     forall x, x < g -> ~ occurs_at main_group_marker sample_c2 x) /\
    (occurs_at children_marker sample_c2 cp /\ g <= cp /\
     forall x, g <= x < cp -> ~ occurs_at children_marker sample_c2 x) /\
    (occurs_at list_end sample_c2 q /\ cp <= q /\
     forall x, cp <= x < q -> ~ occurs_at list_end sample_c2 x) /\
    file_ref_in_children new_files (generate_ids counting new_files 0 ∅ ∅).1
    = Ok es /\
    length es = length new_files /\
    sample_c3
    = take q sample_c2 ++ join es ++ list_end
      ++ drop (q + length list_end) sample_c2.
Proof.
  apply (children_go_before_first_closing_token new_files counting
           sample_c2 sample_c3).
  - vm_compute. reflexivity.
  - vm_compute. reflexivity.
Defined.

(** Lines 119 to 137: the same for the Sources phase.  When the text
    contains its marker and the step succeeds, one line per name is placed
    directly before the first [");"] that begins at or after the first
    ["files = ("] that begins at or after the first occurrence of the
    marker; the text on both sides is kept as it is. *)
Theorem sources_go_before_first_closing_token files draws c out :
  contains sources_phase_marker c = true ->
  add_to_sources files (generate_ids draws files 0 ∅ ∅).2 c = Ok out ->
  exists g fp q es,
    (occurs_at sources_phase_marker c g /\
     forall x, x < g -> ~ occurs_at sources_phase_marker c x) /\
    (occurs_at files_marker c fp /\ g <= fp /\
     forall x, g <= x < fp -> ~ occurs_at files_marker c x) /\
    (occurs_at list_end c q /\ fp <= q /\
     forall x, fp <= x < q -> ~ occurs_at list_end c x) /\
    build_file_in_sources files (generate_ids draws files 0 ∅ ∅).2 = Ok es /\
    length es = length files /\
    out = take q c ++ join es ++ list_end ++ drop (q + length list_end) c.
Proof.
  intros Hc E.
  destruct (generate_ids_ok draws files 0 ∅ ∅) as [_ Hbf].
  destruct (build_file_in_sources_ok files _ Hbf) as (es' & Hes' & L & _).
  apply add_to_sources_Ok in E as (g & fp & q & es & Hg & Hfp & Hq & Hes & ->);
    [|done].
  assert (es' = es) as -> by congruence.
  exists g, fp, q, es.
  destruct (index_from_occurs _ _ _ _ Hfp) as [O1 L1].
  destruct (index_from_occurs _ _ _ _ Hq) as [O2 L2].
  split; [by apply find_Some|].
  split; [by repeat split; [| |apply (index_from_first _ _ _ _ Hfp)]|].
  split; [by repeat split; [| |apply (index_from_first _ _ _ _ Hq)]|].
  split; [done|]. split; [done|].
  by rewrite <- (drop_occurrence _ _ _ O2).
Qed.

Lemma sources_go_before_first_closing_token_witness :
  exists g fp q es,
    (occurs_at sources_phase_marker sample_c3 g /\
     forall x, x < g -> ~ occurs_at sources_phase_marker sample_c3 x) /\
    (occurs_at files_marker sample_c3 fp /\ g <= fp /\
     forall x, g <= x < fp -> ~ occurs_at files_marker sample_c3 x) /\
    (occurs_at list_end sample_c3 q /\ fp <= q /\
     forall x, fp <= x < q -> ~ occurs_at list_end sample_c3 x) /\
    build_file_in_sources new_files (generate_ids counting new_files 0 ∅ ∅).2
    = Ok es /\
    length es = length new_files /\
    sample_out
    = take q sample_c3 ++ join es ++ list_end
      ++ drop (q + length list_end) sample_c3.
Proof.
  apply (sources_go_before_first_closing_token new_files counting
           sample_c3 sample_out).
  - vm_compute. reflexivity.
  - vm_compute. reflexivity.
Defined.

(** ** An empty list of names *)

Lemma insertion_with_no_lines t (c : str) i e :
  t <> [] -> find t c = Some i ->
  length c + 1
  <= length (take (i + length t) c ++ (NL :: join [])
             ++ drop ((i + length t) `min` e) c).
Proof.
  intros Ht Hi. apply find_Some in Hi as [Hi _].
  pose proof (occurs_at_bound _ _ _ Ht Hi).
  rewrite !length_app, length_take, length_drop. cbn [length join concat]. lia.
Qed.

Lemma insertion_without_CR (c : str) p m :
  CR ∉ c -> CR ∉ take p c ++ (NL :: join []) ++ drop m c.
Proof.
  intros H. rewrite !elem_of_app. cbn [join concat app].
  rewrite elem_of_cons. intros [Ht | [Hn | Hd]].
  - by apply H, (subseteq_take p c).
  - destruct Hn as [Hn|Hn]; [by vm_compute in Hn|by apply elem_of_nil in Hn].
  - by apply H, (subseteq_drop m c).
Qed.

(** Lines 34 to 141 with nothing to add: a run on the empty list that
    succeeds still rewrites the file, and never with the content it had.
    The two section steps each put one line feed after their start marker,
    so the text written is at least two characters longer than the text
    read (the content of the file with [\r\n] and [\r] turned into
    [\n]); the two list steps leave it as it is; the report is its first
    line alone, with the count 0. *)
Theorem empty_list_still_rewrites draws w stored :
  disk w = Some stored ->
  (add_files_to_project [] draws w).1 = Returned true ->
  exists c1 out,
    insert_file_references [] ∅ (universal_newlines stored) = Ok c1 /\
    insert_build_files [] ∅ ∅ c1 = Ok out /\
    add_to_children [] ∅ out = Ok out /\
    add_to_sources [] ∅ out = Ok out /\
    length (universal_newlines stored) + 2 <= length out /\
    disk (add_files_to_project [] draws w).2 = Some out /\
    out <> stored /\
    stdout (add_files_to_project [] draws w).2
    = stdout w ++ [lit "Successfully added 0 files to the Xcode project:"].
Proof.
  intros Hw H.
  destruct (run_success [] draws w _ (read_disk _ _ Hw) H) as (out & E & R).
  rewrite R. cbn [snd fst generate_ids] in *. clear R H.
  set (content := universal_newlines stored) in *.
  unfold edit in E.
  destruct (insert_file_references [] ∅ content) as [c1|] eqn:E1; [|done].
  simpl in E.
  destruct (insert_build_files [] ∅ ∅ c1) as [c2|] eqn:E2; [|done].
  simpl in E.
  destruct (add_to_children [] ∅ c2) as [c3|] eqn:E3; [|done].
  simpl in E.
  assert (c3 = c2) as ->.
  { destruct (contains main_group_marker c2) eqn:G.
    - apply add_to_children_Ok in E3
        as (g & cp & q & es & _ & _ & _ & [= <-] & ->); [|done].
      simpl. by rewrite take_drop.
    - rewrite add_to_children_skip in E3 by done. congruence. }
  assert (out = c2) as ->.
  { destruct (contains sources_phase_marker c2) eqn:G.
    - apply add_to_sources_Ok in E
        as (g & fp & q & es & _ & _ & _ & [= <-] & ->); [|done].
      simpl. by rewrite take_drop.
    - rewrite add_to_sources_skip in E by done. congruence. }
  exists c1, c2. do 4 (split; [done|]).
  apply insert_file_references_Ok in E1 as (es1 & i1 & e1 & [= <-] & Hi1 & _ & ->).
  apply insert_build_files_Ok in E2 as (es2 & i2 & e2 & [= <-] & Hi2 & _ & ->).
  assert (N1 : file_ref_marker <> []) by done.
  assert (N2 : build_file_marker <> []) by done.
  pose proof (insertion_with_no_lines _ _ _ e1 N1 Hi1) as L1.
  pose proof (insertion_with_no_lines _ _ _ e2 N2 Hi2) as L2.
  split; [lia|]. split; [apply disk_write|]. split; [|done].
  intros Heq. destruct (decide (CR ∈ stored)) as [Hin|Hnot].
  - rewrite <- Heq in Hin. revert Hin.
    apply insertion_without_CR, insertion_without_CR.
    apply universal_newlines_no_CR.
  - unfold content in *. rewrite (universal_newlines_plain _ Hnot) in *.
    apply (f_equal length) in Heq. lia.
Qed.

(** On the sample manifest with Windows line ends, where the file written
    is shorter than the file read. *)
Lemma empty_list_still_rewrites_witness :
  exists c1 out,
    insert_file_references [] ∅ (universal_newlines crlf_manifest) = Ok c1 /\
    insert_build_files [] ∅ ∅ c1 = Ok out /\
    add_to_children [] ∅ out = Ok out /\
    add_to_sources [] ∅ out = Ok out /\
    length (universal_newlines crlf_manifest) + 2 <= length out /\
    disk (add_files_to_project [] counting (World (Some crlf_manifest) [])).2
    = Some out /\
    out <> crlf_manifest /\
    stdout (add_files_to_project [] counting (World (Some crlf_manifest) [])).2
    = stdout (World (Some crlf_manifest) [])
      ++ [lit "Successfully added 0 files to the Xcode project:"].
Proof.
  apply (empty_list_still_rewrites counting (World (Some crlf_manifest) [])).
  - reflexivity.
  - vm_compute. reflexivity.
Defined.

(** ** Line ends *)

Lemma occurs_singleton (x : ascii) (s : str) : x ∈ s -> occurs [x] s.
Proof.
  intros H. apply list_elem_of_lookup in H as [i Hi]. exists i.
  unfold occurs_at. cbn [length].
  pose proof (lookup_drop s i 0) as L. rewrite Nat.add_0_r, Hi in L.
  destruct (drop i s) as [|y t]; simpl in L; [done|].
  injection L as ->. done.
Qed.

Lemma block_without_CR T (B : str) :
  may_occur [CR] T = false -> instance_of T B -> CR ∉ B.
Proof.
  intros H I Hin. apply occurs_singleton in Hin.
  by rewrite (may_occur_sound _ _ _ I Hin) in H.
Qed.

Lemma spliced_without t (B c out : str) (x : ascii) :
  spliced t B c out -> x ∉ c -> x ∉ B -> x ∉ out.
Proof.
  intros (p & m & _ & _ & _ & ->) Hc HB. rewrite !elem_of_app.
  intros [Ht | [Hb | Hd]].
  - by apply Hc, (subseteq_take p c).
  - done.
  - by apply Hc, (subseteq_drop m c).
Qed.

Lemma edit_without_CR files draws content out :
  entries_without_CR files = true ->
  CR ∉ content ->
  edit files (generate_ids draws files 0 ∅ ∅).1
       (generate_ids draws files 0 ∅ ∅).2 content = Ok out ->
  CR ∉ out.
Proof.
  unfold entries_without_CR. rewrite !andb_true_iff, !negb_true_iff.
  intros [[[T1 T2] T3] T4] H0 E.
  destruct (generate_ids_ok draws files 0 ∅ ∅) as [Hfr Hbf].
  set (fr := (generate_ids draws files 0 ∅ ∅).1) in *.
  set (bf := (generate_ids draws files 0 ∅ ∅).2) in *.
  unfold edit in E.
  destruct (insert_file_references files fr content) as [c1|] eqn:E1; [|done].
  simpl in E.
  destruct (insert_build_files files fr bf c1) as [c2|] eqn:E2; [|done].
  simpl in E.
  destruct (add_to_children files fr c2) as [c3|] eqn:E3; [|done].
  simpl in E.
  apply insert_file_references_spliced in E1 as (es1 & _ & I1 & P1); [|done].
  apply insert_build_files_spliced in E2 as (es2 & _ & I2 & P2); [|done..].
  assert (H1 : CR ∉ c1)
    by (apply (spliced_without _ _ _ _ _ P1 H0 (block_without_CR _ _ T1 I1))).
  assert (H2 : CR ∉ c2)
    by (apply (spliced_without _ _ _ _ _ P2 H1 (block_without_CR _ _ T2 I2))).
  assert (H3 : CR ∉ c3).
  { destruct (contains main_group_marker c2) eqn:G.
    - apply add_to_children_spliced in E3 as (es3 & _ & I3 & P3); [|done..].
      apply (spliced_without _ _ _ _ _ P3 H2 (block_without_CR _ _ T3 I3)).
    - rewrite add_to_children_skip in E3 by done. congruence. }
  destruct (contains sources_phase_marker c3) eqn:G.
  - apply add_to_sources_spliced in E as (es4 & _ & I4 & P4); [|done..].
    apply (spliced_without _ _ _ _ _ P4 H3 (block_without_CR _ _ T4 I4)).
  - rewrite add_to_sources_skip in E by done. congruence.
Qed.

(** Lines 34 to 35 with lines 52 to 141: the file that a successful run of
    the script writes has no carriage return, whatever the line ends of
    the file read.  The text read has none, the entries of the four loops
    have none, and the text is written as it is.  A manifest with
    carriage returns is therefore rewritten as a whole, not only at the
    four points of insertion. *)
Theorem no_carriage_return_written draws w :
  (add_files_to_project new_files draws w).1 = Returned true ->
  exists stored out,
    disk w = Some stored /\
    disk (add_files_to_project new_files draws w).2 = Some out /\
    (CR ∉ out) /\
    (CR ∈ stored -> ~ stored `sublist_of` out).
Proof.
  intros H. destruct (disk w) as [stored|] eqn:Hw;
    [|by rewrite (run_missing_file _ _ _ Hw) in H].
  destruct (run_success _ _ _ _ (read_disk _ _ Hw) H) as (out & E & R).
  exists stored, out. split; [done|].
  split; [rewrite R; cbn [snd]; rewrite disk_report; apply disk_write|].
  assert (O : CR ∉ out).
  { eapply (edit_without_CR new_files draws); [by vm_compute| |done].
    apply universal_newlines_no_CR. }
  split; [done|]. intros I S. apply O.
  eapply elem_of_submseteq; [exact I|]. by apply sublist_submseteq.
Qed.

Lemma no_carriage_return_written_witness :
  exists stored out,
    disk (World (Some crlf_manifest) []) = Some stored /\
    disk (add_files_to_project new_files counting
            (World (Some crlf_manifest) [])).2 = Some out /\
    (CR ∉ out) /\
    (CR ∈ stored -> ~ stored `sublist_of` out).
Proof.
  apply (no_carriage_return_written counting (World (Some crlf_manifest) [])).
  vm_compute. reflexivity.
Defined.
